(** * galaxy-lib: managed toolbox configuration, YAML group inlining and
      the dependency-resolver view

    A shallow embedding of

    - [galaxy/tools/toolbox/parser.py]       (modules [Parser] and [ToolConf]),
    - [galaxy/tools/toolbox/managed_conf.py] (modules [ManagedConf] and
      [ManagedConfView]),
    - [galaxy/tools/deps/views.py]           (modules [Views], [FlatTupleSet]
      and [DependencyResolversView]),

    over a small model of the Python values these files manipulate: the
    documents are what [json.loads] and [yaml.load] return, so they are
    modelled as JSON values whose objects are finite maps with string
    keys. *)

From stdpp Require Import gmap strings list fin_maps.
From Stdlib Require Import ZArith Ascii.
Local Open Scope string_scope.
Local Open Scope list_scope.
Set Warnings "-register-all".

(** ** Python values *)

(** What [json.loads] returns.  Floating point numbers are left out. *)
Inductive json :=
| JNull
| JBool (b : bool)
| JInt (z : Z)
| JStr (s : string)
| JList (l : list json)
| JDict (d : gmap string json).

Global Instance json_inhabited : Inhabited json := populate JNull.

Global Instance json_eq_dec : EqDecision json.
Proof.
  refine (fix go (a b : json) {struct a} : Decision (a = b) :=
    let _ : EqDecision json := @go in
    match a, b with
    | JNull, JNull => left _
    | JBool x, JBool y => cast_if (decide (x = y))
    | JInt x, JInt y => cast_if (decide (x = y))
    | JStr x, JStr y => cast_if (decide (x = y))
    | JList x, JList y => cast_if (decide (x = y))
    | JDict x, JDict y => cast_if (decide (x = y))
    | _, _ => right _
    end); abstract congruence.
Defined.

(** The number of constructors of a value, for inductions that follow
    the items of a dict. *)
Fixpoint json_size (j : json) : nat :=
  match j with
  | JList l => S (sum_list_with json_size l)
  | JDict d => S (map_fold (λ _ v acc, json_size v + acc) 0 d)
  | _ => 1
  end.

(** Python's [==] identifies [True] with [1] and [False] with [0]
    ([bool] is a subclass of [int]) and compares lists and dicts by
    content; on everything else of the model it is structural equality. *)
Fixpoint normalize (j : json) : json :=
  match j with
  | JBool b => JInt (if b then 1 else 0)
  | JList l => JList (normalize <$> l)
  | JDict d => JDict (normalize <$> d)
  | _ => j
  end.

Definition py_eq (a b : json) : bool := bool_decide (normalize a = normalize b).

(** The exceptions the three files can raise. *)
Inductive exn :=
| KeyError (key : json)
| TypeError
| AttributeError
| ValueError
| IndexError
| AssertionError
| IOError
| Exception (arg : json)
| ConcurrentWriteException
| RequestParameterMissingException (message : string)
| NotImplemented.

Global Instance exn_eq_dec : EqDecision exn.
Proof. solve_decision. Defined.

Inductive result (A : Type) :=
| Ok (a : A)
| Raise (e : exn).
Global Arguments Ok {A} a.
Global Arguments Raise {A} e.

Global Instance result_eq_dec {A} `{EqDecision A} : EqDecision (result A).
Proof. solve_decision. Defined.

Global Instance result_ret : MRet result := @Ok.
Global Instance result_bind : MBind result := λ A B f m,
  match m with
  | Ok a => f a
  | Raise e => Raise e
  end.

(** [bool(x)], as used by [not x]. *)
Definition py_truthy (j : json) : bool :=
  match j with
  | JNull => false
  | JBool b => b
  | JInt z => negb (z =? 0)%Z
  | JStr s => negb (String.eqb s "")
  | JList l => negb (bool_decide (l = []))
  | JDict d => negb (bool_decide (d = ∅))
  end.

(** Lists and dicts are unhashable: they cannot be dict keys. *)
Definition hashable (j : json) : bool :=
  match j with
  | JList _ | JDict _ => false
  | _ => true
  end.

(** [o.get(key, default)]: only dicts have a [get] method. *)
Definition py_get (o : json) (key : string) (dflt : json) : result json :=
  match o with
  | JDict d => Ok (default dflt (d !! key))
  | _ => Raise AttributeError
  end.

(** [o[key]] for a string [key]. *)
Definition py_getitem (o : json) (key : string) : result json :=
  match o with
  | JDict d =>
      match d !! key with
      | Some v => Ok v
      | None => Raise (KeyError (JStr key))
      end
  | _ => Raise TypeError
  end.

Fixpoint str_contains (needle hay : string) : bool :=
  String.prefix needle hay ||
  match hay with
  | EmptyString => false
  | String _ hay' => str_contains needle hay'
  end.

(** [key in o] for a string [key]: a key test on a dict, a membership
    test on a list, a substring test on a string. *)
Definition py_contains (key : string) (o : json) : result bool :=
  match o with
  | JDict d => Ok (bool_decide (is_Some (d !! key)))
  | JList l => Ok (existsb (py_eq (JStr key)) l)
  | JStr s => Ok (str_contains key s)
  | _ => Raise TypeError
  end.

Fixpoint chars (s : string) : list json :=
  match s with
  | EmptyString => []
  | String c s' => JStr (String c EmptyString) :: chars s'
  end.

(** What [for x in o] walks over: the elements of a list, the characters
    of a string, the keys of a dict (in an order of the dict's choosing). *)
Definition py_iter (o : json) : result (list json) :=
  match o with
  | JList l => Ok l
  | JStr s => Ok (chars s)
  | JDict d => Ok (JStr <$> (map_to_list d).*1)
  | _ => Raise TypeError
  end.

(** [f] applied to what a dict holds under ["items"].  It is
    [f <$> d !! "items"] (lemma [on_items_lookup]), written so that a
    function that descends into the items of a dict is structurally
    recursive. *)
Definition on_items {A} (f : json → A) (d : gmap string json) : option A :=
  (f <$> d) !! "items".

(** [x] is a dict whose ["type"] is [t]. *)
Definition is_type (t : string) (x : json) : bool :=
  match x with
  | JDict d => py_eq (default JNull (d !! "type")) (JStr t)
  | _ => false
  end.

(** [l.insert(i, x)]: an index past the end appends. *)
Definition list_insert_at {A} (i : nat) (x : A) (l : list A) : list A :=
  take i l ++ x :: drop i l.

(** A Python dict whose keys are JSON scalars rather than strings
    ([group_map] of the parser): the most recent binding of a key is the
    first one in the list. *)
Definition pydict := list (json * json).

Definition pydict_setitem (m : pydict) (k v : json) : result pydict :=
  if hashable k then Ok ((k, v) :: m) else Raise TypeError.

Definition pydict_getitem (m : pydict) (k : json) : result json :=
  if hashable k then
    match find (λ kv, py_eq kv.1 k) m with
    | Some kv => Ok kv.2
    | None => Raise (KeyError k)
    end
  else Raise TypeError.

(** ** parser.py *)

Module Parser.

(** While [replace_groups_in_items] walks the snapshot [items[:]] it
    mutates the list [items] itself, and it mutates section objects
    that are elements of both.  An element of [items] is therefore kept
    with its identity: [Some i] is the object at position [i] of the
    snapshot, [None] an item spliced in from a group. *)
Definition entry : Type := option nat * json.

(** [items.remove(item)]: drops the first element equal ([==]) to
    [item], [ValueError] when there is none. *)
Fixpoint list_remove (item : json) (items : list entry) : result (list entry) :=
  match items with
  | [] => Raise ValueError
  | e :: items' =>
      if py_eq e.2 item then Ok items'
      else items'' ← list_remove item items'; Ok (e :: items'')
  end.

(** The effect on [items] of mutating the snapshot object [index] in place. *)
Definition set_object (index : nat) (v : json) (items : list entry) : list entry :=
  (λ e : entry, if decide (e.1 = Some index) then (e.1, v) else e) <$> items.

(** [for group_item in group_items: items.insert(current_offset +
    iteration_offset - 1, group_item); iteration_offset += 1] *)
Fixpoint insert_group_items (group_items : list json) (current_offset iteration_offset : nat)
    (items : list entry) : list entry * nat :=
  match group_items with
  | [] => (items, iteration_offset)
  | group_item :: rest =>
      insert_group_items rest current_offset (iteration_offset + 1)
        (list_insert_at (current_offset + iteration_offset - 1) (None, group_item) items)
  end.

Section replace_groups.
Variable group_map : pydict.
(** [replace_groups_in_items] on a nested section: returns the
    section as the call leaves it. *)
Variable recurse : json → result json.

(** [for index, item in enumerate(items[:]): ...] *)
Fixpoint for_enumerate (snapshot : list json) (index : nat) (items : list entry)
    (current_offset : nat) : result (list entry) :=
  match snapshot with
  | [] => Ok items
  | item :: snapshot' =>
      item_type ← py_get item "type" JNull;
      if py_eq item_type (JStr "group") then
        group_id ← py_get item "id" JNull;
        group_items ← pydict_getitem group_map group_id;
        items ← list_remove item items;
        group_items ← py_iter group_items;
        let '(items, iteration_offset) :=
          insert_group_items group_items current_offset 1 items in
        for_enumerate snapshot' (S index) items (current_offset + iteration_offset)
      else if py_eq item_type (JStr "section") then
        item' ← recurse item;
        for_enumerate snapshot' (S index) (set_object index item' items) (current_offset + 1)
      else
        for_enumerate snapshot' (S index) items (current_offset + 1)
  end.

(** The body of [replace_groups_in_items] once [items] is at hand.
    [items[:]] copies a list; on the empty string it yields nothing
    to walk over, on a non-empty one characters, which have no
    [get]; nothing else that JSON offers can be sliced. *)
Definition replace_in (items : json) : result json :=
  match items with
  | JList l =>
      items' ← for_enumerate l 0 (imap (λ i x, (Some i, x)) l) 0;
      Ok (JList (items'.*2))
  | JStr s => if String.eqb s "" then Ok items else Raise AttributeError
  | _ => Raise TypeError
  end.
End replace_groups.

(** [def replace_groups_in_items(as_dict)], the closure of
    [_preprocess], with the [group_map] it captures made a parameter.
    It mutates [as_dict["items"]] in place; the result is [as_dict]
    after the call.  Without the key ["items"] the loop runs over a
    fresh empty list and [as_dict] is untouched. *)
Fixpoint replace_groups_in_items (group_map : pydict) (as_dict : json) : result json :=
  match as_dict with
  | JDict d =>
      match on_items (replace_in group_map (replace_groups_in_items group_map)) d with
      | Some r => items' ← r; Ok (JDict (<["items" := items']> d))
      | None => Ok as_dict
      end
  | _ => Raise AttributeError
  end.

(** The first loop of [_preprocess]: [for group_def in groups: ...]. *)
Fixpoint build_group_map (groups : list json) (group_map : pydict) : result pydict :=
  match groups with
  | [] => Ok group_map
  | group_def :: groups' =>
      group_id ← py_getitem group_def "id";
      group_items ← py_getitem group_def "items";
      enabled ← py_get group_def "enabled" (JBool true);
      let group_items := if negb (py_truthy enabled) then JList [] else group_items in
      group_map ← pydict_setitem group_map group_id group_items;
      build_group_map groups' group_map
  end.

(** [as_dict.pop("groups", [])] *)
Definition pop_groups (as_dict : json) : result (json * json) :=
  match as_dict with
  | JDict d => Ok (default (JList []) (d !! "groups"), JDict (delete "groups" d))
  | JList _ => Raise TypeError
  | _ => Raise AttributeError
  end.

(** [YamlToolConfSource._preprocess]; the result is [as_dict] as the
    method leaves it (the trailing [print] is not modelled). *)
Definition _preprocess (as_dict : json) : result json :=
  '(groups, as_dict) ← pop_groups as_dict;
  groups ← py_iter groups;
  group_map ← build_group_map groups [];
  replace_groups_in_items group_map as_dict.

End Parser.

(** ** managed_conf.py *)

Module ManagedConf.

Definition CONCURRENT_WRITE_MESSAGE : string :=
  "Managed toolbox configuration has been modified, cannot save.".

(** What a caller can pass as [previous_hash]: the sentinel
    [FORCE_WRITE = object()], which is equal to nothing but itself, or
    a value that came out of [read] or of a request payload. *)
Inductive hash_arg :=
| FORCE_WRITE
| Hash (h : json).

(** *** The document being edited

    [handle_actions] edits the dict that [read] returned in place,
    through references to its parts ([as_dict["items"]], the section
    that [_find_with_id] returns, ...).  The dict is the memory [mem]
    that every function below threads; a reference is the path that
    leads from the dict to the part. *)
Inductive step :=
| Key (k : string)
| Index (i : nat).

Definition ref : Type := list step.

Fixpoint deref (mem : json) (r : ref) : option json :=
  match r with
  | [] => Some mem
  | Key k :: r' =>
      match mem with
      | JDict d => v ← d !! k; deref v r'
      | _ => None
      end
  | Index i :: r' =>
      match mem with
      | JList l => v ← l !! i; deref v r'
      | _ => None
      end
  end.

(** The memory once the object at [r] has become [v]. *)
Fixpoint assign (mem : json) (r : ref) (v : json) : json :=
  match r with
  | [] => v
  | Key k :: r' =>
      match mem with
      | JDict d =>
          match d !! k with
          | Some x => JDict (<[k := assign x r' v]> d)
          | None => mem
          end
      | _ => mem
      end
  | Index i :: r' =>
      match mem with
      | JList l =>
          match l !! i with
          | Some x => JList (<[i := assign x r' v]> l)
          | None => mem
          end
      | _ => mem
      end
  end.

(** What a variable holds: Python's [None], or a part of the document. *)
Definition obj : Type := option ref.

Definition value_of (mem : json) (o : obj) : json :=
  match o with
  | None => JNull
  | Some r => default JNull (deref mem r)
  end.

(** [o[key]], as a reference. *)
Definition getitem_ref (mem : json) (o : obj) (key : string) : result obj :=
  _ ← py_getitem (value_of mem o) key;
  Ok ((λ r, r ++ [Key key]) <$> o).

(** [o[key] = v] *)
Definition setitem (mem : json) (o : obj) (key : string) (v : json) : result json :=
  match o, value_of mem o with
  | Some r, JDict d => Ok (assign mem r (JDict (<[key := v]> d)))
  | _, _ => Raise TypeError
  end.

(** [o.append(x)]: only lists have [append]. *)
Definition append (mem : json) (o : obj) (x : json) : result json :=
  match o, value_of mem o with
  | Some r, JList l => Ok (assign mem r (JList (l ++ [x])))
  | _, _ => Raise AttributeError
  end.

(** *** The helpers of [ManagedConf] *)

Definition _ensure_has_list (mem : json) (as_dict : obj) (key : string) : result (obj * json) :=
  present ← py_contains key (value_of mem as_dict);
  mem ← (if negb present then setitem mem as_dict key (JList []) else Ok mem);
  l ← getitem_ref mem as_dict key;
  Ok (l, mem).

Definition _ensure_has_items (mem : json) (as_dict : obj) : result (obj * json) :=
  _ensure_has_list mem as_dict "items".

(** [for item in items: if item["id"] == id: return item]; the item is
    returned as the [index]-th element of [items]. *)
Fixpoint find_from (items : ref) (elements : list json) (index : nat) (id : json) : result obj :=
  match elements with
  | [] => Ok None
  | item :: elements' =>
      item_id ← py_getitem item "id";
      if py_eq item_id id then Ok (Some (items ++ [Index index]))
      else find_from items elements' (S index) id
  end.

Definition _find_with_id (mem : json) (items : obj) (id : json) : result obj :=
  elements ← py_iter (value_of mem items);
  find_from (default [] items) elements 0 id.

Definition _target_to_group (mem : json) (as_dict : obj) (target : json) : result obj :=
  groups ← getitem_ref mem as_dict "groups";
  group ← py_getitem target "group";
  _find_with_id mem groups group.

Definition _target_to_section (mem : json) (as_dict : obj) (target : json) : result obj :=
  items ← getitem_ref mem as_dict "items";
  section_id ← py_getitem target "section";
  _find_with_id mem items section_id.

(** [Exception("Unknown target type [%s]." % target)] *)
Definition _unknown_target_exception (target : json) : exn := Exception target.

(** *** The four actions *)

Definition _add_item (mem : json) (as_dict : obj) (item : json) (target : json) : result json :=
  if bool_decide (target = JNull) then
    '(items, mem) ← _ensure_has_items mem as_dict;
    append mem items item
  else
    is_group ← py_contains "group" target;
    if is_group : bool then
      group_dict ← _target_to_group mem as_dict target;
      '(group_items, mem) ← _ensure_has_items mem group_dict;
      append mem group_items item
    else
      is_section ← py_contains "section" target;
      if is_section : bool then
        section_dict ← _target_to_section mem as_dict target;
        '(section_items, mem) ← _ensure_has_items mem section_dict;
        append mem section_items item
      else Raise (_unknown_target_exception target).

Definition _create_section (mem : json) (as_dict : obj) (id name : json) : result json :=
  '(items, mem) ← _ensure_has_items mem as_dict;
  append mem items
    (JDict {[ "type" := JStr "section"; "name" := name; "id" := id; "items" := JList [] ]}).

Definition _create_group (mem : json) (as_dict : obj) (id : json) : result json :=
  '(groups, mem) ← _ensure_has_list mem as_dict "groups";
  append mem groups (JDict {[ "id" := id; "items" := JList [] ]}).

Definition _disable (mem : json) (as_dict : obj) (target : json) : result json :=
  is_group ← py_contains "group" target;
  if is_group : bool then
    group_dict ← _target_to_group mem as_dict target;
    setitem mem group_dict "enabled" (JBool false)
  else Raise (_unknown_target_exception target).

(** [method(as_dict, **action_dict)]: every key of [action_dict] must
    name a parameter and every parameter without a default must be
    given, [TypeError] otherwise. *)
Definition bind_kwargs (required optional : list string) (kwargs : gmap string json) : result unit :=
  if forallb (λ k, bool_decide (is_Some (kwargs !! k))) required
     && forallb (λ k, bool_decide (k ∈ required ++ optional)) (map_to_list kwargs).*1
  then Ok tt else Raise TypeError.

Definition kwarg (kwargs : gmap string json) (k : string) : json :=
  default JNull (kwargs !! k).

(** [action_dict.pop("action")] *)
Definition pop_action (action_dict : json) : result (json * gmap string json) :=
  match action_dict with
  | JDict d =>
      match d !! "action" with
      | Some action => Ok (action, delete "action" d)
      | None => Raise (KeyError (JStr "action"))
      end
  | JList _ => Raise TypeError
  | _ => Raise AttributeError
  end.

(** [_handle_action] mutates two objects: the document and the action
    it is given, which loses its ["action"] key.  It returns both. *)
Definition _handle_action (mem : json) (as_dict : obj) (action_dict : json)
    : result (json * json) :=
  '(action, kwargs) ← pop_action action_dict;
  mem ←
    (if py_eq action (JStr "add_item") then
       _ ← bind_kwargs ["item"] ["target"] kwargs;
       _add_item mem as_dict (kwarg kwargs "item") (kwarg kwargs "target")
     else if py_eq action (JStr "create_group") then
       _ ← bind_kwargs ["id"] [] kwargs;
       _create_group mem as_dict (kwarg kwargs "id")
     else if py_eq action (JStr "disable") then
       _ ← bind_kwargs ["target"] [] kwargs;
       _disable mem as_dict (kwarg kwargs "target")
     else if py_eq action (JStr "create_section") then
       _ ← bind_kwargs ["id"; "name"] [] kwargs;
       _create_section mem as_dict (kwarg kwargs "id") (kwarg kwargs "name")
     else Raise AssertionError);
  Ok (mem, JDict kwargs).

(** [for action in actions: self._handle_action(as_dict, action)]:
    the document and the list of actions after the loop. *)
Fixpoint for_actions (as_dict : json) (actions : list json) : result (json * list json) :=
  match actions with
  | [] => Ok (as_dict, [])
  | action :: actions' =>
      '(as_dict, action) ← _handle_action as_dict (Some []) action;
      '(as_dict, actions') ← for_actions as_dict actions';
      Ok (as_dict, action :: actions')
  end.

(** *** The file *)

(** The file at [self.path]: absent, or its bytes. *)
Definition file : Type := option string.

Section store.
(** [hashlib.md5(contents).hexdigest()], [json.loads] ([None] when it
    raises [ValueError]) and [json.dump]. *)
Variable md5_hexdigest : string → string.
Variable json_loads : string → option json.
Variable json_dumps : json → string.

Definition _contents (f : file) : result string :=
  match f with
  | Some contents => Ok contents
  | None => Raise IOError
  end.

Definition _hash (contents : string) : json := JStr (md5_hexdigest contents).

Definition read (f : file) : result (json * json) :=
  contents ← _contents f;
  match json_loads contents with
  | Some as_dict => Ok (_hash contents, as_dict)
  | None => Raise ValueError
  end.

(** [def update(self, as_dict, previous_hash=FORCE_WRITE)]: the
    outcome and the file afterwards.  [previous_hash = None] is a
    call that leaves the argument out. *)
Definition update (as_dict : json) (previous_hash : option hash_arg) (f : file)
    : result unit * file :=
  let previous_hash := default FORCE_WRITE previous_hash in
  let check :=
    match previous_hash with
    | FORCE_WRITE => Ok ()
    | Hash previous_hash =>
        contents ← _contents f;
        let current_hash := _hash contents in
        if negb (py_eq previous_hash current_hash)
        then Raise ConcurrentWriteException
        else Ok ()
    end in
  match check with
  | Ok _ => (Ok (), Some (json_dumps as_dict))
  | Raise e => (Raise e, f)
  end.

Definition ensure_exists (f : file) : file :=
  match f with
  | None => Some "{}"
  | Some _ => f
  end.

(** What the other writers of the file do while this caller is
    between its [read] and its [update]: nothing, or leave [contents]
    in the file. *)
Definition other_writers (w : option string) (f : file) : file :=
  match w with
  | Some contents => Some contents
  | None => f
  end.

(** [while attempt_write: ...].  [schedule] lists, attempt by
    attempt, what the other writers do; once it is used up they are
    silent.  [None] stands for a loop that is still retrying when
    the schedule is used up, which [handle_actions_returns] excludes. *)
Fixpoint while_attempt_write (schedule : list (option string)) (actions : list json)
    (f : file) : option (result unit * file) :=
  match read f with
  | Raise e => Some (Raise e, f)
  | Ok (previous_hash, as_dict) =>
      match for_actions as_dict actions with
      | Raise e => Some (Raise e, f)
      | Ok (as_dict, actions) =>
          let f := other_writers (mjoin (head schedule)) f in
          match update as_dict (Some (Hash previous_hash)) f with
          | (Raise ConcurrentWriteException, f) =>
              match schedule with
              | [] => None
              | _ :: schedule' => while_attempt_write schedule' actions f
              end
          | (r, f) => Some (r, f)
          end
      end
  end.

Definition handle_actions (schedule : list (option string)) (actions : list json)
    (f : file) : option (result unit * file) :=
  while_attempt_write schedule actions (ensure_exists f).
End store.

End ManagedConf.

(** ** deps/views.py *)

Module Views.

(** *** [int(x)] *)

Definition is_space (c : ascii) : bool :=
  bool_decide (nat_of_ascii c ∈ [32; 9; 10; 11; 12; 13]).

Definition digit (c : ascii) : option Z :=
  let n := nat_of_ascii c in
  if bool_decide (48 ≤ n ≤ 57)%nat then Some (Z.of_nat (n - 48)) else None.

Fixpoint digits (acc : Z) (l : list ascii) : option Z :=
  match l with
  | [] => Some acc
  | c :: l' => d ← digit c; digits (10 * acc + d)%Z l'
  end.

Fixpoint lstrip (l : list ascii) : list ascii :=
  match l with
  | c :: l' => if is_space c then lstrip l' else l
  | [] => []
  end.

(** [s.strip()] of a [str], for which white space is the six
    characters of [is_space].  On a [unicode] value [strip] takes more
    characters for white space; the two agree on text of characters
    below 128 other than the separators 28 to 31. *)
Definition strip (l : list ascii) : list ascii :=
  reverse (lstrip (reverse (lstrip l))).

(** Surrounding white space, an optional sign, one decimal digit or
    more: [int] of a [str].  On a [unicode] value [int] also takes the
    white space and the decimal digits of other scripts, so that the
    two agree where this function returns a number, and on text of
    letters. *)
Definition int_of_string (s : string) : result Z :=
  let unsigned (l : list ascii) : result Z :=
    match l with
    | [] => Raise ValueError
    | _ => from_option Ok (Raise ValueError) (digits 0 l)
    end in
  match strip (String.list_ascii_of_string s) with
  | "-"%char :: l => z ← unsigned l; Ok (- z)%Z
  | "+"%char :: l => unsigned l
  | l => unsigned l
  end.

Definition py_int (x : json) : result Z :=
  match x with
  | JInt z => Ok z
  | JBool b => Ok (if b then 1 else 0)%Z
  | JStr s => int_of_string s
  | _ => Raise TypeError
  end.

(** [l[i]]: a negative index counts from the end. *)
Definition list_getitem {A} (l : list A) (i : Z) : result A :=
  let n := Z.of_nat (length l) in
  let i := (if i <? 0 then n + i else i)%Z in
  if (i <? 0)%Z then Raise IndexError
  else from_option Ok (Raise IndexError) (l !! Z.to_nat i).

(** *** The view *)

(** All the view asks of a dependency resolver: whether it has an
    [install_dependency] method. *)
Record resolver := { has_install_dependency : bool }.

(** The calls the view makes into the dependency manager and into a
    resolver, in the order it makes them. *)
Inductive call :=
| find_dep (name version type : json) (resolve_kwds : gmap string json)
| resolver_install_dependency (r : resolver) (name version type : json)
    (extra_kwds : gmap string json).

Definition parsed : Type := json * json * json * gmap string json.

Definition _parse_dependency_info (kwds : gmap string json) : result parsed :=
  let extra_kwds := kwds in
  let name := default JNull (extra_kwds !! "name") in
  let extra_kwds := delete "name" extra_kwds in
  if bool_decide (name = JNull) then
    Raise (RequestParameterMissingException "Missing 'name' parameter required for resolution.")
  else
    let version := default JNull (extra_kwds !! "version") in
    let extra_kwds := delete "version" extra_kwds in
    let type := default (JStr "package") (extra_kwds !! "type") in
    let extra_kwds := delete "type" extra_kwds in
    Ok (name, version, type, extra_kwds).

Section view.
(** [self._dependency_manager.dependency_resolvers], and what the
    two calls hand back ([find_dep(...).to_dict()] for the first). *)
Variable dependency_resolvers : list resolver.
Variable find_dep_result : json → json → json → gmap string json → result json.
Variable install_result : resolver → json → json → json → gmap string json → result json.

Definition _dependency_resolver (index : json) : result resolver :=
  index ← py_int index;
  list_getitem dependency_resolvers index.

(** [dict(job_directory=..., index=index, **extra_kwds)]: a keyword
    given twice is a [TypeError]. *)
Definition resolve_kwds_of (index : json) (extra_kwds : gmap string json)
    : result (gmap string json) :=
  if bool_decide (is_Some (extra_kwds !! "job_directory") ∨ is_Some (extra_kwds !! "index"))
  then Raise TypeError
  else Ok (<["job_directory" := JStr "/path/to/example/job_directory"]>
           (<["index" := index]> extra_kwds)).

(** [def _dependency(self, index=None, **kwds)]: the outcome and the
    calls made on the way. *)
Definition _dependency (index : json) (kwds : gmap string json) : result json * list call :=
  let prepared :=
    index ← (if bool_decide (index = JNull) then Ok JNull
             else i ← py_int index; Ok (JInt i));
    '(name, version, type, extra_kwds) ← _parse_dependency_info kwds;
    resolve_kwds ← resolve_kwds_of index extra_kwds;
    Ok (name, version, type, resolve_kwds) in
  match prepared with
  | Ok (name, version, type, resolve_kwds) =>
      (find_dep_result name version type resolve_kwds,
       [find_dep name version type resolve_kwds])
  | Raise e => (Raise e, [])
  end.

(** A call of [self._dependency] with [kwds] as its keyword
    arguments: the keyword [index], when given, binds the parameter
    of that name, the rest is [kwds]. *)
Definition call_dependency (kwds : gmap string json) : result json * list call :=
  _dependency (default JNull (kwds !! "index")) (delete "index" kwds).

Definition manager_dependency (kwds : gmap string json) : result json * list call :=
  call_dependency kwds.

(** [def resolver_dependency(self, index, **kwds)]: [index] is not
    passed on, and [kwds] cannot hold a key ["index"]. *)
Definition resolver_dependency (index : json) (kwds : gmap string json)
    : result json * list call :=
  call_dependency kwds.

Definition install_dependency (index : json) (payload : gmap string json)
    : result json * list call :=
  let prepared :=
    resolver ← _dependency_resolver index;
    _ ← (if negb (has_install_dependency resolver) then Raise NotImplemented else Ok ());
    info ← _parse_dependency_info payload;
    Ok (resolver, info) in
  match prepared with
  | Ok (resolver, (name, version, type, extra_kwds)) =>
      (install_result resolver name version type extra_kwds,
       [resolver_install_dependency resolver name version type extra_kwds])
  | Raise e => (Raise e, [])
  end.
End view.

End Views.

(** ** managed_conf.py: the view *)

Module ManagedConfView.

Section view.
Variable md5_hexdigest : string → string.
Variable json_loads : string → option json.
Variable json_dumps : json → string.

(** [def get(self)] *)
Definition get (f : ManagedConf.file) : result json :=
  '(hash, contents) ← ManagedConf.read md5_hexdigest json_loads f;
  Ok (JDict {[ "hash" := hash; "contents" := contents ]}).

(** [self.managed_conf.handle_actions(actions)] for whatever the
    payload holds under ["actions"].  The [for] loop walks what
    [py_iter] gives; on a value that cannot be walked it raises once
    the file has been made sure of and read. *)
Definition handle_actions_of (schedule : list (option string)) (actions : json)
    (f : ManagedConf.file) : option (result unit * ManagedConf.file) :=
  match py_iter actions with
  | Ok actions =>
      ManagedConf.handle_actions md5_hexdigest json_loads json_dumps schedule actions f
  | Raise e =>
      let f := ManagedConf.ensure_exists f in
      match ManagedConf.read md5_hexdigest json_loads f with
      | Ok _ => Some (Raise e, f)
      | Raise e' => Some (Raise e', f)
      end
  end.

(** [def update(self, payload)]: the outcome and the file afterwards.
    A value that came with the payload is never the sentinel
    [FORCE_WRITE]. *)
Definition update (schedule : list (option string)) (payload : json) (f : ManagedConf.file)
    : option (result unit * ManagedConf.file) :=
  let versioned :=
    has_hash ← py_contains "hash" payload;
    if has_hash : bool then py_contains "contents" payload else Ok false in
  match versioned with
  | Raise e => Some (Raise e, f)
  | Ok true =>
      let args :=
        previous_hash ← py_getitem payload "hash";
        contents ← py_getitem payload "contents";
        Ok (previous_hash, contents) in
      match args with
      | Ok (previous_hash, contents) =>
          Some (ManagedConf.update md5_hexdigest json_dumps contents
                  (Some (ManagedConf.Hash previous_hash)) f)
      | Raise e => Some (Raise e, f)
      end
  | Ok false =>
      match py_contains "actions" payload with
      | Raise e => Some (Raise e, f)
      | Ok true =>
          match py_getitem payload "actions" with
          | Ok actions => handle_actions_of schedule actions f
          | Raise e => Some (Raise e, f)
          end
      | Ok false => Some (Ok (), f)
      end
  end.
End view.

End ManagedConfView.

(** ** parser.py: the items of a toolbox *)

Module ToolConf.

(** An element of the XML tree, as far as the parser looks at it: its
    tag, its attributes and its children. *)
Inductive element :=
| Element (tag : string) (attrib : gmap string string) (getchildren : list element).

Definition tag (e : element) : string :=
  match e with Element tag _ _ => tag end.

Definition attrib (e : element) : gmap string string :=
  match e with Element _ attrib _ => attrib end.

Definition getchildren (e : element) : list element :=
  match e with Element _ _ getchildren => getchildren end.

(** [class ToolConfItem] and its subclass [ToolConfSection], whose
    type is ["section"] and which has [items] on top. *)
Inductive item :=
| ToolConfItem (type : json) (attributes : gmap string json) (_elem : option element)
| ToolConfSection (attributes : gmap string json) (items : list item) (_elem : option element).

Definition type (i : item) : json :=
  match i with
  | ToolConfItem type _ _ => type
  | ToolConfSection _ _ _ => JStr "section"
  end.

Definition attributes (i : item) : gmap string json :=
  match i with
  | ToolConfItem _ attributes _ | ToolConfSection attributes _ _ => attributes
  end.

Definition _elem (i : item) : option element :=
  match i with
  | ToolConfItem _ _ _elem | ToolConfSection _ _ _elem => _elem
  end.

(** [def get(self, key, default=None)] *)
Definition get (i : item) (key : string) (dflt : json) : json :=
  default dflt (attributes i !! key).

Definition has_elem (i : item) : bool := bool_decide (is_Some (_elem i)).

Definition elem (i : item) : result element :=
  match _elem i with
  | None => Raise (Exception (JStr "item.elem called on toolbox element from non-XML source"))
  | Some e => Ok e
  end.

(** [s.split(sep)] for a separator of one character. *)
Fixpoint split (sep : ascii) (s : list ascii) : list (list ascii) :=
  match s with
  | [] => [[]]
  | c :: s' =>
      if Ascii.eqb c sep then [] :: split sep s'
      else match split sep s' with
           | part :: parts => (c :: part) :: parts
           | [] => [[c]]
           end
  end.

(** The property [labels]: only a string has [split]; [strip] is that
    of a [str] ([Views.strip]). *)
Definition labels (i : item) : result (option (list string)) :=
  match attributes i !! "labels" with
  | None => Ok None
  | Some (JStr s) =>
      Ok (Some ((λ label, String.string_of_list_ascii (Views.strip label))
                  <$> split ","%char (String.list_ascii_of_string s)))
  | Some _ => Raise AttributeError
  end.

(** [map(cls.from_dict, items)], with [from_dict] for the recursive
    call.  A list is walked; the characters of a string and the keys
    of a dict are strings, which have no [copy], so that these go
    through only when empty; nothing else can be walked. *)
Definition map_from_dict (from_dict : json → result item) (items : json) : result (list item) :=
  match items with
  | JList l => mapM from_dict l
  | JStr s => if String.eqb s "" then Ok [] else Raise AttributeError
  | JDict d => if bool_decide (d = ∅) then Ok [] else Raise AttributeError
  | _ => Raise TypeError
  end.

(** [ToolConfItem.from_dict]: works on a copy of [_as_dict], from which
    it deletes ["type"] and, for a section, ["items"]. *)
Fixpoint from_dict (_as_dict : json) : result item :=
  match _as_dict with
  | JDict d =>
      match d !! "type" with
      | Some type =>
          let as_dict := delete "type" d in
          if py_eq type (JStr "section") then
            match on_items (map_from_dict from_dict) d with
            | Some r => items ← r; Ok (ToolConfSection (delete "items" as_dict) items None)
            | None => Raise (KeyError (JStr "items"))
            end
          else Ok (ToolConfItem type as_dict None)
      | None => Raise (KeyError (JStr "type"))
      end
  | _ => Raise AttributeError
  end.

(** What [ensure_tool_conf_item] makes of an element. *)
Fixpoint of_element (e : element) : item :=
  match e with
  | Element type attributes children =>
      if negb (String.eqb type "section")
      then ToolConfItem (JStr type) (JStr <$> attributes) (Some e)
      else ToolConfSection (JStr <$> attributes) (of_element <$> children) (Some e)
  end.

(** The arguments of [ensure_tool_conf_item]: [None], an item, or an
    element of the XML tree. *)
Inductive xml_or_item :=
| XNone
| XItem (i : item)
| XElement (e : element).

Definition ensure_tool_conf_item (x : xml_or_item) : option item :=
  match x with
  | XNone => None
  | XItem i => Some i
  | XElement e => Some (of_element e)
  end.

(** *** [YamlToolConfSource]; [as_dict] is the document that
        [__init__] has loaded and preprocessed. *)

Definition YamlToolConfSource (loaded : json) : result json :=
  Parser._preprocess loaded.

Definition yaml_parse_tool_path (as_dict : json) : result json :=
  py_get as_dict "tool_path" JNull.

Definition yaml_parse_items (as_dict : json) : result (list item) :=
  items ← py_get as_dict "items" JNull;
  items ← py_iter items;
  mapM from_dict items.

Definition yaml_parse_monitor (as_dict : json) : result json :=
  py_get as_dict "monitor" (JBool false).

(** *** [XmlToolConfSource]; [root] is the root of the parsed file. *)

Definition xml_parse_tool_path (root : element) : option string :=
  attrib root !! "tool_path".

Definition xml_parse_items (root : element) : list (option item) :=
  (λ e, ensure_tool_conf_item (XElement e)) <$> getchildren root.

End ToolConf.

(** ** deps/views.py: what the view lists *)

Module FlatTupleSet.

Section flat_tuple_set.
(** The tuples kept in the set, on which [==] is equality, and
    [hash(frozenset(tup))]. *)
Context {T : Type} `{EqDecision T}.
Variable hash_frozenset : T → Z.

(** [self._set] maps a hash to the tuples of that hash. *)
Definition __init__ : gmap Z (list T) := ∅.

Definition add (tup : T) (_set : gmap Z (list T)) : gmap Z (list T) :=
  let tup_hash := hash_frozenset tup in
  match _set !! tup_hash with
  | None => <[tup_hash := [tup]]> _set
  | Some tups =>
      if bool_decide (tup ∈ tups) then _set
      else <[tup_hash := tups ++ [tup]]> _set
  end.

(** What [for tup in self] walks over: bucket after bucket, in an
    order of the dict's choosing. *)
Definition __iter__ (_set : gmap Z (list T)) : list T := mjoin (map_to_list _set).*2.
End flat_tuple_set.

End FlatTupleSet.

Module DependencyResolversView.

Section listing.
(** The resolvers, of whatever classes: the methods below ask of a
    resolver its [to_dict()] and, when it has the method, its
    [list_dependencies()], given here by what [to_dict()] returns for
    each requirement listed. *)
Context {R : Type}.
Variable dependency_resolvers : list R.
Variable to_dict : R → json.
Variable list_dependencies : R → option (list json).

Definition _dependency_resolver (index : json) : result R :=
  index ← Views.py_int index;
  Views.list_getitem dependency_resolvers index.

Definition index : list json := to_dict <$> dependency_resolvers.

Definition show (index : json) : result json :=
  resolver ← _dependency_resolver index;
  Ok (to_dict resolver).

(** [for index, resolver in enumerate(self._dependency_resolvers): ...] *)
Fixpoint for_resolvers (resolvers : list R) (index : nat) (requirements : list json)
    : list json :=
  match resolvers with
  | [] => requirements
  | resolver :: resolvers' =>
      match list_dependencies resolver with
      | None => for_resolvers resolvers' (S index) requirements
      | Some listed =>
          for_resolvers resolvers' (S index)
            (requirements ++
             ((λ requirement,
                 JDict {[ "index" := JInt (Z.of_nat index); "requirement" := requirement ]})
                <$> listed))
      end
  end.

Definition manager_requirements : list json := for_resolvers dependency_resolvers 0 [].

Definition resolver_requirements (index : json) : result (list json) :=
  resolver ← _dependency_resolver index;
  match list_dependencies resolver with
  | None => Raise NotImplemented
  | Some listed => Ok listed
  end.
End listing.

Section toolbox_summary.
(** The requirement tuples [(name, version, type)]; the three functions
    of other modules that the summary calls: [hash(frozenset(tup))],
    [galaxy.util.string_as_bool], and [ToolRequirement(...).to_dict()]
    for a tuple; and what [find_dep(...).to_dict()] returns. *)
Context {T : Type} `{EqDecision T}.
Variable hash_frozenset : T → Z.
Variable string_as_bool : json → bool.
Variable requirement_to_dict : T → gmap string json.
Variable find_dep_result : json → json → json → gmap string json → result json.

(** A tool of the toolbox: whether [tool.tool_shed] is true, and the
    tuples of its requirements. *)
Record tool := { tool_shed : bool; requirements : list T }.

(** [for requirement in tool.requirements: requirement_set.add(...)] *)
Definition add_requirements (requirement_set : gmap Z (list T)) (tups : list T)
    : gmap Z (list T) :=
  foldl (λ requirement_set tup, FlatTupleSet.add hash_frozenset tup requirement_set)
    requirement_set tups.

(** [for tool in self._toolbox.tools(all_versions=True): ...] *)
Definition for_tools (tools : list tool) : gmap Z (list T) :=
  foldl (λ requirement_set tool,
           if tool_shed tool then requirement_set
           else add_requirements requirement_set (requirements tool))
    FlatTupleSet.__init__ tools.

(** [for requirement_tuple in requirement_set: ...]: [rval] and the
    calls made so far. *)
Fixpoint for_requirement_set (include_dependency_info : bool) (tups : list T)
    (rval : list json) (calls : list Views.call) : result (list json) * list Views.call :=
  match tups with
  | [] => (Ok rval, calls)
  | requirement_tuple :: tups' =>
      let requirement_dict := requirement_to_dict requirement_tuple in
      let item : gmap string json := {[ "requirement" := JDict requirement_dict ]} in
      if include_dependency_info then
        match Views.manager_dependency find_dep_result requirement_dict with
        | (Ok dependency_dict, made) =>
            for_requirement_set include_dependency_info tups'
              (rval ++ [JDict (<["dependency" := dependency_dict]> item)]) (calls ++ made)
        | (Raise e, made) => (Raise e, calls ++ made)
        end
      else for_requirement_set include_dependency_info tups' (rval ++ [JDict item]) calls
  end.

Definition toolbox_summary (tools : list tool) (kwds : gmap string json)
    : result (list json) * list Views.call :=
  let include_dependency_info :=
    string_as_bool (default (JBool false) (kwds !! "include_dependency_info")) in
  let requirement_set := for_tools tools in
  for_requirement_set include_dependency_info
    (FlatTupleSet.__iter__ requirement_set) [] [].
End toolbox_summary.

End DependencyResolversView.

(** ** Vocabulary of the statements *)

(** *** Trees of items *)

Definition is_dict (x : json) : bool :=
  match x with
  | JDict _ => true
  | _ => false
  end.

(** [item.get("id")] of a dict. *)
Definition id_of (x : json) : json :=
  match x with
  | JDict d => default JNull (d !! "id")
  | _ => JNull
  end.

(** A group reference: an item whose type is ["group"]; [refers_to gid]
    when its id is [gid]. *)
Definition refers_to (gid : json) (x : json) : bool :=
  is_type "group" x && py_eq (id_of x) gid.

(** The documents the inliner is written for: a dict whose ["items"],
    when it has the key, is a list of dicts; the items of type
    ["section"] are such dicts in turn, and every group reference
    passes [ref_ok]. *)
Fixpoint tree_ok (ref_ok : json → bool) (t : json) : bool :=
  match t with
  | JDict d =>
      default true (on_items (λ items,
        match items with
        | JList l =>
            forallb (λ x, is_dict x &&
                          (if is_type "group" x then ref_ok x
                           else if is_type "section" x then tree_ok ref_ok x
                           else true)) l
        | _ => false
        end) d)
  | _ => false
  end.

(** The sum of [w] over the nodes of a tree: the items of the dict and,
    below each section, the nodes of the section. *)
Fixpoint tree_sum (w : json → nat) (t : json) : nat :=
  match t with
  | JDict d =>
      default 0 (on_items (λ items,
        match items with
        | JList l =>
            sum_list_with (λ x, w x + (if is_type "section" x then tree_sum w x else 0)) l
        | _ => 0
        end) d)
  | _ => 0
  end.

Definition item_sum (w : json → nat) (x : json) : nat :=
  w x + (if is_type "section" x then tree_sum w x else 0).

(** The same sum over what a group contributes when it is spliced in. *)
Definition content_sum (w : json → nat) (group_items : json) : nat :=
  match py_iter group_items with
  | Ok l => sum_list_with (item_sum w) l
  | Raise _ => 0
  end.

(** [w] on the group references, nothing on the other nodes. *)
Definition on_refs (w : json → nat) (x : json) : nat :=
  if is_type "group" x then w x else 0.

(** What takes the place of a node: for a group reference the content of
    the group it names, measured by [w]. *)
Definition spliced (group_map : pydict) (w : json → nat) (x : json) : nat :=
  if is_type "group" x then
    match pydict_getitem group_map (id_of x) with
    | Ok group_items => content_sum w group_items
    | Raise _ => 0
    end
  else 0.

Definition one (x : json) : nat := 1.

Definition count_refs (gid : json) (t : json) : nat :=
  tree_sum (λ x, Nat.b2n (refers_to gid x)) t.

(** The reference names a group of [group_map] whose items are a list. *)
Definition resolves (group_map : pydict) (x : json) : bool :=
  match pydict_getitem group_map (id_of x) with
  | Ok (JList _) => true
  | _ => false
  end.

(** The reference names a group of [group_map] whose items are the
    empty list. *)
Definition resolves_to_nothing (group_map : pydict) (x : json) : bool :=
  bool_decide (pydict_getitem group_map (id_of x) = Ok (JList [])).

(** The tree without its group references: in every list of items the
    references are dropped, the sections are treated in turn, and the
    other items are kept as they are. *)
Fixpoint without_refs (t : json) : json :=
  match t with
  | JDict d =>
      match on_items (λ items,
              match items with
              | JList l =>
                  JList (omap (λ x, if is_type "group" x then None
                                    else if is_type "section" x then Some (without_refs x)
                                    else Some x) l)
              | _ => items
              end) d with
      | Some items' => JDict (<["items" := items']> d)
      | None => t
      end
  | _ => t
  end.

Definition without_refs_item (x : json) : option json :=
  if is_type "group" x then None
  else if is_type "section" x then Some (without_refs x)
  else Some x.

(** *** The groups table *)

(** [group_def] declares the group [gid]. *)
Definition declares (gid : json) (group_def : json) : bool :=
  is_dict group_def && py_eq (id_of group_def) gid.

(** [group_def.get("enabled", True)] is true. *)
Definition is_enabled (group_def : json) : bool :=
  match group_def with
  | JDict d => py_truthy (default (JBool true) (d !! "enabled"))
  | _ => true
  end.

(** The table declares [gid], and declares it disabled wherever it
    declares it. *)
Definition declared_disabled (gid : json) (groups : list json) : bool :=
  existsb (declares gid) groups &&
  forallb (λ group_def, negb (declares gid group_def) || negb (is_enabled group_def)) groups.

(** No group of the map holds a reference to [gid]. *)
Definition groups_without_refs (gid : json) (group_map : pydict) : bool :=
  forallb (λ kv : json * json,
             bool_decide (content_sum (λ x, Nat.b2n (refers_to gid x)) kv.2 = 0)) group_map.

(** *** Inlining as the specification words it

    "For each original item, in order: if it is a group reference,
    splice in the group's effective item list at the current position;
    if it is a section, recurse into its child item list; otherwise
    leave it in place." *)
Section splice_spec.
Variable group_map : pydict.
Variable recurse : json → result json.

Fixpoint splice_items (items : list json) : result (list json) :=
  match items with
  | [] => Ok []
  | item :: items' =>
      here ← (if is_type "group" item then
                group_items ← pydict_getitem group_map (id_of item);
                py_iter group_items
              else if is_type "section" item then
                item' ← recurse item; Ok [item']
              else Ok [item]);
      rest ← splice_items items';
      Ok (here ++ rest)
  end.
End splice_spec.

Fixpoint splice_spec (group_map : pydict) (t : json) : result json :=
  match t with
  | JDict d =>
      match on_items (λ items,
              match items with
              | JList l => splice_items group_map (splice_spec group_map) l
              | _ => Raise TypeError
              end) d with
      | Some r => items' ← r; Ok (JDict (<["items" := JList items']> d))
      | None => Ok t
      end
  | _ => Raise AttributeError
  end.

(** [_preprocess] with the specification's splice in the place of
    [replace_groups_in_items]. *)
Definition inline_spec (as_dict : json) : result json :=
  '(groups, as_dict) ← Parser.pop_groups as_dict;
  groups ← py_iter groups;
  group_map ← Parser.build_group_map groups [];
  splice_spec group_map as_dict.

(** *** The invariant of the loop over the snapshot

    The entries of [items] that stand for snapshot objects not yet
    visited are those objects, in the order of the snapshot and with
    the values the snapshot has. *)
Definition unvisited (index : nat) (e : Parser.entry) : Prop :=
  ∃ k, e.1 = Some k ∧ (index ≤ k)%nat.

Global Instance unvisited_dec (index : nat) (e : Parser.entry) : Decision (unvisited index e).
Proof.
  destruct e as [[k|] v].
  - destruct (decide (index ≤ k)%nat) as [H|H].
    + left. by exists k.
    + right. intros (k' & [= <-] & ?). done.
  - right. intros (k' & [=] & ?).
Defined.

Definition pending (index : nat) (snapshot : list json) : list Parser.entry :=
  imap (λ k x, (Some (index + k), x)) snapshot.

Definition loop_inv (index : nat) (snapshot : list json) (items : list Parser.entry) : Prop :=
  filter (unvisited index) items = pending index snapshot.

(** *** Targets of the managed configuration *)

(** [x] is a dict whose ["id"] is [sid]. *)
Definition has_id (sid : json) (x : json) : bool :=
  match x with
  | JDict d =>
      match d !! "id" with
      | Some v => py_eq v sid
      | None => false
      end
  | _ => false
  end.

(** [x] is a dict with an ["id"], and the id is not [sid]. *)
Definition has_other_id (sid : json) (x : json) : bool :=
  match x with
  | JDict d =>
      match d !! "id" with
      | Some v => negb (py_eq v sid)
      | None => false
      end
  | _ => false
  end.

(** The elements of [as_dict["items"]], when that is a list. *)
Definition root_items (as_dict : json) : list json :=
  match as_dict with
  | JDict d =>
      match d !! "items" with
      | Some (JList l) => l
      | _ => []
      end
  | _ => []
  end.

(** The specification's reading of a section target: "search the full
    tree, depth-first, for a Section whose id matches". *)
Fixpoint tree_has_section (sid : json) (t : json) : bool :=
  match t with
  | JDict d =>
      default false (on_items (λ items,
        match items with
        | JList l =>
            existsb (λ x, is_type "section" x && (has_id sid x || tree_has_section sid x)) l
        | _ => false
        end) d)
  | _ => false
  end.

(** The items list of a dict as [_ensure_has_items] leaves it before the
    append: the list it holds, or the empty list it is given. *)
Definition items_or_empty (d : gmap string json) : option (list json) :=
  match d !! "items" with
  | None => Some []
  | Some (JList l) => Some l
  | Some _ => None
  end.

(** *** Concrete documents and actions *)

Definition tool (id : string) : json :=
  JDict {[ "type" := JStr "tool"; "id" := JStr id ]}.

Definition group_ref (id : string) : json :=
  JDict {[ "type" := JStr "group"; "id" := JStr id ]}.

Definition section (id name : string) (items : list json) : json :=
  JDict {[ "type" := JStr "section"; "name" := JStr name; "id" := JStr id;
           "items" := JList items ]}.

Definition group_def (id : string) (enabled : bool) (items : list json) : json :=
  JDict {[ "id" := JStr id; "enabled" := JBool enabled; "items" := JList items ]}.

Definition items_doc (items : list json) : json :=
  JDict {[ "items" := JList items ]}.

Definition raw_doc (groups items : list json) : json :=
  JDict {[ "groups" := JList groups; "items" := JList items ]}.

Definition create_section_action (id name : string) : json :=
  JDict {[ "action" := JStr "create_section"; "id" := JStr id; "name" := JStr name ]}.

Definition add_item_action (item target : json) : json :=
  JDict {[ "action" := JStr "add_item"; "item" := item; "target" := target ]}.

Definition section_target (sid : json) : json := JDict {[ "section" := sid ]}.

(** A disabled group, then a group of one tool, then a tool. *)
Definition two_refs_doc : json :=
  raw_doc [group_def "g0" false [tool "z"]; group_def "g1" true [tool "x"]]
          [group_ref "g0"; group_ref "g1"; tool "y"].

(** The example of the specification: a group of one tool, then a tool. *)
Definition one_ref_doc : json :=
  raw_doc [group_def "g1" true [tool "x"]] [group_ref "g1"; tool "y"].

Definition nested_doc : json :=
  items_doc [section "outer" "Outer" [section "inner" "Inner" []]].

(** *** Requests to the dependency view *)

(** The request gives no [name], or gives [None] for it. *)
Definition lacks_name (kwds : gmap string json) : bool :=
  bool_decide (default JNull (kwds !! "name") = JNull).

Definition missing_name : exn :=
  RequestParameterMissingException "Missing 'name' parameter required for resolution.".

(** [index] is [None], or [int(index)] returns. *)
Definition index_converts (index : json) : bool :=
  bool_decide (index = JNull) ||
  match Views.py_int index with
  | Ok _ => true
  | Raise _ => false
  end.

Definition no_resolver_result (r : Views.resolver) (name version type : json)
    (extra_kwds : gmap string json) : result json := Ok JNull.

(** A stand-in for the three library functions that is good enough to
    run the store: the digest of a file is the file, the two files ["{}"]
    and ["{ }"] parse as the empty document, and every document is
    written as ["{}"]. *)
Definition toy_md5 (contents : string) : string := contents.

Definition toy_loads (contents : string) : option json :=
  if bool_decide (contents = "{}" ∨ contents = "{ }") then Some (JDict ∅) else None.

Definition toy_dumps (as_dict : json) : string := "{}".

(** *** Actions and what they raise *)

(** The action [name] with the keyword arguments [kwargs], as a client
    sends it. *)
Definition action_of (name : string) (kwargs : gmap string json) : json :=
  JDict (<["action" := JStr name]> kwargs).

(** The exceptions of dict, list and string operations, and the one
    for an unknown target. *)
Definition plain (e : exn) : bool :=
  match e with
  | KeyError _ | TypeError | AttributeError | Exception _ => true
  | _ => false
  end.

Definition raises_plain {A} (r : result A) : Prop :=
  ∀ e, r = Raise e → plain e = true.

(** The names [_handle_action] accepts. *)
Definition known_action (action : json) : bool :=
  existsb (λ name, py_eq action (JStr name))
    ["add_item"; "create_group"; "disable"; "create_section"].

(** The list a dict holds under [key] as [_ensure_has_list] leaves it:
    the list that is there, or the empty list it puts there. *)
Definition list_or_empty (key : string) (d : gmap string json) : option (list json) :=
  match d !! key with
  | None => Some []
  | Some (JList l) => Some l
  | Some _ => None
  end.

Definition group_target (gid : json) : json := JDict {[ "group" := gid ]}.

(** The section and the group as [_create_section] and [_create_group]
    append them. *)
Definition new_section (id name : json) (items : list json) : json :=
  JDict {[ "type" := JStr "section"; "name" := name; "id" := id; "items" := JList items ]}.

Definition new_group (id : json) (items : list json) : json :=
  JDict {[ "id" := id; "items" := JList items ]}.

(** *** Items and the dicts and elements they come from *)

(** The dict an item stands for: its attributes, with its type and,
    for a section, its items put back. *)
Fixpoint to_dict (i : ToolConf.item) : json :=
  match i with
  | ToolConf.ToolConfItem type attributes _ => JDict (<["type" := type]> attributes)
  | ToolConf.ToolConfSection attributes items _ =>
      JDict (<["type" := JStr "section"]> (<["items" := JList (to_dict <$> items)]> attributes))
  end.

(** Every section at or below [x] holds its items in a list. *)
Fixpoint lists_only (x : json) : bool :=
  match x with
  | JDict d =>
      if py_eq (default JNull (d !! "type")) (JStr "section") then
        default true (on_items (λ items,
          match items with
          | JList l => forallb lists_only l
          | _ => false
          end) d)
      else true
  | _ => true
  end.

(** An element written as a dict, the way the YAML format has it: the
    tag as ["type"], the attributes, and for a section the children
    as ["items"]. *)
Fixpoint element_to_dict (e : ToolConf.element) : json :=
  match e with
  | ToolConf.Element tag attrib children =>
      JDict (<["type" := JStr tag]>
        (if String.eqb tag "section"
         then <["items" := JList (element_to_dict <$> children)]> (JStr <$> attrib)
         else JStr <$> attrib))
  end.

Fixpoint forget_elem (i : ToolConf.item) : ToolConf.item :=
  match i with
  | ToolConf.ToolConfItem type attributes _ => ToolConf.ToolConfItem type attributes None
  | ToolConf.ToolConfSection attributes items _ =>
      ToolConf.ToolConfSection attributes (forget_elem <$> items) None
  end.

(** No element at or below [e] has an attribute called ["type"] or
    ["items"]. *)
Fixpoint plain_names (e : ToolConf.element) : bool :=
  match e with
  | ToolConf.Element _ attrib children =>
      bool_decide (attrib !! "type" = None) && bool_decide (attrib !! "items" = None)
      && forallb plain_names children
  end.

(** [sep.join(parts)] for a separator of one character. *)
Fixpoint join (sep : ascii) (parts : list (list ascii)) : list ascii :=
  match parts with
  | [] => []
  | [part] => part
  | part :: parts => part ++ sep :: join sep parts
  end.

(** No element at or below [e] has the tag ["group"]. *)
Fixpoint no_group_tags (e : ToolConf.element) : bool :=
  match e with
  | ToolConf.Element tag _ children =>
      negb (String.eqb tag "group") && forallb no_group_tags children
  end.

(** *** Labels *)

(** No white space at either end. *)
Definition trimmed (label : list ascii) : bool :=
  match head label with Some c => negb (Views.is_space c) | None => true end
  && match last label with Some c => negb (Views.is_space c) | None => true end.

(** *** Lists of items with one group reference at most *)

(** In every list of items, at any depth reached through sections, at
    most one item is a group reference. *)
Fixpoint single_ref (t : json) : bool :=
  match t with
  | JDict d =>
      default true (on_items (λ items,
        match items with
        | JList l =>
            bool_decide (length (filter (λ x, is_type "group" x = true) l) ≤ 1)%nat
            && forallb (λ x, negb (is_type "section" x) || single_ref x) l
        | _ => true
        end) d)
  | _ => true
  end.

(** What the loop makes of an item that is no group reference: [x']
    is [x], or [x] as the recursive call leaves it. *)
Definition kept_as (recurse : json → result json) (x x' : json) : Prop :=
  is_dict x = true ∧ is_type "group" x = false ∧ is_type "group" x' = false
  ∧ (if is_type "section" x then recurse x = Ok x' else x' = x).

(** *** Requests that name a dependency *)

(** The index as [_dependency] passes it on: [None], or [int(index)]. *)
Definition converted_index (index : json) : json :=
  if bool_decide (index = JNull) then JNull
  else match Views.py_int index with
       | Ok i => JInt i
       | Raise _ => JNull
       end.

(** The request without the three keys that name the dependency. *)
Definition rest_of (kwds : gmap string json) : gmap string json :=
  delete "type" (delete "version" (delete "name" kwds)).

(** *** What the view lists *)

(** The requirements that [entries] lists under the index [n]. *)
Definition requirements_at (n : nat) (entries : list json) : list json :=
  omap (λ entry,
          match entry with
          | JDict d =>
              if bool_decide (d !! "index" = Some (JInt (Z.of_nat n)))
              then d !! "requirement" else None
          | _ => None
          end) entries.

(** The item of the summary for a requirement, without dependency
    information. *)
Definition requirement_item (requirement_dict : gmap string json) : json :=
  JDict {[ "requirement" := JDict requirement_dict ]}.

(** Every bucket of the set holds tuples of its hash, each once. *)
Definition buckets_ok {T} (hash_frozenset : T → Z) (_set : gmap Z (list T)) : Prop :=
  ∀ tup_hash tups, _set !! tup_hash = Some tups →
    NoDup tups ∧ ∀ tup, tup ∈ tups → hash_frozenset tup = tup_hash.

(** *** A store in which what is written depends on the document

    The documents of [tiny_table] are written as the strings beside
    them and these strings parse back to them; with [toy_md5], the
    digest of a file is the file. *)
Definition tiny_table : list (string * json) :=
  [ ("{}", JDict ∅);
    ("{items: []}", items_doc []);
    ("{items: [{id: missing, type: tool}]}", items_doc [tool "missing"]);
    ("{items: [{id: missing, items: [{id: t1, type: tool}], type: tool}]}",
     items_doc [JDict {[ "type" := JStr "tool"; "id" := JStr "missing";
                         "items" := JList [tool "t1"] ]}]) ].

Definition tiny_loads (contents : string) : option json :=
  snd <$> find (λ p : string * json, String.eqb p.1 contents) tiny_table.

Definition tiny_dumps (as_dict : json) : string :=
  from_option fst "null" (find (λ p : string * json, bool_decide (p.2 = as_dict)) tiny_table).

(** *** Indexes that are plainly no numbers *)

Definition is_letter (c : ascii) : bool :=
  let n := nat_of_ascii c in
  bool_decide ((65 ≤ n ≤ 90)%nat ∨ (97 ≤ n ≤ 122)%nat).

(** What [int(index)] raises on [None], on a list or a dict, and on a
    string written in letters only. *)
Definition int_error (index : json) : option exn :=
  match index with
  | JNull | JList _ | JDict _ => Some TypeError
  | JStr s =>
      if forallb is_letter (String.list_ascii_of_string s) then Some ValueError else None
  | _ => None
  end.

(** *** Text on which [str] and [unicode] agree

    The characters below 128 other than the four separators 28 to 31,
    which [unicode.strip] takes for white space and [str.strip] does
    not. *)
Definition ascii_text (s : list ascii) : bool :=
  forallb (λ c, let n := nat_of_ascii c in
                bool_decide (n < 128)%nat && negb (bool_decide (28 ≤ n ≤ 31)%nat)) s.

(** * Facts *)

(** ** Python values *)

Lemma on_items_lookup {A} (f : json → A) (d : gmap string json) :
  on_items f d = f <$> d !! "items".
Proof. unfold on_items. apply lookup_fmap. Qed.

Lemma py_eq_refl (x : json) : py_eq x x = true.
Proof. unfold py_eq. by apply bool_decide_eq_true_2. Qed.

Lemma py_eq_sym (x y : json) : py_eq x y = py_eq y x.
Proof. unfold py_eq. apply bool_decide_ext. split; congruence. Qed.

Lemma py_eq_str (s t : string) : py_eq (JStr s) (JStr t) = bool_decide (s = t).
Proof. unfold py_eq. simpl. apply bool_decide_ext. split; congruence. Qed.

Lemma bind_ok {A B} (m : result A) (f : A → result B) (b : B) :
  m ≫= f = Ok b → ∃ a, m = Ok a ∧ f a = Ok b.
Proof. destruct m as [a|e]; simpl; [eauto|discriminate]. Qed.

(** ** The versioned store *)

Section store_facts.
Context (md5_hexdigest : string → string).
Context (json_loads : string → option json).
Context (json_dumps : json → string).

Local Abbreviation _hash := (ManagedConf._hash md5_hexdigest).
Local Abbreviation read := (ManagedConf.read md5_hexdigest json_loads).
Local Abbreviation update := (ManagedConf.update md5_hexdigest json_dumps).

(** C1: [update] called with an expected version that is not the force
    sentinel and is not the stamp of the bytes the file holds raises
    [ConcurrentWriteException] and leaves the file as it is, whatever
    the document to be written. *)
Theorem update_stale_version_conflicts (as_dict expected : json) (contents : string) :
  py_eq expected (_hash contents) = false →
  update as_dict (Some (ManagedConf.Hash expected)) (Some contents)
    = (Raise ConcurrentWriteException, Some contents).
Proof.
  intros Hstale. unfold ManagedConf.update. simpl.
  by rewrite Hstale.
Qed.

(** C7: [update(D, FORCE_WRITE)] succeeds on every file and leaves
    there the bytes written for [D]; the [read] that follows returns
    what those bytes parse to, and for the stamp the md5 digest of
    those bytes. *)
Theorem force_update_then_read (as_dict as_dict' : json) (f : ManagedConf.file) :
  json_loads (json_dumps as_dict) = Some as_dict' →
  update as_dict (Some ManagedConf.FORCE_WRITE) f = (Ok (), Some (json_dumps as_dict))
  ∧ read (Some (json_dumps as_dict))
    = Ok (JStr (md5_hexdigest (json_dumps as_dict)), as_dict').
Proof.
  intros Hround. split; [reflexivity|].
  unfold ManagedConf.read. simpl. by rewrite Hround.
Qed.

(** C10: [previous_hash] defaults to [FORCE_WRITE].  [update] raises
    [ConcurrentWriteException] exactly when it is given an expected
    version other than the sentinel that is not the stamp of the bytes
    in the file, and a call that leaves the argument out overwrites the
    file without any check. *)
Theorem update_conflict_iff (as_dict : json) (previous_hash : option ManagedConf.hash_arg)
    (f : ManagedConf.file) :
  ((update as_dict previous_hash f).1 = Raise ConcurrentWriteException ↔
     ∃ expected contents,
       previous_hash = Some (ManagedConf.Hash expected) ∧ f = Some contents
       ∧ py_eq expected (_hash contents) = false)
  ∧ update as_dict None f = (Ok (), Some (json_dumps as_dict))
  ∧ update as_dict None f = update as_dict (Some ManagedConf.FORCE_WRITE) f.
Proof.
  split; [|done]. unfold ManagedConf.update. split.
  - destruct previous_hash as [[|expected]|]; simpl; try discriminate.
    destruct f as [contents|]; simpl; try discriminate.
    destruct (py_eq expected (_hash contents)) eqn:Heq; simpl; try discriminate.
    intros _. by exists expected, contents.
  - intros (expected & contents & -> & -> & Hstale). simpl. by rewrite Hstale.
Qed.

End store_facts.

Lemma update_stale_version_conflicts_witness :
  ManagedConf.update toy_md5 toy_dumps (items_doc []) (Some (ManagedConf.Hash (JStr "stale"))) (Some "{}")
    = (Raise ConcurrentWriteException, Some "{}").
Proof. apply update_stale_version_conflicts. vm_compute. reflexivity. Defined.

Lemma force_update_then_read_witness :
  (ManagedConf.update toy_md5 tiny_dumps (items_doc [tool "missing"])
     (Some ManagedConf.FORCE_WRITE) (Some "{}")
   = (Ok (), Some "{items: [{id: missing, type: tool}]}")
   ∧ ManagedConf.read toy_md5 tiny_loads (Some "{items: [{id: missing, type: tool}]}")
     = Ok (JStr "{items: [{id: missing, type: tool}]}", items_doc [tool "missing"]))
  ∧ (ManagedConf.update toy_md5 tiny_dumps (items_doc [])
       (Some ManagedConf.FORCE_WRITE) None
     = (Ok (), Some "{items: []}")
     ∧ ManagedConf.read toy_md5 tiny_loads (Some "{items: []}")
       = Ok (JStr "{items: []}", items_doc [])).
Proof.
  split.
  - apply (force_update_then_read toy_md5 tiny_loads tiny_dumps (items_doc [tool "missing"])
             (items_doc [tool "missing"]) (Some "{}")).
    vm_compute. reflexivity.
  - apply (force_update_then_read toy_md5 tiny_loads tiny_dumps (items_doc [])
             (items_doc []) None).
    vm_compute. reflexivity.
Defined.

(** ** The action interpreter *)

Section interpreter_facts.
Import ManagedConf.

Lemma find_from_found (items : ref) (elements : list json) (index : nat) (id : json) (r : ref) :
  find_from items elements index id = Ok (Some r) →
  existsb (has_id id) elements = true.
Proof.
  revert index. induction elements as [|item elements IH]; intros index; simpl; [discriminate|].
  destruct item as [ | | | | |d]; simpl; try discriminate.
  destruct (d !! "id") as [v|]; simpl; [|discriminate].
  destruct (py_eq v id); [done|]. apply IH.
Qed.

Lemma has_id_chars (id : json) (s : string) : existsb (has_id id) (chars s) = false.
Proof. induction s; simpl; auto. Qed.

Lemma has_id_strs (id : json) (l : list string) : existsb (has_id id) (JStr <$> l) = false.
Proof. induction l; simpl; auto. Qed.

(** A section target that names no item of the root list resolves to
    nothing: the action raises. *)
Lemma add_item_unresolved_section (mem item sid : json) (t : gmap string json) :
  t !! "group" = None → t !! "section" = Some sid →
  existsb (has_id sid) (root_items mem) = false →
  ∃ e, _add_item mem (Some []) item (JDict t) = Raise e ∧ e ≠ ConcurrentWriteException.
Proof.
  intros Hg Hs Hnone. unfold _add_item. simpl. rewrite Hg, Hs. simpl.
  unfold _target_to_section, getitem_ref. simpl.
  destruct mem as [ | | | | |d]; simpl; try (by eexists).
  simpl in Hnone.
  destruct (d !! "items") as [v|] eqn:Hitems; simpl; [|by eexists].
  rewrite Hs. simpl. unfold _find_with_id. simpl. rewrite Hitems. simpl.
  assert (∀ elements, existsb (has_id sid) elements = false →
    ∃ e, (section_dict ← find_from [Key "items"] elements 0 sid;
          '(section_items, mem0) ← _ensure_has_items (JDict d) section_dict;
          append mem0 section_items item) = Raise e ∧ e ≠ ConcurrentWriteException) as Hloop.
  { intros elements Hel.
    destruct (find_from [Key "items"] elements 0 sid) as [[r|]|e] eqn:Hfind; simpl.
    - apply find_from_found in Hfind. congruence.
    - by eexists.
    - exists e. split; [done|]. clear -Hfind. revert Hfind. generalize 0.
      induction elements as [|x elements IH]; intros n; simpl; [discriminate|].
      destruct x as [ | | | | |dx]; simpl; try (by intros [= <-]).
      destruct (dx !! "id"); simpl; [|by intros [= <-]].
      destruct (py_eq _ _); [discriminate|]. apply IH. }
  destruct v as [ | | |s|l|dd]; simpl; try (by eexists).
  - apply Hloop, has_id_chars.
  - by apply Hloop.
  - apply Hloop, has_id_strs.
Qed.

Lemma find_from_raises (items : ref) (elements : list json) (index : nat) (id : json)
    (e : exn) :
  find_from items elements index id = Raise e → e = KeyError (JStr "id") ∨ e = TypeError.
Proof.
  revert index. induction elements as [|x elements IH]; intros index; simpl; [discriminate|].
  destruct x as [ | | | | |dx]; simpl; try (intros [= <-]; by right).
  destruct (dx !! "id"); simpl; [|intros [= <-]; by left].
  destruct (py_eq _ _); [discriminate|]. apply IH.
Qed.

Lemma find_from_none (items : ref) (elements : list json) (index : nat) (id : json) :
  forallb (has_other_id id) elements = true → find_from items elements index id = Ok None.
Proof.
  revert index. induction elements as [|x elements IH]; intros index; simpl; [done|].
  intros [Hx Hrest]%andb_prop. destruct x as [ | | | | |dx]; try discriminate. simpl in *.
  destruct (dx !! "id") as [v|]; [|discriminate]. simpl.
  apply negb_true_iff in Hx. rewrite Hx. by apply IH.
Qed.

(** Which exception an unresolved section target ends in. *)
Lemma add_item_unresolved_error (mem item sid : json) (t : gmap string json) :
  t !! "group" = None → t !! "section" = Some sid →
  existsb (has_id sid) (root_items mem) = false →
  ∃ e, _add_item mem (Some []) item (JDict t) = Raise e
    ∧ (e = KeyError (JStr "items") ∨ e = KeyError (JStr "id") ∨ e = TypeError).
Proof.
  intros Hg Hs Hnone. unfold _add_item. simpl. rewrite Hg, Hs. simpl.
  unfold _target_to_section, getitem_ref. simpl.
  destruct mem as [ | | | | |d]; simpl; try (eexists; split; [reflexivity|auto]).
  simpl in Hnone.
  destruct (d !! "items") as [v|] eqn:Hitems; simpl; [|eexists; split; [reflexivity|auto]].
  rewrite Hs. simpl. unfold _find_with_id. simpl. rewrite Hitems. simpl.
  assert (∀ elements, existsb (has_id sid) elements = false →
    ∃ e, (section_dict ← find_from [Key "items"] elements 0 sid;
          '(section_items, mem0) ← _ensure_has_items (JDict d) section_dict;
          append mem0 section_items item) = Raise e
      ∧ (e = KeyError (JStr "items") ∨ e = KeyError (JStr "id") ∨ e = TypeError)) as Hloop.
  { intros elements Hel.
    destruct (find_from [Key "items"] elements 0 sid) as [[r|]|e] eqn:Hfind; simpl.
    - apply find_from_found in Hfind. congruence.
    - eexists. split; [reflexivity|auto].
    - exists e. split; [done|]. apply find_from_raises in Hfind. tauto. }
  destruct v as [ | | |s|l|dd]; simpl; try (eexists; split; [reflexivity|auto]).
  - apply Hloop, has_id_chars.
  - by apply Hloop.
  - apply Hloop, has_id_strs.
Qed.

Lemma add_item_without_items (d t : gmap string json) (item sid : json) :
  t !! "group" = None → t !! "section" = Some sid →
  d !! "items" = None →
  _add_item (JDict d) (Some []) item (JDict t) = Raise (KeyError (JStr "items")).
Proof.
  intros Hg Hs Hitems. unfold _add_item. simpl. rewrite Hg, Hs. simpl.
  unfold _target_to_section, getitem_ref. simpl. by rewrite Hitems.
Qed.

Lemma add_item_other_ids (d t : gmap string json) (l : list json) (item sid : json) :
  t !! "group" = None → t !! "section" = Some sid →
  d !! "items" = Some (JList l) →
  forallb (has_other_id sid) l = true →
  _add_item (JDict d) (Some []) item (JDict t) = Raise TypeError.
Proof.
  intros Hg Hs Hitems Hl. unfold _add_item. simpl. rewrite Hg, Hs. simpl.
  unfold _target_to_section, getitem_ref. simpl. rewrite Hitems, Hs. simpl.
  unfold _find_with_id. simpl. rewrite Hitems. simpl.
  by rewrite find_from_none.
Qed.

End interpreter_facts.

Section interpreter_facts2.
Import ManagedConf.

Lemma insert_middle {A} (pre post : list A) (x y : A) :
  <[length pre := y]> (pre ++ x :: post) = pre ++ y :: post.
Proof. replace (length pre) with (length pre + 0) by lia. by rewrite insert_app_r. Qed.

(** [_find_with_id] returns the first element that carries the id. *)
Lemma find_from_first (items : ref) (pre post : list json) (x : json) (index : nat) (id : json) :
  forallb (has_other_id id) pre = true →
  has_id id x = true →
  find_from items (pre ++ x :: post) index id = Ok (Some (items ++ [Index (index + length pre)])).
Proof.
  revert index. induction pre as [|y pre IH]; intros index Hpre Hx; simpl in *.
  - destruct x as [ | | | | |d]; try discriminate. simpl in *.
    destruct (d !! "id") as [v|]; [|discriminate]. simpl. rewrite Hx.
    by rewrite Nat.add_0_r.
  - apply andb_prop in Hpre as [Hy Hpre].
    destruct y as [ | | | | |d]; try discriminate. simpl in *.
    destruct (d !! "id") as [v|]; [|discriminate]. simpl.
    apply negb_true_iff in Hy. rewrite Hy.
    rewrite IH by done. by rewrite Nat.add_succ_r.
Qed.

Lemma add_item_resolved_section (d sd t : gmap string json) (pre post l : list json)
    (sid item : json) :
  d !! "items" = Some (JList (pre ++ JDict sd :: post)) →
  forallb (has_other_id sid) pre = true →
  has_id sid (JDict sd) = true →
  items_or_empty sd = Some l →
  t !! "group" = None → t !! "section" = Some sid →
  _add_item (JDict d) (Some []) item (JDict t)
    = Ok (JDict (<["items" :=
            JList (pre ++ JDict (<["items" := JList (l ++ [item])]> sd) :: post)]> d)).
Proof.
  intros Hitems Hpre Hsec Hl Hg Hs.
  unfold _add_item. simpl. rewrite Hg, Hs. simpl.
  unfold _target_to_section, getitem_ref. simpl. rewrite Hitems, Hs. simpl.
  unfold _find_with_id. simpl. rewrite Hitems. simpl.
  rewrite find_from_first by done. simpl.
  unfold _ensure_has_items, _ensure_has_list. simpl. rewrite Hitems. simpl.
  rewrite list_lookup_middle by done. simpl.
  unfold items_or_empty in Hl.
  destruct (sd !! "items") as [v|] eqn:Hsd.
  - destruct v as [ | | | |l'|]; try discriminate. injection Hl as ->.
    rewrite bool_decide_eq_true_2 by eauto. simpl.
    unfold getitem_ref. simpl. rewrite Hitems. simpl.
    rewrite list_lookup_middle by done. simpl. rewrite Hsd. simpl.
    unfold append. simpl. rewrite Hitems. simpl.
    rewrite list_lookup_middle by done. simpl. rewrite Hsd. simpl.
    by rewrite insert_middle.
  - injection Hl as <-.
    rewrite bool_decide_eq_false_2 by (intros [? ?]; congruence). simpl.
    unfold setitem. simpl. rewrite insert_middle.
    unfold getitem_ref. simpl. rewrite lookup_insert_eq. simpl.
    rewrite list_lookup_middle by done. simpl. rewrite lookup_insert_eq. simpl.
    unfold append. simpl. rewrite lookup_insert_eq. simpl.
    rewrite list_lookup_middle by done. simpl. rewrite !lookup_insert_eq. simpl.
    by rewrite insert_middle, !insert_insert_eq.
Qed.

(** The item that carries the id holds under ["items"] something that
    is no list: it is found, and [append] raises. *)
Lemma add_item_resolved_not_a_list (d sd t : gmap string json) (pre post : list json)
    (sid item : json) :
  d !! "items" = Some (JList (pre ++ JDict sd :: post)) →
  forallb (has_other_id sid) pre = true →
  has_id sid (JDict sd) = true →
  items_or_empty sd = None →
  t !! "group" = None → t !! "section" = Some sid →
  _add_item (JDict d) (Some []) item (JDict t) = Raise AttributeError.
Proof.
  intros Hitems Hpre Hsec Hl Hg Hs.
  unfold _add_item. simpl. rewrite Hg, Hs. simpl.
  unfold _target_to_section, getitem_ref. simpl. rewrite Hitems, Hs. simpl.
  unfold _find_with_id. simpl. rewrite Hitems. simpl.
  rewrite find_from_first by done. simpl.
  unfold _ensure_has_items, _ensure_has_list. simpl. rewrite Hitems. simpl.
  rewrite list_lookup_middle by done. simpl.
  unfold items_or_empty in Hl.
  destruct (sd !! "items") as [v|] eqn:Hsd; [|discriminate].
  rewrite bool_decide_eq_true_2 by eauto. simpl.
  unfold getitem_ref. simpl. rewrite Hitems. simpl.
  rewrite list_lookup_middle by done. simpl. rewrite Hsd. simpl.
  unfold append. simpl. rewrite Hitems. simpl.
  rewrite list_lookup_middle by done. simpl. rewrite Hsd. simpl.
  by destruct v.
Qed.

End interpreter_facts2.

(** ** The retry loop *)

Section retry_facts.
Context (md5_hexdigest : string → string).
Context (json_loads : string → option json).
Context (json_dumps : json → string).

Local Abbreviation _hash := (ManagedConf._hash md5_hexdigest).
Local Abbreviation read := (ManagedConf.read md5_hexdigest json_loads).
Local Abbreviation update := (ManagedConf.update md5_hexdigest json_dumps).
Local Abbreviation while_attempt_write :=
  (ManagedConf.while_attempt_write md5_hexdigest json_loads json_dumps).
Local Abbreviation handle_actions :=
  (ManagedConf.handle_actions md5_hexdigest json_loads json_dumps).

Lemma read_ok (f : ManagedConf.file) (h as_dict : json) :
  read f = Ok (h, as_dict) →
  ∃ contents, f = Some contents ∧ h = _hash contents ∧ json_loads contents = Some as_dict.
Proof.
  unfold ManagedConf.read. destruct f as [contents|]; simpl; [|discriminate].
  destruct (json_loads contents) eqn:Hloads; [|discriminate]. intros [= <- <-]. by exists contents.
Qed.

(** An update against the stamp of the bytes that are in the file goes
    through. *)
Lemma update_fresh_version (as_dict : json) (contents : string) :
  update as_dict (Some (ManagedConf.Hash (_hash contents))) (Some contents)
    = (Ok (), Some (json_dumps as_dict)).
Proof. unfold ManagedConf.update. simpl. by rewrite py_eq_refl. Qed.

(** The loop returns: once the other writers are silent the first
    attempt that gets as far as [update] is the last. *)
Lemma while_attempt_write_returns (schedule : list (option string)) (actions : list json)
    (f : ManagedConf.file) :
  is_Some (while_attempt_write schedule actions f).
Proof.
  revert actions f. induction schedule as [|w schedule IH]; intros actions f; simpl.
  - destruct (read f) as [[h as_dict]|e] eqn:Hread; [|done].
    destruct (ManagedConf.for_actions as_dict actions) as [[as_dict' actions']|e]; [|done].
    apply read_ok in Hread as (contents & -> & -> & _). simpl.
    by rewrite update_fresh_version.
  - destruct (read f) as [[h as_dict]|e]; [|done].
    destruct (ManagedConf.for_actions as_dict actions) as [[as_dict' actions']|e]; [|done].
    destruct (update _ _ _) as [[|e] f']; [done|].
    destruct e; auto.
Qed.

Lemma handle_actions_returns (schedule : list (option string)) (actions : list json)
    (f : ManagedConf.file) :
  is_Some (handle_actions schedule actions f).
Proof. apply while_attempt_write_returns. Qed.

(** An action that raises ends [handle_actions] before its [update]:
    the exception reaches the caller and the file is as it was read. *)
Lemma while_attempt_write_action_raises (schedule : list (option string)) (actions : list json)
    (contents : string) (e : exn) :
  (∀ as_dict, json_loads contents = Some as_dict →
     ManagedConf.for_actions as_dict actions = Raise e) →
  ∃ e', while_attempt_write schedule actions (Some contents) = Some (Raise e', Some contents)
        ∧ (e' = e ∨ e' = ValueError).
Proof.
  intros Hraise. destruct schedule; simpl; unfold ManagedConf.read; simpl;
    (destruct (json_loads contents) as [as_dict|] eqn:Hloads;
      [rewrite (Hraise as_dict) by done|]; eauto).
Qed.

Lemma while_attempt_write_raises (schedule : list (option string)) (actions : list json)
    (contents : string) (as_dict : json) (e : exn) :
  json_loads contents = Some as_dict →
  ManagedConf.for_actions as_dict actions = Raise e →
  while_attempt_write schedule actions (Some contents) = Some (Raise e, Some contents).
Proof.
  intros Hloads Hraise.
  destruct schedule; simpl; unfold ManagedConf.read; simpl; by rewrite Hloads, Hraise.
Qed.

(** C8, as the code has it: [add_item] with a section target whose id
    no item of the root list carries ends [handle_actions] in the
    exception that resolving the target raises, and the file is left
    as it was.  The exception is [KeyError] for ["items"] or for
    ["id"], or [TypeError]: the first when the document has no items,
    as the fresh document, the last when every root item is a dict
    with another id. *)
Theorem add_item_missing_section_fails (schedule : list (option string)) (contents : string)
    (as_dict item sid : json) (t : gmap string json) :
  t !! "group" = None → t !! "section" = Some sid →
  json_loads contents = Some as_dict →
  existsb (has_id sid) (root_items as_dict) = false →
  (∃ e, handle_actions schedule [add_item_action item (JDict t)] (Some contents)
          = Some (Raise e, Some contents)
        ∧ ManagedConf._add_item as_dict (Some []) item (JDict t) = Raise e
        ∧ (e = KeyError (JStr "items") ∨ e = KeyError (JStr "id") ∨ e = TypeError)
        ∧ (∀ d, as_dict = JDict d → d !! "items" = None → e = KeyError (JStr "items"))
        ∧ (∀ d l, as_dict = JDict d → d !! "items" = Some (JList l) →
             forallb (has_other_id sid) l = true → e = TypeError))
  ∧ (json_loads "{}" = Some (JDict ∅) →
     handle_actions schedule [add_item_action item (JDict t)] None
       = Some (Raise (KeyError (JStr "items")), Some "{}")).
Proof.
  intros Hg Hs Hloads Hnone.
  assert (∀ mem e, ManagedConf._add_item mem (Some []) item (JDict t) = Raise e →
    ManagedConf.for_actions mem [add_item_action item (JDict t)] = Raise e) as Hbatch.
  { intros mem e He.
    change (ManagedConf.for_actions mem [add_item_action item (JDict t)])
      with ('(as_dict, action) ← (mem' ← ManagedConf._add_item mem (Some []) item (JDict t);
              Ok (mem', JDict {[ "item" := item; "target" := JDict t ]}));
            Ok (as_dict, [action])).
    by rewrite He. }
  split.
  - destruct (add_item_unresolved_error as_dict item sid t Hg Hs Hnone) as (e & He & Hkind).
    exists e. split; [|split; [done|split; [done|split]]].
    + apply (while_attempt_write_raises _ _ _ as_dict); [done|by apply Hbatch].
    + intros d -> Hitems. rewrite (add_item_without_items d t item sid) in He by done.
      by injection He.
    + intros d l -> Hitems Hl. rewrite (add_item_other_ids d t l item sid) in He by done.
      by injection He.
  - intros Hempty. apply (while_attempt_write_raises _ _ _ (JDict ∅)); [done|].
    apply Hbatch. by apply (add_item_without_items ∅ t item sid).
Qed.

(** [_handle_action] leaves an action without its ["action"] key. *)
Lemma handle_action_pops (mem mem' action action' : json) (as_dict : ManagedConf.obj) :
  ManagedConf._handle_action mem as_dict action = Ok (mem', action') →
  ManagedConf.pop_action action' = Raise (KeyError (JStr "action")).
Proof.
  unfold ManagedConf._handle_action. intros H.
  apply bind_ok in H as ([a kwargs] & Hpop & H).
  apply bind_ok in H as (mem1 & _ & [= _ <-]).
  destruct action as [ | | | | |d]; try discriminate. simpl in Hpop.
  destruct (d !! "action"); [|discriminate]. injection Hpop as _ <-.
  simpl. by rewrite lookup_delete_eq.
Qed.

(** Once a pass over the actions has gone through, every action has
    lost its ["action"] key: a second pass over the same list raises
    [KeyError] at its first action, on any document. *)
Lemma for_actions_second_pass (as_dict as_dict' as_dict2 : json) (actions actions' : list json) :
  actions ≠ [] →
  ManagedConf.for_actions as_dict actions = Ok (as_dict', actions') →
  ManagedConf.for_actions as_dict2 actions' = Raise (KeyError (JStr "action")).
Proof.
  destruct actions as [|action actions]; [done|]. intros _ H. simpl in H.
  apply bind_ok in H as ([mem1 action1] & Hfirst & H).
  apply bind_ok in H as ([mem2 rest] & _ & [= _ <-]).
  apply handle_action_pops in Hfirst. simpl.
  unfold ManagedConf._handle_action. by rewrite Hfirst.
Qed.

(** C2: a batch of one [create_section], on a file that another writer
    replaces between this caller's [read] and [update].  The first pass
    creates the section; [update] meets the other writer's bytes and
    raises [ConcurrentWriteException]; the pass that the loop then
    makes over the same actions raises [KeyError] at the first of them,
    and that is how [handle_actions] ends.  Left alone, the same call
    writes the document with the section. *)
Theorem retry_meets_popped_actions (theirs : string) (their_dict : json) :
  json_loads "{}" = Some (JDict ∅) →
  json_loads theirs = Some their_dict →
  md5_hexdigest theirs ≠ md5_hexdigest "{}" →
  let actions := [create_section_action "a" "A"] in
  ManagedConf.for_actions (JDict ∅) actions
    = Ok (items_doc [section "a" "A" []], [JDict {[ "id" := JStr "a"; "name" := JStr "A" ]}])
  ∧ handle_actions [Some theirs] actions None
    = Some (Raise (KeyError (JStr "action")), Some theirs)
  ∧ handle_actions [] actions None
    = Some (Ok (), Some (json_dumps (items_doc [section "a" "A" []]))).
Proof.
  intros Hempty Htheirs Hdiffer actions.
  assert (ManagedConf.for_actions (JDict ∅) actions
    = Ok (items_doc [section "a" "A" []], [JDict {[ "id" := JStr "a"; "name" := JStr "A" ]}]))
    as Hfirst by (vm_compute; reflexivity).
  split; [done|].
  unfold ManagedConf.handle_actions, ManagedConf.while_attempt_write, ManagedConf.read.
  simpl ManagedConf.ensure_exists. simpl ManagedConf._contents.
  cbn [mbind result_bind]. rewrite Hempty, Hfirst. split.
  - simpl. unfold ManagedConf.update, ManagedConf._hash. simpl.
    rewrite py_eq_str, bool_decide_eq_false_2 by congruence. simpl.
    by rewrite Htheirs.
  - simpl. by rewrite update_fresh_version.
Qed.

End retry_facts.

(** ** Section targets *)

Section target_facts.
Import ManagedConf.

(** C3, as the code has it: a section target is resolved by one scan of
    the root list of items.  [add_item] takes the first root item that
    carries the id, the items before it being dicts with other ids, and
    appends to the list that this item holds under ["items"], which it
    creates when the item has no such key; when the item holds something
    else there [append] raises [AttributeError].  When no root item
    carries the id the action raises, wherever else in the tree a
    section of that id may be. *)
Theorem add_item_section_target (d sd t : gmap string json) (pre post : list json)
    (sid item : json) :
  t !! "group" = None → t !! "section" = Some sid →
  d !! "items" = Some (JList (pre ++ JDict sd :: post)) →
  forallb (has_other_id sid) pre = true →
  has_id sid (JDict sd) = true →
  _add_item (JDict d) (Some []) item (JDict t)
    = match items_or_empty sd with
      | Some l =>
          Ok (JDict (<["items" :=
                JList (pre ++ JDict (<["items" := JList (l ++ [item])]> sd) :: post)]> d))
      | None => Raise AttributeError
      end
  ∧ ∀ as_dict, existsb (has_id sid) (root_items as_dict) = false →
      ∃ e, _add_item as_dict (Some []) item (JDict t) = Raise e.
Proof.
  intros Hg Hs Hitems Hpre Hsec. split.
  - destruct (items_or_empty sd) as [l|] eqn:Hl.
    + by eapply add_item_resolved_section.
    + by eapply add_item_resolved_not_a_list.
  - intros as_dict Hnone.
    destruct (add_item_unresolved_section as_dict item sid t Hg Hs Hnone) as (e & He & _).
    by exists e.
Qed.

Lemma add_item_section_target_witness :
  (_add_item (items_doc [tool "t0"; section "s" "S" []]) (Some []) (tool "t1")
     (section_target (JStr "s"))
   = Ok (items_doc [tool "t0"; section "s" "S" [tool "t1"]]))
  ∧ (_add_item (items_doc [tool "t0"; JDict {[ "id" := JStr "s"; "items" := JNull ]}])
       (Some []) (tool "t1") (section_target (JStr "s"))
     = Raise AttributeError).
Proof.
  split.
  - refine (eq_trans (proj1 (add_item_section_target
      {[ "items" := JList [tool "t0"; section "s" "S" []] ]}
      {[ "type" := JStr "section"; "name" := JStr "S"; "id" := JStr "s"; "items" := JList [] ]}
      {[ "section" := JStr "s" ]} [tool "t0"] [] (JStr "s") (tool "t1")
      _ _ _ _ _)) _); vm_compute; reflexivity.
  - refine (eq_trans (proj1 (add_item_section_target
      {[ "items" := JList [tool "t0"; JDict {[ "id" := JStr "s"; "items" := JNull ]}] ]}
      {[ "id" := JStr "s"; "items" := JNull ]}
      {[ "section" := JStr "s" ]} [tool "t0"] [] (JStr "s") (tool "t1")
      _ _ _ _ _)) _); vm_compute; reflexivity.
Defined.

(** C3, as the claim has it, fails: the section ["inner"] is in the tree,
    inside the section ["outer"], and [add_item] with the target
    [{section: "inner"}] raises. *)
Lemma nested_section_not_found :
  tree_has_section (JStr "inner") nested_doc = true
  ∧ _add_item nested_doc (Some []) (tool "t1") (section_target (JStr "inner")) = Raise TypeError.
Proof. split; vm_compute; reflexivity. Qed.

End target_facts.

(** ** The dependency view *)

(** [l[i]] for an integer [i]: in range from [-len(l)] to [len(l) - 1],
    where it is the element at [i mod len(l)]. *)
Lemma list_getitem_range {A} (l : list A) (i : Z) :
  let n := Z.of_nat (length l) in
  ((- n ≤ i < n)%Z → ∃ x, l !! Z.to_nat (i mod n) = Some x ∧ Views.list_getitem l i = Ok x)
  ∧ (¬ (- n ≤ i < n)%Z → Views.list_getitem l i = Raise IndexError).
Proof.
  intros n. unfold Views.list_getitem. fold n. split.
  - intros Hrange. destruct (Z.ltb_spec i 0) as [Hneg|Hpos].
    + rewrite (proj2 (Z.ltb_ge (n + i) 0)) by lia.
      replace (i mod n)%Z with (n + i)%Z.
      2:{ apply (Z.mod_unique _ _ (-1)); lia. }
      destruct (lookup_lt_is_Some_2 l (Z.to_nat (n + i))) as [x Hx]; [lia|].
      exists x. by rewrite Hx.
    + rewrite (proj2 (Z.ltb_ge i 0)) by lia.
      rewrite Z.mod_small by lia.
      destruct (lookup_lt_is_Some_2 l (Z.to_nat i)) as [x Hx]; [lia|].
      exists x. by rewrite Hx.
  - intros Hout. destruct (Z.ltb_spec i 0) as [Hneg|Hpos].
    + by rewrite (proj2 (Z.ltb_lt (n + i) 0)) by lia.
    + rewrite (proj2 (Z.ltb_ge i 0)) by lia.
      rewrite lookup_ge_None_2; [done|lia].
Qed.

Lemma lstrip_letters (l : list ascii) :
  forallb is_letter l = true → Views.lstrip l = l.
Proof.
  destruct l as [|c l]; [done|]. simpl. intros [Hc _]%andb_prop.
  destruct (Views.is_space c) eqn:Hspace; [|done]. exfalso. revert Hc Hspace.
  destruct c as [[] [] [] [] [] [] [] []]; vm_compute; congruence.
Qed.

Lemma forallb_reverse {A} (P : A → bool) (l : list A) :
  forallb P (reverse l) = forallb P l.
Proof.
  induction l as [|x l IH]; [done|].
  rewrite reverse_cons, forallb_app, IH. simpl. by rewrite andb_true_r, andb_comm.
Qed.

(** [int] of a string written in letters. *)
Lemma int_of_letters (s : string) :
  forallb is_letter (String.list_ascii_of_string s) = true →
  Views.int_of_string s = Raise ValueError.
Proof.
  intros Hletters. unfold Views.int_of_string, Views.strip.
  rewrite (lstrip_letters _ Hletters).
  rewrite lstrip_letters by (by rewrite forallb_reverse).
  rewrite reverse_involutive.
  destruct (String.list_ascii_of_string s) as [|c l]; [done|].
  simpl in Hletters. apply andb_prop in Hletters as [Hc _].
  destruct c as [[] [] [] [] [] [] [] []];
    (vm_compute in Hc; try discriminate Hc); reflexivity.
Qed.

Lemma py_int_error (index : json) (e : exn) :
  int_error index = Some e → Views.py_int index = Raise e.
Proof.
  destruct index as [ | | |s| | ]; simpl; try (by intros [= <-]); try discriminate.
  destruct (forallb is_letter _) eqn:Hletters; [|discriminate].
  intros [= <-]. by apply int_of_letters.
Qed.

Section view_facts.
Context (dependency_resolvers : list Views.resolver).
Context (find_dep_result : json → json → json → gmap string json → result json).
Context (install_result :
  Views.resolver → json → json → json → gmap string json → result json).

Local Abbreviation manager_dependency := (Views.manager_dependency find_dep_result).
Local Abbreviation resolver_dependency := (Views.resolver_dependency find_dep_result).
Local Abbreviation install_dependency :=
  (Views.install_dependency dependency_resolvers install_result).
Local Abbreviation _dependency_resolver := (Views._dependency_resolver dependency_resolvers).

Lemma parse_without_name (kwds : gmap string json) :
  lacks_name kwds = true → Views._parse_dependency_info kwds = Raise missing_name.
Proof.
  unfold lacks_name, Views._parse_dependency_info. intros H.
  apply bool_decide_eq_true_1 in H. by rewrite H.
Qed.

Lemma dependency_without_name (index : json) (kwds : gmap string json) :
  lacks_name kwds = true →
  (∃ e, Views._dependency find_dep_result index kwds = (Raise e, []))
  ∧ (index_converts index = true →
     Views._dependency find_dep_result index kwds = (Raise missing_name, [])).
Proof.
  intros Hname. unfold Views._dependency, index_converts.
  rewrite (parse_without_name _ Hname).
  destruct (bool_decide (index = JNull)); simpl; [eauto|].
  destruct (Views.py_int index); simpl; [eauto|]. split; [eauto|discriminate].
Qed.

(** C9, as the code has it: a request without a [name] makes each of the
    three operations raise before the dependency manager or a resolver
    is called.  The exception is the missing-parameter one once the
    index is dealt with: always for [resolver_dependency], whose index is
    not looked at; for [manager_dependency] when the request has no
    index or [int] accepts it; for [install_dependency] when the index
    selects a resolver that has [install_dependency].  Otherwise it is
    the exception of the index: that of [int] on an index that is
    plainly no number, [IndexError] when the number is out of range for
    the list of resolvers, [NotImplemented] when the resolver cannot
    install. *)
Theorem dependency_request_without_name (index : json) (kwds : gmap string json) :
  lacks_name kwds = true →
  Views._parse_dependency_info kwds = Raise missing_name
  ∧ (kwds !! "index" = None → resolver_dependency index kwds = (Raise missing_name, []))
  ∧ (∃ e, manager_dependency kwds = (Raise e, []))
  ∧ (index_converts (default JNull (kwds !! "index")) = true →
     manager_dependency kwds = (Raise missing_name, []))
  ∧ (∃ e, install_dependency index kwds = (Raise e, []))
  ∧ (∀ r, _dependency_resolver index = Ok r → Views.has_install_dependency r = true →
     install_dependency index kwds = (Raise missing_name, []))
  ∧ (∀ i e, kwds !! "index" = Some i → i ≠ JNull → int_error i = Some e →
     manager_dependency kwds = (Raise e, []))
  ∧ (∀ e, int_error index = Some e → install_dependency index kwds = (Raise e, []))
  ∧ (∀ n, Views.py_int index = Ok n →
     ¬ (- Z.of_nat (length dependency_resolvers) ≤ n
        < Z.of_nat (length dependency_resolvers))%Z →
     install_dependency index kwds = (Raise IndexError, []))
  ∧ (∀ r, _dependency_resolver index = Ok r → Views.has_install_dependency r = false →
     install_dependency index kwds = (Raise NotImplemented, [])).
Proof.
  intros Hname.
  assert (lacks_name (delete "index" kwds) = true) as Hname'.
  { revert Hname. unfold lacks_name. by rewrite lookup_delete_ne. }
  destruct (dependency_without_name (default JNull (kwds !! "index")) _ Hname') as [Hraise Hmiss].
  repeat split.
  - by apply parse_without_name.
  - intros Hindex. unfold Views.resolver_dependency, Views.call_dependency.
    apply dependency_without_name; [done|]. by rewrite Hindex.
  - done.
  - done.
  - unfold Views.install_dependency. rewrite (parse_without_name _ Hname).
    destruct (_dependency_resolver index) as [r|e]; simpl; [|eauto].
    destruct (Views.has_install_dependency r); simpl; eauto.
  - intros r Hr Hinstall. unfold Views.install_dependency.
    rewrite Hr, (parse_without_name _ Hname). simpl. by rewrite Hinstall.
  - intros i e Hi Hnone Herror.
    unfold Views.manager_dependency, Views.call_dependency, Views._dependency.
    rewrite Hi. simpl. rewrite bool_decide_eq_false_2 by done.
    by rewrite (py_int_error _ _ Herror).
  - intros e Herror. unfold Views.install_dependency, Views._dependency_resolver.
    by rewrite (py_int_error _ _ Herror).
  - intros n Hint Hout. unfold Views.install_dependency, Views._dependency_resolver.
    rewrite Hint. simpl.
    by rewrite (proj2 (list_getitem_range dependency_resolvers n) Hout).
  - intros r Hr Hinstall. unfold Views.install_dependency.
    rewrite Hr. simpl. by rewrite Hinstall.
Qed.

End view_facts.

Lemma dependency_request_without_name_witness :
  Views._parse_dependency_info {[ "version" := JStr "1.2" ]} = Raise missing_name.
Proof.
  apply (dependency_request_without_name [] (λ _ _ _ _, Ok JNull) no_resolver_result
           (JInt 0) {[ "version" := JStr "1.2" ]}).
  vm_compute. reflexivity.
Defined.

(** C9, as the claim has it, fails: a request without a name to a
    resolver that cannot install is answered by [NotImplemented], and
    one with an index that [int] rejects by [ValueError]. *)
Lemma index_errors_come_first :
  lacks_name ∅ = true
  ∧ Views.install_dependency [{| Views.has_install_dependency := false |}] no_resolver_result
      (JInt 0) ∅ = (Raise NotImplemented, [])
  ∧ Views.install_dependency [] no_resolver_result (JInt 0) ∅ = (Raise IndexError, [])
  ∧ lacks_name {[ "index" := JStr "first" ]} = true
  ∧ Views.manager_dependency (λ _ _ _ _, Ok JNull) {[ "index" := JStr "first" ]}
      = (Raise ValueError, []).
Proof. repeat split; vm_compute; reflexivity. Qed.

(** ** Witnesses of the store and of the retry loop *)

Lemma add_item_missing_section_fails_witness :
  ManagedConf.handle_actions toy_md5 tiny_loads tiny_dumps [Some "{}"]
    [add_item_action (tool "t1") (section_target (JStr "missing"))] (Some "{items: []}")
  = Some (Raise TypeError, Some "{items: []}").
Proof.
  destruct (add_item_missing_section_fails toy_md5 tiny_loads tiny_dumps [Some "{}"]
    "{items: []}" (items_doc []) (tool "t1") (JStr "missing") {[ "section" := JStr "missing" ]})
    as [(e & Hcall & _ & _ & _ & Hkind) _]; [vm_compute; reflexivity..|].
  assert (e = TypeError) as ->
    by (apply (Hkind {[ "items" := JList [] ]} []); vm_compute; reflexivity).
  exact Hcall.
Defined.

(** C8, as the claim has it, fails: no section has the id ["missing"],
    at any depth, yet the target [{section: "missing"}] resolves to the
    tool that carries the id; the item is appended to it and the
    document is written. *)
Lemma non_section_item_is_resolved :
  tree_has_section (JStr "missing") (items_doc [tool "missing"]) = false
  ∧ ManagedConf.handle_actions toy_md5 tiny_loads tiny_dumps []
      [add_item_action (tool "t1") (section_target (JStr "missing"))]
      (Some "{items: [{id: missing, type: tool}]}")
    = Some (Ok (),
            Some "{items: [{id: missing, items: [{id: t1, type: tool}], type: tool}]}").
Proof. split; vm_compute; reflexivity. Qed.

Lemma retry_meets_popped_actions_witness :
  ManagedConf.handle_actions toy_md5 toy_loads toy_dumps [Some "{ }"]
    [create_section_action "a" "A"] None
  = Some (Raise (KeyError (JStr "action")), Some "{ }").
Proof.
  apply (retry_meets_popped_actions toy_md5 toy_loads toy_dumps "{ }" (JDict ∅));
    vm_compute; [reflexivity|reflexivity|discriminate].
Defined.

(** ** Group inlining *)

Section inline_facts.
Import Parser.

Lemma json_size_lookup (d : gmap string json) (k : string) (v : json) :
  d !! k = Some v → (json_size v < json_size (JDict d))%nat.
Proof.
  intros Hk. simpl. rewrite <-(insert_delete_id d k v) by done.
  rewrite map_fold_insert_L.
  - lia.
  - intros. lia.
  - apply lookup_delete_eq.
Qed.

Lemma json_size_elem (l : list json) (x : json) :
  x ∈ l → (json_size x < json_size (JList l))%nat.
Proof.
  simpl. induction 1 as [x l|x y l _ IH]; simpl; lia.
Qed.

(** Induction along the items of a dict. *)
Lemma tree_ind (Q : json → Prop) :
  (∀ x, is_dict x = false → Q x) →
  (∀ d, (∀ l x, d !! "items" = Some (JList l) → x ∈ l → Q x) → Q (JDict d)) →
  ∀ t, Q t.
Proof.
  intros Hleaf Hnode t.
  remember (json_size t) as n eqn:Hn. revert t Hn.
  induction (lt_wf n) as [n _ IH]. intros t ->.
  destruct t as [ | | | | |d]; try (by apply Hleaf).
  apply Hnode. intros l x Hitems Hx. eapply IH; [|reflexivity].
  apply json_size_lookup in Hitems. apply json_size_elem in Hx. lia.
Qed.

Lemma replace_groups_in_items_unfold (group_map : pydict) (d : gmap string json) :
  replace_groups_in_items group_map (JDict d) =
    match d !! "items" with
    | Some items =>
        items' ← replace_in group_map (replace_groups_in_items group_map) items;
        Ok (JDict (<["items" := items']> d))
    | None => Ok (JDict d)
    end.
Proof.
  change (replace_groups_in_items group_map (JDict d)) with
    (match on_items (replace_in group_map (replace_groups_in_items group_map)) d with
     | Some r => items' ← r; Ok (JDict (<["items" := items']> d))
     | None => Ok (JDict d)
     end).
  rewrite on_items_lookup. by destruct (d !! "items").
Qed.

Lemma tree_ok_unfold (ref_ok : json → bool) (d : gmap string json) :
  tree_ok ref_ok (JDict d) =
    match d !! "items" with
    | Some (JList l) =>
        forallb (λ x, is_dict x &&
                      (if is_type "group" x then ref_ok x
                       else if is_type "section" x then tree_ok ref_ok x
                       else true)) l
    | Some _ => false
    | None => true
    end.
Proof.
  change (tree_ok ref_ok (JDict d)) with
    (default true (on_items (λ items,
        match items with
        | JList l =>
            forallb (λ x, is_dict x &&
                          (if is_type "group" x then ref_ok x
                           else if is_type "section" x then tree_ok ref_ok x
                           else true)) l
        | _ => false
        end) d)).
  rewrite on_items_lookup. by destruct (d !! "items") as [[]|].
Qed.

Lemma tree_sum_unfold (w : json → nat) (d : gmap string json) :
  tree_sum w (JDict d) =
    match d !! "items" with
    | Some (JList l) => sum_list_with (item_sum w) l
    | _ => 0
    end.
Proof.
  change (tree_sum w (JDict d)) with
    (default 0 (on_items (λ items,
        match items with
        | JList l => sum_list_with (item_sum w) l
        | _ => 0
        end) d)).
  rewrite on_items_lookup. by destruct (d !! "items") as [[]|].
Qed.

(** C4: the offset is advanced by one too many after a group reference,
    so the items of a group whose reference follows another group
    reference land one place further on.  With a disabled group [g0],
    a group [g1] of one tool [x] and the items [g0, g1, y] the code
    yields [y, x], where splicing in place, as the specification words
    it, yields [x, y]; on the specification's own example, [g1, y], the
    code yields [x, y]. *)
Theorem inline_misplaces_after_group_reference :
  _preprocess two_refs_doc = Ok (items_doc [tool "y"; tool "x"])
  ∧ inline_spec two_refs_doc = Ok (items_doc [tool "x"; tool "y"])
  ∧ _preprocess one_ref_doc = Ok (items_doc [tool "x"; tool "y"])
  ∧ inline_spec one_ref_doc = Ok (items_doc [tool "x"; tool "y"]).
Proof. repeat split; vm_compute; reflexivity. Qed.

End inline_facts.

(** *** The loop over the snapshot *)

Section loop_facts.
Import Parser.

Lemma pending_cons (index : nat) (x : json) (snapshot : list json) :
  pending index (x :: snapshot) = (Some index, x) :: pending (S index) snapshot.
Proof.
  unfold pending. rewrite imap_cons, Nat.add_0_r. f_equal.
  apply imap_ext. intros k y _. simpl. do 2 f_equal. lia.
Qed.

Lemma pending_unvisited (index : nat) (snapshot : list json) (e : entry) :
  e ∈ pending index snapshot → unvisited index e.
Proof.
  intros (k & y & -> & _)%elem_of_lookup_imap_1. exists (index + k). split; [done|lia].
Qed.

Lemma filter_all {A} (P : A → Prop) `{!∀ x, Decision (P x)} (l : list A) :
  (∀ x, x ∈ l → P x) → filter P l = l.
Proof.
  induction l as [|x l IH]; intros Hall; [done|].
  rewrite filter_cons_True by (apply Hall; left). f_equal. apply IH.
  intros y Hy. apply Hall. by right.
Qed.

Lemma loop_inv_start (l : list json) :
  loop_inv 0 l (imap (λ i x, (Some i, x)) l).
Proof.
  unfold loop_inv. change (imap (λ i x, (Some i, x)) l) with (pending 0 l).
  apply filter_all. apply pending_unvisited.
Qed.

Lemma unvisited_S (index : nat) (e : entry) : unvisited (S index) e → unvisited index e.
Proof. intros (k & ? & ?). exists k. split; [done|lia]. Qed.

Lemma filter_unvisited_S (index : nat) (x : json) (snapshot : list json) (items : list entry) :
  filter (unvisited index) items = pending (S index) snapshot
  ∨ filter (unvisited index) items = (Some index, x) :: pending (S index) snapshot →
  loop_inv (S index) snapshot items.
Proof.
  unfold loop_inv. intros Hinv.
  rewrite <-(list_filter_filter_l _ (unvisited index)) by apply unvisited_S.
  destruct Hinv as [-> | ->].
  - apply filter_all. apply pending_unvisited.
  - rewrite filter_cons_False by (intros (k & [= <-] & ?); lia).
    apply filter_all. apply pending_unvisited.
Qed.

(** Leaving the visited object where it is. *)
Lemma loop_inv_next (index : nat) (x : json) (snapshot : list json) (items : list entry) :
  loop_inv index (x :: snapshot) items → loop_inv (S index) snapshot items.
Proof.
  unfold loop_inv at 1. rewrite pending_cons. intros Hinv.
  apply (filter_unvisited_S index x). by right.
Qed.

(** [items.insert] of a group item. *)
Lemma loop_inv_insert (index i : nat) (snapshot : list json) (items : list entry) (v : json) :
  loop_inv index snapshot items →
  loop_inv index snapshot (list_insert_at i (None, v) items).
Proof.
  unfold loop_inv, list_insert_at. intros Hinv.
  rewrite filter_app, filter_cons_False by (intros (k & [=] & ?)).
  by rewrite <-filter_app, take_drop.
Qed.

Lemma loop_inv_insert_group_items (index : nat) (snapshot group_items : list json)
    (current_offset iteration_offset : nat) (items : list entry) :
  loop_inv index snapshot items →
  loop_inv index snapshot
    (insert_group_items group_items current_offset iteration_offset items).1.
Proof.
  revert iteration_offset items.
  induction group_items as [|g group_items IH]; intros iteration_offset items Hinv; [done|].
  simpl. apply IH. by apply loop_inv_insert.
Qed.

(** [items.remove(item)] finds something to remove, and what it removes
    is the visited object or an equal item that stands before it. *)
Lemma list_remove_first (index : nat) (item : json) (items rest : list entry) :
  filter (unvisited index) items = (Some index, item) :: rest →
  ∃ before e after,
    items = before ++ e :: after
    ∧ py_eq e.2 item = true
    ∧ list_remove item items = Ok (before ++ after)
    ∧ (filter (unvisited index) (before ++ after) = rest
       ∨ filter (unvisited index) (before ++ after) = (Some index, item) :: rest).
Proof.
  induction items as [|e items IH]; intros Hinv; [done|].
  simpl. rewrite filter_cons in Hinv. destruct (py_eq e.2 item) eqn:Heq.
  - exists [], e, items. repeat split; [done|]. simpl.
    destruct (decide (unvisited index e)); [left; congruence|by right].
  - destruct (decide (unvisited index e)) as [Hv|Hv].
    { injection Hinv as -> _. simpl in Heq. by rewrite py_eq_refl in Heq. }
    destruct (IH Hinv) as (before & e' & after & -> & Heq' & Hrem & Hfil).
    exists (e :: before), e', after. rewrite Hrem. repeat split; [done|].
    simpl. by rewrite filter_cons_False.
Qed.

Lemma loop_inv_remove (index : nat) (item : json) (snapshot : list json) (items : list entry) :
  loop_inv index (item :: snapshot) items →
  ∃ before e after,
    items = before ++ e :: after
    ∧ py_eq e.2 item = true
    ∧ list_remove item items = Ok (before ++ after)
    ∧ loop_inv (S index) snapshot (before ++ after).
Proof.
  unfold loop_inv at 1. rewrite pending_cons. intros Hinv.
  destruct (list_remove_first _ _ _ _ Hinv) as (before & e & after & ? & ? & ? & Hfil).
  exists before, e, after. repeat split; try done.
  by apply (filter_unvisited_S index item).
Qed.

(** The visited object is in [items] once, with the value the snapshot has. *)
Lemma loop_inv_object (index : nat) (item : json) (snapshot : list json) (items : list entry) :
  loop_inv index (item :: snapshot) items →
  ∃ before after,
    items = before ++ (Some index, item) :: after
    ∧ (∀ e, e ∈ before ++ after → e.1 ≠ Some index).
Proof.
  unfold loop_inv. rewrite pending_cons. revert snapshot.
  induction items as [|e items IH]; intros snapshot Hinv; [done|].
  rewrite filter_cons in Hinv. destruct (decide (unvisited index e)) as [Hv|Hv].
  - injection Hinv as -> Hinv. exists [], items. split; [done|].
    intros e He Htag. simpl in He.
    assert (e ∈ pending (S index) snapshot) as Hin.
    { rewrite <-Hinv. apply list_elem_of_filter. split; [|done].
      exists index. split; [done|lia]. }
    apply elem_of_lookup_imap_1 in Hin as (k & y & -> & _). simpl in Htag.
    injection Htag. lia.
  - destruct (IH _ Hinv) as (before & after & -> & Hother).
    exists (e :: before), after. split; [done|].
    intros e' [->|He']%elem_of_cons Htag.
    + apply Hv. exists index. split; [done|lia].
    + by apply (Hother e').
Qed.

(** Mutating the visited object in place. *)
Lemma set_object_middle (index : nat) (v v' : json) (before after : list entry) :
  (∀ e, e ∈ before ++ after → e.1 ≠ Some index) →
  set_object index v' (before ++ (Some index, v) :: after)
    = before ++ (Some index, v') :: after.
Proof.
  intros Hother. unfold set_object. rewrite fmap_app, fmap_cons. simpl.
  rewrite decide_True by done.
  assert (∀ l : list entry, (∀ e, e ∈ l → e.1 ≠ Some index) →
    (λ e : entry, if decide (e.1 = Some index) then (e.1, v') else e) <$> l = l) as Hid.
  { intros l Hl. induction l as [|e l IH]; [done|]. simpl.
    rewrite decide_False by (apply Hl; left). f_equal. apply IH.
    intros e' He'. apply Hl. by right. }
  rewrite !Hid; [done| |]; intros e He; apply Hother; set_solver.
Qed.

Lemma loop_inv_set_object (index : nat) (item item' : json) (snapshot : list json)
    (items : list entry) :
  loop_inv index (item :: snapshot) items →
  loop_inv (S index) snapshot (set_object index item' items).
Proof.
  intros Hinv. destruct (loop_inv_object _ _ _ _ Hinv) as (before & after & -> & Hother).
  rewrite (set_object_middle _ item) by done.
  apply loop_inv_next in Hinv. revert Hinv. unfold loop_inv.
  rewrite !filter_app, !filter_cons_False by (intros (k & [= <-] & ?); lia). done.
Qed.

End loop_facts.

(** *** Documents without group references *)

Section no_groups_facts.
Import Parser.

Lemma imap_tag_values (l : list json) : (imap (λ i x, (Some i, x)) l).*2 = l.
Proof.
  rewrite fmap_imap. rewrite (imap_ext _ (const id)) by done.
  by rewrite imap_const, list_fmap_id.
Qed.

Lemma py_get_type (d : gmap string json) (t : string) :
  (item_type ← py_get (JDict d) "type" JNull; Ok (py_eq item_type (JStr t)))
    = Ok (is_type t (JDict d)).
Proof. done. Qed.

Lemma for_enumerate_no_groups (group_map : pydict) (recurse : json → result json)
    (snapshot : list json) (index : nat) (items : list entry) (current_offset : nat) :
  loop_inv index snapshot items →
  (∀ x, x ∈ snapshot →
     is_dict x = true ∧ is_type "group" x = false
     ∧ (is_type "section" x = true → recurse x = Ok x)) →
  for_enumerate group_map recurse snapshot index items current_offset = Ok items.
Proof.
  revert index items current_offset.
  induction snapshot as [|x snapshot IH]; intros index items current_offset Hinv Hall; [done|].
  destruct (Hall x) as (Hdict & Hgroup & Hsection); [left|].
  destruct x as [ | | | | |d]; try discriminate. simpl in Hgroup, Hsection.
  simpl. rewrite Hgroup.
  assert (∀ y, y ∈ snapshot →
     is_dict y = true ∧ is_type "group" y = false
     ∧ (is_type "section" y = true → recurse y = Ok y)) as Hall'.
  { intros y Hy. apply Hall. by right. }
  destruct (py_eq (default JNull (d !! "type")) (JStr "section")) eqn:Hsec.
  - rewrite Hsection by done. simpl.
    assert (set_object index (JDict d) items = items) as ->.
    { destruct (loop_inv_object _ _ _ _ Hinv) as (before & after & -> & Hother).
      by apply set_object_middle. }
    apply IH; [|done]. by apply loop_inv_next in Hinv.
  - apply IH; [|done]. by apply loop_inv_next in Hinv.
Qed.

Lemma replace_groups_no_groups (group_map : pydict) (t : json) :
  tree_ok (λ _, false) t = true → replace_groups_in_items group_map t = Ok t.
Proof.
  induction t as [x Hx|d IH] using tree_ind.
  - by destruct x.
  - rewrite tree_ok_unfold, replace_groups_in_items_unfold.
    destruct (d !! "items") as [items|] eqn:Hitems; [|done].
    destruct items as [ | | | |l| ]; try discriminate.
    intros Hok. simpl.
    rewrite for_enumerate_no_groups.
    + simpl. rewrite imap_tag_values. by rewrite insert_id.
    + apply loop_inv_start.
    + intros x Hx. rewrite forallb_forall in Hok.
      specialize (Hok x). rewrite <-list_elem_of_In in Hok. specialize (Hok Hx).
      apply andb_prop in Hok as [Hdict Hok]. split; [done|].
      destruct (is_type "group" x); [discriminate|]. split; [done|].
      intros Hsec. rewrite Hsec in Hok. by apply (IH l).
Qed.

(** C6: on a document without a groups table and without a group
    reference at any depth, [_preprocess] changes nothing. *)
Theorem inline_without_group_references (d : gmap string json) :
  d !! "groups" = None →
  tree_ok (λ _, false) (JDict d) = true →
  _preprocess (JDict d) = Ok (JDict d).
Proof.
  intros Hgroups Hok. unfold _preprocess, pop_groups.
  rewrite Hgroups, delete_id by done.
  exact (replace_groups_no_groups [] _ Hok).
Qed.

End no_groups_facts.

Lemma inline_without_group_references_witness :
  Parser._preprocess (items_doc [tool "a"; section "s" "S" [tool "b"; section "n" "N" []]])
  = Ok (items_doc [tool "a"; section "s" "S" [tool "b"; section "n" "N" []]]).
Proof. apply inline_without_group_references; vm_compute; reflexivity. Defined.

(** *** Equal values *)

Lemma py_eq_dict_l (d : gmap string json) (y : json) :
  py_eq (JDict d) y = true → ∃ d', y = JDict d' ∧ normalize <$> d = normalize <$> d'.
Proof.
  unfold py_eq. intros H%bool_decide_eq_true_1. destruct y; try discriminate.
  injection H as H. eauto.
Qed.

Lemma py_eq_dict_r (x : json) (d : gmap string json) :
  py_eq x (JDict d) = true → ∃ d', x = JDict d' ∧ normalize <$> d' = normalize <$> d.
Proof.
  unfold py_eq. intros H%bool_decide_eq_true_1. destruct x; try discriminate.
  injection H as H. eauto.
Qed.

Lemma py_eq_lookup (d d' : gmap string json) (k : string) (z : json) :
  normalize <$> d = normalize <$> d' →
  py_eq (default JNull (d !! k)) z = py_eq (default JNull (d' !! k)) z.
Proof.
  intros H. unfold py_eq. apply bool_decide_ext.
  assert (normalize (default JNull (d !! k)) = normalize (default JNull (d' !! k))) as ->; [|done].
  assert ((normalize <$> d) !! k = (normalize <$> d') !! k) as Hk by (by rewrite H).
  rewrite !lookup_fmap in Hk.
  destruct (d !! k), (d' !! k); simpl in *; congruence.
Qed.

(** [==] does not tell the type and the id of two items apart. *)
Lemma py_eq_is_type (t : string) (x y : json) :
  py_eq x y = true → is_type t x = is_type t y.
Proof.
  intros H. destruct y as [ | | | | |d'].
  1-5: destruct x as [ | | | | |d]; try done;
       by apply py_eq_dict_l in H as (? & ? & _).
  apply py_eq_dict_r in H as (d & -> & H). simpl. by apply py_eq_lookup.
Qed.

Lemma py_eq_refers_to (gid x y : json) :
  py_eq x y = true → refers_to gid x = refers_to gid y.
Proof.
  intros H. unfold refers_to. rewrite (py_eq_is_type _ _ _ H). f_equal.
  destruct y as [ | | | | |d'].
  1-5: destruct x as [ | | | | |d]; try done;
       by apply py_eq_dict_l in H as (? & ? & _).
  apply py_eq_dict_r in H as (d & -> & H). simpl. by apply py_eq_lookup.
Qed.

Lemma is_type_exclusive (x : json) :
  is_type "group" x = true → is_type "section" x = false.
Proof.
  destruct x as [ | | | | |d]; try done. simpl. unfold py_eq. simpl.
  intros H%bool_decide_eq_true_1. rewrite H. by apply bool_decide_eq_false_2.
Qed.

Lemma is_type_insert_items (t : string) (d : gmap string json) (v : json) :
  is_type t (JDict (<["items" := v]> d)) = is_type t (JDict d).
Proof. simpl. by rewrite lookup_insert_ne. Qed.

Lemma py_eq_hashable (x y : json) : py_eq x y = true → hashable x = hashable y.
Proof.
  unfold py_eq. intros H%bool_decide_eq_true_1.
  by destruct x, y.
Qed.

Lemma py_eq_trans (x y z : json) : py_eq x y = true → py_eq y z = true → py_eq x z = true.
Proof.
  unfold py_eq. intros H1%bool_decide_eq_true_1 H2%bool_decide_eq_true_1.
  apply bool_decide_eq_true_2. congruence.
Qed.

(** *** The groups table *)

Section group_map_facts.
Import Parser.

Lemma build_group_map_disabled (gid : json) (groups : list json) (acc group_map : pydict) :
  build_group_map groups acc = Ok group_map →
  forallb (λ group_def, negb (declares gid group_def) || negb (is_enabled group_def)) groups = true →
  (∀ kv, kv ∈ acc → py_eq kv.1 gid = true → kv.2 = JList []) →
  ∀ kv, kv ∈ group_map → py_eq kv.1 gid = true → kv.2 = JList [].
Proof.
  revert acc. induction groups as [|g groups IH]; intros acc Hbuild Hdis Hacc.
  - by injection Hbuild as <-.
  - simpl in Hbuild, Hdis. apply andb_prop in Hdis as [Hg Hdis].
    apply bind_ok in Hbuild as (group_id & Hid & Hbuild).
    apply bind_ok in Hbuild as (group_items & Hitems & Hbuild).
    destruct g as [ | | | | |d]; try discriminate.
    unfold declares, id_of, is_enabled in Hg. simpl in Hid, Hitems, Hbuild, Hg.
    destruct (d !! "id") as [i|] eqn:Hi; [|discriminate]. injection Hid as <-.
    unfold pydict_setitem in Hbuild.
    destruct (hashable i); [|discriminate]. simpl in Hbuild.
    apply (IH _ Hbuild Hdis).
    intros kv [->|Hkv]%elem_of_cons Heq; [|by apply Hacc].
    simpl in *. rewrite Heq in Hg. simpl in Hg. by rewrite Hg.
Qed.

Lemma build_group_map_declares (gid : json) (groups : list json) (acc group_map : pydict) :
  build_group_map groups acc = Ok group_map →
  existsb (declares gid) groups = true ∨ (∃ kv, kv ∈ acc ∧ py_eq kv.1 gid = true) →
  ∃ kv, kv ∈ group_map ∧ py_eq kv.1 gid = true.
Proof.
  revert acc. induction groups as [|g groups IH]; intros acc Hbuild Hdecl.
  - injection Hbuild as <-. by destruct Hdecl.
  - simpl in Hbuild.
    apply bind_ok in Hbuild as (group_id & Hid & Hbuild).
    apply bind_ok in Hbuild as (group_items & Hitems & Hbuild).
    destruct g as [ | | | | |d]; try discriminate. simpl in Hid, Hitems, Hbuild.
    destruct (d !! "id") as [i|] eqn:Hi; [|discriminate]. injection Hid as <-.
    unfold pydict_setitem in Hbuild.
    destruct (hashable i); [|discriminate]. simpl in Hbuild.
    apply (IH _ Hbuild). unfold declares, id_of in Hdecl. simpl in Hdecl.
    rewrite Hi in Hdecl. simpl in Hdecl.
    destruct Hdecl as [[Hhere|Hlater]%orb_prop | (kv & Hkv & Heq)].
    + right. eexists. split; [left|]. done.
    + by left.
    + right. exists kv. split; [by right|done].
Qed.

Lemma find_elem {A} (P : A → bool) (l : list A) (x : A) :
  x ∈ l → P x = true → ∃ y, find P l = Some y ∧ y ∈ l ∧ P y = true.
Proof.
  induction 1 as [x l|x y l _ IH]; intros HP; simpl.
  - rewrite HP. exists x. split; [done|]. split; [left|done].
  - destruct (P y) eqn:HPy.
    + exists y. split; [done|]. split; [left|done].
    + destruct (IH HP) as (z & ? & ? & ?). exists z. split; [done|]. split; [by right|done].
Qed.

Lemma find_Some_elem {A} (P : A → bool) (l : list A) (y : A) :
  find P l = Some y → y ∈ l ∧ P y = true.
Proof.
  induction l as [|x l IH]; simpl; [discriminate|].
  destruct (P x) eqn:HPx.
  - intros [= <-]. split; [left|done].
  - intros H. destruct (IH H). split; [by right|done].
Qed.

Lemma build_group_map_hashable (groups : list json) (acc group_map : pydict) :
  build_group_map groups acc = Ok group_map →
  (∀ kv, kv ∈ acc → hashable kv.1 = true) →
  ∀ kv, kv ∈ group_map → hashable kv.1 = true.
Proof.
  revert acc. induction groups as [|g groups IH]; intros acc Hbuild Hacc.
  - by injection Hbuild as <-.
  - simpl in Hbuild.
    apply bind_ok in Hbuild as (group_id & Hid & Hbuild).
    apply bind_ok in Hbuild as (group_items & Hitems & Hbuild).
    apply bind_ok in Hbuild as (enabled & Henabled & Hbuild).
    apply bind_ok in Hbuild as (group_map' & Hset & Hbuild).
    unfold pydict_setitem in Hset.
    destruct (hashable group_id) eqn:Hh; [|discriminate]. injection Hset as <-.
    apply (IH _ Hbuild). intros kv [->|?]%elem_of_cons; [done|by apply Hacc].
Qed.

(** A group that the table declares disabled, and nowhere enabled, is
    in the map with the empty list. *)
Lemma disabled_group_lookup (gid : json) (groups : list json) (group_map : pydict) :
  build_group_map groups [] = Ok group_map →
  declared_disabled gid groups = true →
  ∀ k, py_eq k gid = true → pydict_getitem group_map k = Ok (JList []).
Proof.
  intros Hbuild [Hdecl Hdis]%andb_prop k Hk.
  destruct (build_group_map_declares gid _ _ _ Hbuild (or_introl Hdecl)) as (kv & Hkv & Heq).
  assert (hashable (kv.1) = true) as Hhash.
  { eapply build_group_map_hashable; [done| |done]. intros ? ?%elem_of_nil. done. }
  unfold pydict_getitem.
  rewrite (py_eq_hashable k gid Hk), <-(py_eq_hashable _ _ Heq), Hhash.
  destruct (find_elem (λ kv, py_eq kv.1 k) group_map kv Hkv) as (kv' & -> & Hkv' & Heq').
  { rewrite py_eq_sym in Hk. by apply (py_eq_trans _ gid). }
  f_equal. eapply (build_group_map_disabled gid); [done|done| |done|].
  - intros ? ?%elem_of_nil. done.
  - by apply (py_eq_trans _ k).
Qed.

End group_map_facts.

(** *** What inlining does to a sum over the tree *)

Section sum_facts.
Import Parser.
Context (group_map : pydict).
Context (w : json → nat).
(** [w] does not tell equal items apart and does not look at the items
    of a section. *)
Context (w_eq : ∀ x y, py_eq x y = true → w x = w y).
Context (w_items : ∀ d v, w (JDict (<["items" := v]> d)) = w (JDict d)).

Local Abbreviation mass items := (sum_list_with (item_sum w) (items : list entry).*2).

Lemma sum_list_with_cons {A} (f : A → nat) (x : A) (l : list A) :
  sum_list_with f (x :: l) = f x + sum_list_with f l.
Proof. done. Qed.

Lemma mass_app (l1 l2 : list entry) : mass (l1 ++ l2) = mass l1 + mass l2.
Proof. by rewrite fmap_app, sum_list_with_app. Qed.

Lemma mass_insert (i : nat) (e : entry) (items : list entry) :
  mass (list_insert_at i e items) = item_sum w e.2 + mass items.
Proof.
  unfold list_insert_at. rewrite fmap_app, fmap_cons, sum_list_with_app, sum_list_with_cons.
  assert (mass items = mass (take i items) + mass (drop i items)) as ->.
  { by rewrite <-mass_app, take_drop. }
  lia.
Qed.

Lemma mass_insert_group_items (group_items : list json) (current_offset iteration_offset : nat)
    (items : list entry) :
  mass (insert_group_items group_items current_offset iteration_offset items).1
    = mass items + sum_list_with (item_sum w) group_items.
Proof.
  revert iteration_offset items.
  induction group_items as [|g group_items IH]; intros iteration_offset items; simpl; [lia|].
  rewrite IH, mass_insert. simpl. lia.
Qed.

Lemma item_sum_group (v : json → nat) (x : json) :
  is_type "group" x = true → item_sum v x = v x.
Proof. intros H. unfold item_sum. rewrite (is_type_exclusive x H). lia. Qed.

(** One pass of the loop: the sum over [items] loses the weight of every
    group reference of the snapshot and gains the content of its group. *)
Lemma for_enumerate_sum (recurse : json → result json) (snapshot : list json) (index : nat)
    (items items' : list entry) (current_offset : nat) :
  loop_inv index snapshot items →
  (∀ x x', x ∈ snapshot → is_type "section" x = true → recurse x = Ok x' →
     is_type "section" x' = true ∧ w x' = w x
     ∧ tree_sum w x' + tree_sum (on_refs w) x
       = tree_sum w x + tree_sum (spliced group_map w) x) →
  for_enumerate group_map recurse snapshot index items current_offset = Ok items' →
  mass items' + sum_list_with (item_sum (on_refs w)) snapshot
    = mass items + sum_list_with (item_sum (spliced group_map w)) snapshot.
Proof.
  revert index items current_offset.
  induction snapshot as [|x snapshot IH]; intros index items current_offset Hinv Hrec Hloop.
  { injection Hloop as <-. simpl. lia. }
  assert (∀ y y', y ∈ snapshot → is_type "section" y = true → recurse y = Ok y' →
     is_type "section" y' = true ∧ w y' = w y
     ∧ tree_sum w y' + tree_sum (on_refs w) y
       = tree_sum w y + tree_sum (spliced group_map w) y) as Hrec'.
  { intros y y' Hy. apply Hrec. by right. }
  simpl in Hloop. destruct x as [ | | | | |d]; try discriminate.
  simpl in Hloop. simpl sum_list_with.
  destruct (py_eq (default JNull (d !! "type")) (JStr "group")) eqn:Hgroup.
  - (* a group reference *)
    apply bind_ok in Hloop as (group_items & Hmap & Hloop).
    destruct (loop_inv_remove _ _ _ _ Hinv) as (before & e & after & -> & Heq & Hrem & Hinv').
    rewrite Hrem in Hloop. simpl in Hloop.
    apply bind_ok in Hloop as (gl & Hiter & Hloop).
    destruct (insert_group_items gl current_offset 1 (before ++ after))
      as [items1 iteration_offset] eqn:Hins.
    assert (loop_inv (S index) snapshot items1) as Hinv1.
    { replace items1 with (insert_group_items gl current_offset 1 (before ++ after)).1
        by (by rewrite Hins).
      by apply loop_inv_insert_group_items. }
    apply IH in Hloop; [|done|done].
    assert (mass items1 = mass (before ++ after) + sum_list_with (item_sum w) gl) as Hmass.
    { rewrite <-(mass_insert_group_items gl current_offset 1). by rewrite Hins. }
    rewrite !(item_sum_group _ (JDict d)) by done.
    assert (on_refs w (JDict d) = w (JDict d)) as ->.
    { unfold on_refs. simpl. by rewrite Hgroup. }
    assert (spliced group_map w (JDict d) = sum_list_with (item_sum w) gl) as ->.
    { unfold spliced, content_sum. simpl. by rewrite Hgroup, Hmap, Hiter. }
    rewrite Hmass in Hloop.
    rewrite !fmap_app, fmap_cons, !sum_list_with_app, sum_list_with_cons in *.
    rewrite (item_sum_group w e.2) by (by rewrite (py_eq_is_type _ _ _ Heq)).
    rewrite (w_eq _ _ Heq). lia.
  - assert (on_refs w (JDict d) = 0 ∧ spliced group_map w (JDict d) = 0) as [Hor Hsp].
    { unfold on_refs, spliced. simpl. by rewrite Hgroup. }
    assert (∀ v, v (JDict d) = 0 →
      item_sum v (JDict d) = if py_eq (default JNull (d !! "type")) (JStr "section")
                             then tree_sum v (JDict d) else 0) as Hitem.
    { intros v Hv. unfold item_sum. by rewrite Hv. }
    rewrite !Hitem by done.
    destruct (py_eq (default JNull (d !! "type")) (JStr "section")) eqn:Hsection.
    + (* a section *)
      apply bind_ok in Hloop as (x' & Hx' & Hloop).
      destruct (Hrec (JDict d) x') as (Hsec' & Hw' & Hsum); [left|done|done|].
      destruct (loop_inv_object _ _ _ _ Hinv) as (before & after & Hitems & Hother).
      apply IH in Hloop; [|by apply (loop_inv_set_object _ (JDict d))|done].
      rewrite Hitems, (set_object_middle _ (JDict d)) in Hloop by done.
      rewrite Hitems.
      rewrite !fmap_app, !fmap_cons, !sum_list_with_app, !sum_list_with_cons in *.
      assert (item_sum w x' = w (JDict d) + tree_sum w x') as Hx1.
      { unfold item_sum. by rewrite Hsec', Hw'. }
      assert (item_sum w (JDict d) = w (JDict d) + tree_sum w (JDict d)) as Hx2.
      { unfold item_sum. simpl is_type. by rewrite Hsection. }
      simpl snd in *. rewrite Hx1 in Hloop. rewrite Hx2. lia.
    + apply IH in Hloop; [|by apply loop_inv_next in Hinv|done]. lia.
Qed.

Lemma replace_groups_in_items_shape (d : gmap string json) (out : json) :
  replace_groups_in_items group_map (JDict d) = Ok out →
  out = JDict d ∨ ∃ v, d !! "items" ≠ None ∧ out = JDict (<["items" := v]> d).
Proof.
  rewrite replace_groups_in_items_unfold.
  destruct (d !! "items") as [items|]; [|intros [= <-]; by left].
  intros (v & _ & [= <-])%bind_ok. right. by exists v.
Qed.

Lemma tree_sum_insert_items (v : json → nat) (d : gmap string json) (l : list json) :
  tree_sum v (JDict (<["items" := JList l]> d)) = sum_list_with (item_sum v) l.
Proof. by rewrite tree_sum_unfold, lookup_insert_eq. Qed.

(** Inlining: every group reference gone, the content of its group
    come. *)
Lemma replace_groups_in_items_sum (t out : json) :
  replace_groups_in_items group_map t = Ok out →
  tree_sum w out + tree_sum (on_refs w) t = tree_sum w t + tree_sum (spliced group_map w) t.
Proof.
  revert out. induction t as [x Hx|d IH] using tree_ind; intros out.
  { by destruct x. }
  rewrite replace_groups_in_items_unfold, !(tree_sum_unfold _ d).
  destruct (d !! "items") as [items|] eqn:Hitems.
  2:{ intros [= <-]. by rewrite tree_sum_unfold, Hitems. }
  intros (items' & Hin & [= <-])%bind_ok.
  destruct items as [ | | |s|l| ]; try discriminate.
  - simpl in Hin. destruct (String.eqb s ""); [|discriminate]. injection Hin as <-.
    by rewrite tree_sum_unfold, lookup_insert_eq.
  - simpl in Hin. apply bind_ok in Hin as (entries & Hloop & [= <-]).
    rewrite tree_sum_insert_items.
    apply for_enumerate_sum in Hloop; [|apply loop_inv_start|].
    + by rewrite imap_tag_values in Hloop.
    + intros x x' Hx Hsection Hx'. destruct x as [ | | | | |dx]; try discriminate.
      split; [|split].
      * destruct (replace_groups_in_items_shape _ _ Hx') as [->|(v & _ & ->)]; [done|].
        by rewrite is_type_insert_items.
      * destruct (replace_groups_in_items_shape _ _ Hx') as [->|(v & _ & ->)]; [done|].
        apply w_items.
      * by apply (IH l).
Qed.

End sum_facts.

(** *** Inlining a well-formed tree succeeds *)

Section success_facts.
Import Parser.
Context (group_map : pydict).

Lemma for_enumerate_returns (recurse : json → result json) (snapshot : list json) (index : nat)
    (items : list entry) (current_offset : nat) :
  loop_inv index snapshot items →
  (∀ x, x ∈ snapshot →
     is_dict x = true
     ∧ (is_type "group" x = true → resolves group_map x = true)
     ∧ (is_type "group" x = false → is_type "section" x = true → ∃ x', recurse x = Ok x')) →
  ∃ items', for_enumerate group_map recurse snapshot index items current_offset = Ok items'.
Proof.
  revert index items current_offset.
  induction snapshot as [|x snapshot IH]; intros index items current_offset Hinv Hall.
  { by eexists. }
  destruct (Hall x) as (Hdict & Hgroup & Hsection); [left|].
  assert (∀ y, y ∈ snapshot →
     is_dict y = true
     ∧ (is_type "group" y = true → resolves group_map y = true)
     ∧ (is_type "group" y = false → is_type "section" y = true → ∃ y', recurse y = Ok y'))
    as Hall'.
  { intros y Hy. apply Hall. by right. }
  destruct x as [ | | | | |d]; try discriminate. simpl in Hgroup, Hsection. simpl.
  destruct (py_eq (default JNull (d !! "type")) (JStr "group")).
  - specialize (Hgroup eq_refl). unfold resolves in Hgroup. simpl in Hgroup.
    destruct (pydict_getitem group_map (default JNull (d !! "id"))) as [[ | | | |gl| ]|];
      try discriminate.
    simpl.
    destruct (loop_inv_remove _ _ _ _ Hinv) as (before & e & after & -> & Heq & -> & Hinv').
    simpl.
    destruct (insert_group_items gl current_offset 1 (before ++ after))
      as [items1 iteration_offset] eqn:Hins.
    apply IH; [|done].
    replace items1 with (insert_group_items gl current_offset 1 (before ++ after)).1
      by (by rewrite Hins).
    by apply loop_inv_insert_group_items.
  - destruct (py_eq (default JNull (d !! "type")) (JStr "section")).
    + destruct Hsection as [x' ->]; [done|done|]. simpl.
      apply IH; [|done]. by apply (loop_inv_set_object _ (JDict d)).
    + apply IH; [|done]. by apply loop_inv_next in Hinv.
Qed.

Lemma replace_groups_in_items_returns (t : json) :
  tree_ok (resolves group_map) t = true →
  ∃ out, replace_groups_in_items group_map t = Ok out.
Proof.
  induction t as [x Hx|d IH] using tree_ind.
  { by destruct x. }
  rewrite tree_ok_unfold, replace_groups_in_items_unfold.
  destruct (d !! "items") as [items|] eqn:Hitems; [|by eexists].
  destruct items as [ | | | |l| ]; try discriminate.
  intros Hok. simpl.
  destruct (for_enumerate_returns (replace_groups_in_items group_map) l 0
              (imap (λ i x, (Some i, x)) l) 0) as [items' ->].
  - apply loop_inv_start.
  - intros x Hx. rewrite forallb_forall in Hok.
    specialize (Hok x). rewrite <-list_elem_of_In in Hok. specialize (Hok Hx).
    apply andb_prop in Hok as [Hdict Hok]. split; [done|].
    destruct (is_type "group" x); [by split|]. split; [done|].
    intros _ Hsec. rewrite Hsec in Hok. by apply (IH l).
  - by eexists.
Qed.

End success_facts.

(** *** Sums that do not depend on the tree *)

Lemma tree_sum_ext (v v' : json → nat) (t : json) :
  (∀ x, v x = v' x) → tree_sum v t = tree_sum v' t.
Proof.
  intros Hv. induction t as [x Hx|d IH] using tree_ind.
  { by destruct x. }
  rewrite !tree_sum_unfold. destruct (d !! "items") as [[ | | | |l| ]|] eqn:Hitems; try done.
  assert (∀ l', (∀ x, x ∈ l' → x ∈ l) →
    sum_list_with (item_sum v) l' = sum_list_with (item_sum v') l') as Hsum.
  { induction l' as [|x l' IHl]; intros Hsub; [done|]. simpl.
    rewrite IHl by (intros; apply Hsub; by right). f_equal.
    unfold item_sum. rewrite Hv. destruct (is_type "section" x); [|done].
    f_equal. apply (IH l); [done|]. apply Hsub. left. }
  by apply Hsum.
Qed.

Lemma tree_sum_zero (v : json → nat) (t : json) :
  (∀ x, v x = 0) → tree_sum v t = 0.
Proof.
  intros Hv. induction t as [x Hx|d IH] using tree_ind.
  { by destruct x. }
  rewrite !tree_sum_unfold. destruct (d !! "items") as [[ | | | |l| ]|] eqn:Hitems; try done.
  assert (∀ l', (∀ x, x ∈ l' → x ∈ l) → sum_list_with (item_sum v) l' = 0) as Hsum.
  { induction l' as [|x l' IHl]; intros Hsub; [done|]. simpl.
    rewrite IHl by (intros; apply Hsub; by right).
    unfold item_sum. rewrite Hv. destruct (is_type "section" x); [|done].
    rewrite (IH l); [done|done|]. apply Hsub. left. }
  by apply Hsum.
Qed.

(** *** Disabled groups *)

Section disabled_facts.
Import Parser.

Lemma refers_to_on_refs (gid x : json) :
  on_refs (λ x, Nat.b2n (refers_to gid x)) x = Nat.b2n (refers_to gid x).
Proof. unfold on_refs, refers_to. by destruct (is_type "group" x). Qed.

Lemma refers_to_insert_items (gid : json) (d : gmap string json) (v : json) :
  refers_to gid (JDict (<["items" := v]> d)) = refers_to gid (JDict d).
Proof. unfold refers_to. simpl. by rewrite !lookup_insert_ne. Qed.

Lemma spliced_without_refs (gid : json) (group_map : pydict) (x : json) :
  groups_without_refs gid group_map = true →
  spliced group_map (λ x, Nat.b2n (refers_to gid x)) x = 0.
Proof.
  intros Hflat. unfold spliced. destruct (is_type "group" x); [|done].
  unfold pydict_getitem. destruct (hashable (id_of x)); [|done].
  destruct (find _ group_map) as [kv|] eqn:Hfind; [|done].
  apply find_Some_elem in Hfind as [Hkv _].
  unfold groups_without_refs in Hflat. rewrite forallb_forall in Hflat.
  specialize (Hflat kv). rewrite <-list_elem_of_In in Hflat.
  specialize (Hflat Hkv). by apply bool_decide_eq_true_1 in Hflat.
Qed.

(** C5: a group [gid] that the groups table declares disabled, in a
    document whose references all name declared groups.  [_preprocess]
    returns; no reference to [gid] is left in the tree, at any depth;
    the tree has lost one node for each group reference and gained, in
    exchange, the items of the group it names, which for a reference to
    [gid] are none. *)
Theorem disabled_group_contributes_nothing (d : gmap string json) (groups : list json)
    (group_map : pydict) (gid : json) :
  d !! "groups" = Some (JList groups) →
  build_group_map groups [] = Ok group_map →
  declared_disabled gid groups = true →
  tree_ok (resolves group_map) (JDict (delete "groups" d)) = true →
  groups_without_refs gid group_map = true →
  let tree := JDict (delete "groups" d) in
  ∃ out,
    _preprocess (JDict d) = Ok out
    ∧ count_refs gid out = 0
    ∧ tree_sum one out + tree_sum (on_refs one) tree
      = tree_sum one tree + tree_sum (spliced group_map one) tree
    ∧ ∀ x, refers_to gid x = true → spliced group_map one x = 0.
Proof.
  intros Hgroups Hbuild Hdisabled Hok Hflat tree.
  destruct (replace_groups_in_items_returns group_map tree Hok) as [out Hout].
  exists out. split; [|split; [|split]].
  - unfold _preprocess, pop_groups. rewrite Hgroups.
    change ((build_group_map groups [] ≫= λ group_map, replace_groups_in_items group_map tree)
            = Ok out).
    by rewrite Hbuild.
  - pose proof (replace_groups_in_items_sum group_map (λ x, Nat.b2n (refers_to gid x))
                  (λ x y H, f_equal Nat.b2n (py_eq_refers_to gid x y H))
                  (λ d' v, f_equal Nat.b2n (refers_to_insert_items gid d' v))
                  tree out Hout) as Hsum.
    rewrite (tree_sum_ext (on_refs _) (λ x, Nat.b2n (refers_to gid x))) in Hsum
      by apply refers_to_on_refs.
    rewrite (tree_sum_zero (spliced _ _)) in Hsum by (intros; by apply spliced_without_refs).
    unfold count_refs. lia.
  - by apply (replace_groups_in_items_sum group_map one (λ x y H, eq_refl) (λ d' v, eq_refl)).
  - intros x [Hgroup Hid]%andb_prop. unfold spliced. rewrite Hgroup.
    by rewrite (disabled_group_lookup gid groups group_map Hbuild Hdisabled _ Hid).
Qed.

End disabled_facts.

Lemma disabled_group_contributes_nothing_witness :
  ∃ out,
    Parser._preprocess
      (raw_doc [group_def "g0" false [tool "z"]; group_def "g1" true [tool "x"]]
               [group_ref "g0"; section "s" "S" [group_ref "g0"; tool "q"];
                group_ref "g1"; tool "y"]) = Ok out
    ∧ count_refs (JStr "g0") out = 0.
Proof.
  destruct (disabled_group_contributes_nothing
    {[ "groups" := JList [group_def "g0" false [tool "z"]; group_def "g1" true [tool "x"]];
       "items" := JList [group_ref "g0"; section "s" "S" [group_ref "g0"; tool "q"];
                         group_ref "g1"; tool "y"] ]}
    [group_def "g0" false [tool "z"]; group_def "g1" true [tool "x"]]
    [(JStr "g1", JList [tool "x"]); (JStr "g0", JList [])]
    (JStr "g0"))
    as (out & Hout & Hcount & _); try (vm_compute; reflexivity).
  exists out. split; [exact Hout|exact Hcount].
Defined.

(** *** Trees whose references all name empty groups *)

Section empty_groups_facts.
Import Parser.
Context (group_map : pydict).

Lemma without_refs_unfold (d : gmap string json) :
  without_refs (JDict d) =
    match d !! "items" with
    | Some (JList l) => JDict (<["items" := JList (omap without_refs_item l)]> d)
    | _ => JDict d
    end.
Proof.
  change (without_refs (JDict d)) with
    (match on_items (λ items,
              match items with
              | JList l => JList (omap without_refs_item l)
              | _ => items
              end) d with
      | Some items' => JDict (<["items" := items']> d)
      | None => JDict d
      end).
  rewrite on_items_lookup.
  destruct (d !! "items") as [items|] eqn:Hitems; [|done]. simpl.
  destruct items; try done; by rewrite insert_id.
Qed.

Lemma without_refs_is_type (t : string) (x : json) :
  is_type t (without_refs x) = is_type t x.
Proof.
  destruct x as [ | | | | |d]; try done. rewrite without_refs_unfold.
  destruct (d !! "items") as [[ | | | |l| ]|]; try done. apply is_type_insert_items.
Qed.

Lemma omap_cons {A B} (f : A → option B) (x : A) (l : list A) :
  omap f (x :: l) = match f x with Some y => y :: omap f l | None => omap f l end.
Proof. done. Qed.

Lemma list_remove_middle (item : json) (before after : list entry) (e : entry) :
  (∀ e', e' ∈ before → py_eq e'.2 item = false) →
  py_eq e.2 item = true →
  list_remove item (before ++ e :: after) = Ok (before ++ after).
Proof.
  intros Hbefore He. induction before as [|e' before IH]; simpl.
  - by rewrite He.
  - rewrite (Hbefore e') by left. rewrite IH; [done|].
    intros e'' He''. apply Hbefore. by right.
Qed.

(** With nothing to splice in, the loop visits the snapshot from left
    to right: [items] is what it has kept so far, then what it has yet
    to visit. *)
Lemma for_enumerate_empty_groups (recurse : json → result json) (snapshot : list json)
    (index : nat) (kept : list entry) (current_offset : nat) :
  (∀ e, e ∈ kept → is_type "group" e.2 = false ∧ ∃ k, e.1 = Some k ∧ (k < index)%nat) →
  (∀ x, x ∈ snapshot →
     is_dict x = true
     ∧ (is_type "group" x = true → resolves_to_nothing group_map x = true)
     ∧ (is_type "group" x = false → is_type "section" x = true →
        recurse x = Ok (without_refs x))) →
  ∃ rest,
    for_enumerate group_map recurse snapshot index (kept ++ pending index snapshot)
      current_offset = Ok (kept ++ rest)
    ∧ rest.*2 = omap without_refs_item snapshot.
Proof.
  revert index kept current_offset.
  induction snapshot as [|x snapshot IH]; intros index kept current_offset Hkept Hall.
  { exists []. split; reflexivity. }
  destruct (Hall x) as (Hdict & Hgroup & Hsection); [left|].
  assert (∀ y, y ∈ snapshot →
     is_dict y = true
     ∧ (is_type "group" y = true → resolves_to_nothing group_map y = true)
     ∧ (is_type "group" y = false → is_type "section" y = true →
        recurse y = Ok (without_refs y))) as Hall'.
  { intros y Hy. apply Hall. by right. }
  assert (∀ v : json, is_type "group" v = false →
    ∀ e, e ∈ kept ++ [(Some index, v)] →
      is_type "group" e.2 = false ∧ ∃ k, e.1 = Some k ∧ (k < S index)%nat) as Hkept'.
  { intros v Hv e [He| ->%list_elem_of_singleton]%elem_of_app.
    - destruct (Hkept e He) as (? & k & ? & ?). split; [done|]. exists k. split; [done|lia].
    - split; [done|]. exists index. split; [done|lia]. }
  destruct x as [ | | | | |d]; try discriminate.
  rewrite pending_cons, omap_cons. unfold without_refs_item at 1.
  simpl in Hgroup. simpl for_enumerate. simpl is_type.
  destruct (py_eq (default JNull (d !! "type")) (JStr "group")) eqn:Htype.
  - specialize (Hgroup eq_refl). apply bool_decide_eq_true_1 in Hgroup.
    simpl in Hgroup. rewrite Hgroup. simpl.
    rewrite list_remove_middle; [|intros e He|apply py_eq_refl].
    2:{ destruct (Hkept e He) as [Hne _]. destruct (py_eq e.2 (JDict d)) eqn:Heq; [|done].
        apply (py_eq_is_type "group") in Heq. simpl in Heq. congruence. }
    simpl. apply IH; [|done].
    intros e He. destruct (Hkept e He) as (? & k & ? & ?).
    split; [done|]. exists k. split; [done|lia].
  - destruct (py_eq (default JNull (d !! "type")) (JStr "section")) eqn:Hsec.
    + rewrite Hsection by done. cbn [mbind result_bind].
      rewrite (set_object_middle _ (JDict d)).
      2:{ intros e [He|He]%elem_of_app.
          - destruct (Hkept e He) as (_ & k & -> & ?). intros [= ->]. lia.
          - apply elem_of_lookup_imap_1 in He as (k & y & -> & _). simpl. intros [=]. lia. }
      destruct (IH (S index) (kept ++ [(Some index, without_refs (JDict d))])
                  (current_offset + 1)) as (rest & Hloop & Hrest); [|done|].
      { apply Hkept'. by rewrite without_refs_is_type. }
      rewrite <-!app_assoc, <-!cons_middle in Hloop.
      refine (ex_intro _ ((Some index, without_refs (JDict d)) :: rest) _).
      split; [exact Hloop|]. by rewrite fmap_cons, Hrest.
    + destruct (IH (S index) (kept ++ [(Some index, JDict d)]) (current_offset + 1))
        as (rest & Hloop & Hrest); [|done|].
      { by apply Hkept'. }
      rewrite <-!app_assoc, <-!cons_middle in Hloop.
      refine (ex_intro _ ((Some index, JDict d) :: rest) _).
      split; [exact Hloop|]. by rewrite fmap_cons, Hrest.
Qed.

Lemma replace_groups_empty_groups (t : json) :
  tree_ok (resolves_to_nothing group_map) t = true →
  replace_groups_in_items group_map t = Ok (without_refs t).
Proof.
  induction t as [x Hx|d IH] using tree_ind.
  { by destruct x. }
  rewrite tree_ok_unfold, replace_groups_in_items_unfold, without_refs_unfold.
  destruct (d !! "items") as [items|] eqn:Hitems; [|done].
  destruct items as [ | | | |l| ]; try discriminate.
  intros Hok. simpl.
  destruct (for_enumerate_empty_groups (replace_groups_in_items group_map) l 0 [] 0)
    as (rest & Hloop & Hrest).
  - intros e He. by apply elem_of_nil in He.
  - intros x Hx. rewrite forallb_forall in Hok.
    specialize (Hok x). rewrite <-list_elem_of_In in Hok. specialize (Hok Hx).
    apply andb_prop in Hok as [Hdict Hok]. split; [done|].
    destruct (is_type "group" x); [by split|]. split; [done|].
    intros _ Hsec. rewrite Hsec in Hok. by apply (IH l).
  - simpl in Hloop. unfold pending in Hloop. simpl in Hloop. rewrite Hloop. simpl.
    by rewrite Hrest.
Qed.

End empty_groups_facts.

Lemma tree_ok_weaken (P Q : json → bool) (t : json) :
  (∀ x, is_type "group" x = true → P x = true → Q x = true) →
  tree_ok P t = true → tree_ok Q t = true.
Proof.
  intros HPQ. induction t as [x Hx|d IH] using tree_ind.
  { by destruct x. }
  rewrite !tree_ok_unfold.
  destruct (d !! "items") as [[ | | | |l| ]|] eqn:Hitems; try done.
  rewrite !forallb_forall. intros Hok x Hx. specialize (Hok x Hx).
  apply andb_prop in Hok as [Hdict Hok]. rewrite Hdict. simpl.
  destruct (is_type "group" x) eqn:Hgroup; [by apply HPQ|].
  destruct (is_type "section" x); [|done].
  apply (IH l); [done| |done]. by apply list_elem_of_In.
Qed.

(** A document all of whose references name disabled groups comes out
    of [_preprocess] with the references deleted, and is otherwise as
    it was. *)
Theorem disabled_references_are_deleted (d : gmap string json) (groups : list json)
    (group_map : pydict) :
  d !! "groups" = Some (JList groups) →
  Parser.build_group_map groups [] = Ok group_map →
  tree_ok (λ x, declared_disabled (id_of x) groups) (JDict (delete "groups" d)) = true →
  Parser._preprocess (JDict d) = Ok (without_refs (JDict (delete "groups" d))).
Proof.
  intros Hgroups Hbuild Hok.
  unfold Parser._preprocess, Parser.pop_groups. rewrite Hgroups.
  change ((Parser.build_group_map groups [] ≫= λ group_map,
             Parser.replace_groups_in_items group_map (JDict (delete "groups" d)))
          = Ok (without_refs (JDict (delete "groups" d)))).
  rewrite Hbuild. apply replace_groups_empty_groups.
  revert Hok. apply tree_ok_weaken. intros x _ Hdisabled.
  apply bool_decide_eq_true_2.
  apply (disabled_group_lookup (id_of x) groups); [done|done|apply py_eq_refl].
Qed.

Lemma disabled_references_are_deleted_witness :
  Parser._preprocess
    (raw_doc [group_def "g0" false [tool "z"]]
             [group_ref "g0"; section "s" "S" [group_ref "g0"; tool "q"]; tool "y"])
  = Ok (items_doc [section "s" "S" [tool "q"]; tool "y"]).
Proof.
  refine (eq_trans (disabled_references_are_deleted
    {[ "groups" := JList [group_def "g0" false [tool "z"]];
       "items" := JList [group_ref "g0"; section "s" "S" [group_ref "g0"; tool "q"]; tool "y"] ]}
    [group_def "g0" false [tool "z"]] [(JStr "g0", JList [])] _ _ _) _);
    vm_compute; reflexivity.
Defined.

Lemma for_actions_second_pass_witness :
  ManagedConf.for_actions (JDict ∅) [JDict {[ "id" := JStr "a"; "name" := JStr "A" ]}]
  = Raise (KeyError (JStr "action")).
Proof.
  apply (for_actions_second_pass (JDict ∅) (items_doc [section "a" "A" []]) (JDict ∅)
           [create_section_action "a" "A"]); [done|].
  vm_compute. reflexivity.
Defined.

(** ** What the actions raise *)

Section plain_facts.
Import ManagedConf.

Lemma raises_plain_bind {A B} (m : result A) (f : A → result B) :
  raises_plain m → (∀ a, m = Ok a → raises_plain (f a)) → raises_plain (m ≫= f).
Proof.
  intros Hm Hf e. destruct m as [a|e']; simpl.
  - by apply Hf.
  - intros [= <-]. by apply Hm.
Qed.

Lemma raises_plain_ok {A} (a : A) : raises_plain (Ok a).
Proof. intros e. discriminate. Qed.

Lemma raises_plain_raise {A} (e : exn) : plain e = true → raises_plain (@Raise A e).
Proof. by intros He e' [= <-]. Qed.

Lemma raises_plain_py_getitem (o : json) (key : string) : raises_plain (py_getitem o key).
Proof.
  destruct o as [ | | | | |d]; try (by apply raises_plain_raise).
  simpl. destruct (d !! key); [apply raises_plain_ok|by apply raises_plain_raise].
Qed.

Lemma raises_plain_py_contains (key : string) (o : json) : raises_plain (py_contains key o).
Proof. destruct o; try apply raises_plain_ok; by apply raises_plain_raise. Qed.

Lemma raises_plain_py_iter (o : json) : raises_plain (py_iter o).
Proof. destruct o; try apply raises_plain_ok; by apply raises_plain_raise. Qed.

Lemma raises_plain_setitem (mem : json) (o : obj) (key : string) (v : json) :
  raises_plain (setitem mem o key v).
Proof.
  unfold setitem. destruct o; [|by apply raises_plain_raise].
  destruct (value_of _ _); try apply raises_plain_ok; by apply raises_plain_raise.
Qed.

Lemma raises_plain_append (mem : json) (o : obj) (x : json) : raises_plain (append mem o x).
Proof.
  unfold append. destruct o; [|by apply raises_plain_raise].
  destruct (value_of _ _); try apply raises_plain_ok; by apply raises_plain_raise.
Qed.

Lemma raises_plain_getitem_ref (mem : json) (o : obj) (key : string) :
  raises_plain (getitem_ref mem o key).
Proof.
  apply raises_plain_bind; [apply raises_plain_py_getitem|].
  intros _ _. apply raises_plain_ok.
Qed.

Lemma raises_plain_find_from (items : ref) (elements : list json) (index : nat) (id : json) :
  raises_plain (find_from items elements index id).
Proof.
  revert index. induction elements as [|item elements IH]; intros index; simpl.
  - apply raises_plain_ok.
  - apply raises_plain_bind; [apply raises_plain_py_getitem|].
    intros item_id _. destruct (py_eq item_id id); [apply raises_plain_ok|apply IH].
Qed.

Lemma raises_plain_find_with_id (mem : json) (items : obj) (id : json) :
  raises_plain (_find_with_id mem items id).
Proof.
  apply raises_plain_bind; [apply raises_plain_py_iter|].
  intros elements _. apply raises_plain_find_from.
Qed.

Lemma raises_plain_ensure_has_list (mem : json) (as_dict : obj) (key : string) :
  raises_plain (_ensure_has_list mem as_dict key).
Proof.
  apply raises_plain_bind; [apply raises_plain_py_contains|]. intros present _.
  apply raises_plain_bind.
  { destruct present; simpl; [apply raises_plain_ok|apply raises_plain_setitem]. }
  intros mem' _. apply raises_plain_bind; [apply raises_plain_getitem_ref|].
  intros l _. apply raises_plain_ok.
Qed.

Lemma raises_plain_target_to_group (mem : json) (as_dict : obj) (target : json) :
  raises_plain (_target_to_group mem as_dict target).
Proof.
  apply raises_plain_bind; [apply raises_plain_getitem_ref|]. intros groups _.
  apply raises_plain_bind; [apply raises_plain_py_getitem|]. intros group _.
  apply raises_plain_find_with_id.
Qed.

Lemma raises_plain_target_to_section (mem : json) (as_dict : obj) (target : json) :
  raises_plain (_target_to_section mem as_dict target).
Proof.
  apply raises_plain_bind; [apply raises_plain_getitem_ref|]. intros items _.
  apply raises_plain_bind; [apply raises_plain_py_getitem|]. intros section_id _.
  apply raises_plain_find_with_id.
Qed.

Lemma raises_plain_ensure_append (mem : json) (o : obj) (item : json) :
  raises_plain ('(items, mem) ← _ensure_has_items mem o; append mem items item).
Proof.
  apply raises_plain_bind; [apply raises_plain_ensure_has_list|].
  intros [items mem'] _. apply raises_plain_append.
Qed.

Lemma raises_plain_add_item (mem : json) (as_dict : obj) (item target : json) :
  raises_plain (_add_item mem as_dict item target).
Proof.
  unfold _add_item. destruct (bool_decide (target = JNull)).
  { apply raises_plain_ensure_append. }
  apply raises_plain_bind; [apply raises_plain_py_contains|]. intros [|] _.
  { apply raises_plain_bind; [apply raises_plain_target_to_group|].
    intros group_dict _. apply raises_plain_ensure_append. }
  apply raises_plain_bind; [apply raises_plain_py_contains|]. intros [|] _.
  { apply raises_plain_bind; [apply raises_plain_target_to_section|].
    intros section_dict _. apply raises_plain_ensure_append. }
  by apply raises_plain_raise.
Qed.

Lemma raises_plain_create_section (mem : json) (as_dict : obj) (id name : json) :
  raises_plain (_create_section mem as_dict id name).
Proof. apply raises_plain_ensure_append. Qed.

Lemma raises_plain_create_group (mem : json) (as_dict : obj) (id : json) :
  raises_plain (_create_group mem as_dict id).
Proof.
  apply raises_plain_bind; [apply raises_plain_ensure_has_list|].
  intros [groups mem'] _. apply raises_plain_append.
Qed.

Lemma raises_plain_disable (mem : json) (as_dict : obj) (target : json) :
  raises_plain (_disable mem as_dict target).
Proof.
  apply raises_plain_bind; [apply raises_plain_py_contains|]. intros [|] _.
  - apply raises_plain_bind; [apply raises_plain_target_to_group|].
    intros group_dict _. apply raises_plain_setitem.
  - by apply raises_plain_raise.
Qed.

Lemma raises_plain_bind_kwargs (required optional : list string) (kwargs : gmap string json) :
  raises_plain (bind_kwargs required optional kwargs).
Proof.
  unfold bind_kwargs. destruct (_ && _); [apply raises_plain_ok|by apply raises_plain_raise].
Qed.

Lemma pop_action_ok (action_dict action : json) (kwargs : gmap string json) :
  pop_action action_dict = Ok (action, kwargs) →
  ∃ d, action_dict = JDict d ∧ d !! "action" = Some action ∧ kwargs = delete "action" d.
Proof.
  destruct action_dict as [ | | | | |d]; try discriminate. simpl.
  destruct (d !! "action") as [a|] eqn:Ha; [|discriminate].
  intros [= <- <-]. by exists d.
Qed.

Lemma raises_plain_pop_action (action_dict : json) : raises_plain (pop_action action_dict).
Proof.
  destruct action_dict as [ | | | | |d]; try (by apply raises_plain_raise).
  simpl. destruct (d !! "action"); [apply raises_plain_ok|by apply raises_plain_raise].
Qed.

Lemma raises_plain_not {A} (m : result A) (e : exn) :
  raises_plain m → plain e = false → m ≠ Raise e.
Proof. intros Hm He Hr. apply Hm in Hr. congruence. Qed.

(** [_handle_action] raises [AssertionError] for the names it does not
    know, and for nothing else. *)
Lemma handle_action_assertion (mem : json) (as_dict : obj) (action_dict : json) :
  _handle_action mem as_dict action_dict = Raise AssertionError ↔
  ∃ d action, action_dict = JDict d ∧ d !! "action" = Some action
              ∧ known_action action = false.
Proof.
  unfold _handle_action, known_action. simpl. split.
  - destruct (pop_action action_dict) as [[action kwargs]|e] eqn:Hpop; simpl.
    2:{ intros [= ->]. by apply raises_plain_pop_action in Hpop. }
    apply pop_action_ok in Hpop as (d & -> & Haction & ->).
    intros H. exists d, action. split; [done|]. split; [done|].
    destruct (py_eq action (JStr "add_item")).
    { exfalso. eapply (raises_plain_not _ AssertionError); [|done|exact H].
      apply raises_plain_bind; [|intros; apply raises_plain_ok].
      apply raises_plain_bind; [apply raises_plain_bind_kwargs|].
      intros _ _. apply raises_plain_add_item. }
    destruct (py_eq action (JStr "create_group")).
    { exfalso. eapply (raises_plain_not _ AssertionError); [|done|exact H].
      apply raises_plain_bind; [|intros; apply raises_plain_ok].
      apply raises_plain_bind; [apply raises_plain_bind_kwargs|].
      intros _ _. apply raises_plain_create_group. }
    destruct (py_eq action (JStr "disable")).
    { exfalso. eapply (raises_plain_not _ AssertionError); [|done|exact H].
      apply raises_plain_bind; [|intros; apply raises_plain_ok].
      apply raises_plain_bind; [apply raises_plain_bind_kwargs|].
      intros _ _. apply raises_plain_disable. }
    destruct (py_eq action (JStr "create_section")); [|done].
    exfalso. eapply (raises_plain_not _ AssertionError); [|done|exact H].
    apply raises_plain_bind; [|intros; apply raises_plain_ok].
    apply raises_plain_bind; [apply raises_plain_bind_kwargs|].
    intros _ _. apply raises_plain_create_section.
  - intros (d & action & -> & Haction & Hunknown). simpl. rewrite Haction. simpl.
    apply orb_false_elim in Hunknown as [-> Hunknown].
    apply orb_false_elim in Hunknown as [-> Hunknown].
    apply orb_false_elim in Hunknown as [-> Hunknown].
    apply orb_false_elim in Hunknown as [-> _]. done.
Qed.

(** What [_handle_action] raises is [AssertionError] or an exception of
    a dict, list or string operation. *)
Lemma handle_action_raises (mem : json) (as_dict : obj) (action_dict : json) (e : exn) :
  _handle_action mem as_dict action_dict = Raise e → e = AssertionError ∨ plain e = true.
Proof.
  unfold _handle_action.
  destruct (pop_action action_dict) as [[action kwargs]|e'] eqn:Hpop; simpl.
  2:{ intros [= ->]. right. by apply raises_plain_pop_action in Hpop. }
  intros H.
  destruct (py_eq action (JStr "add_item")).
  { right. revert H. generalize e.
    apply raises_plain_bind; [|intros; apply raises_plain_ok].
    apply raises_plain_bind; [apply raises_plain_bind_kwargs|].
    intros _ _. apply raises_plain_add_item. }
  destruct (py_eq action (JStr "create_group")).
  { right. revert H. generalize e.
    apply raises_plain_bind; [|intros; apply raises_plain_ok].
    apply raises_plain_bind; [apply raises_plain_bind_kwargs|].
    intros _ _. apply raises_plain_create_group. }
  destruct (py_eq action (JStr "disable")).
  { right. revert H. generalize e.
    apply raises_plain_bind; [|intros; apply raises_plain_ok].
    apply raises_plain_bind; [apply raises_plain_bind_kwargs|].
    intros _ _. apply raises_plain_disable. }
  destruct (py_eq action (JStr "create_section")).
  { right. revert H. generalize e.
    apply raises_plain_bind; [|intros; apply raises_plain_ok].
    apply raises_plain_bind; [apply raises_plain_bind_kwargs|].
    intros _ _. apply raises_plain_create_section. }
  simpl in H. left. congruence.
Qed.

Lemma for_actions_raises (as_dict : json) (actions : list json) (e : exn) :
  for_actions as_dict actions = Raise e → e = AssertionError ∨ plain e = true.
Proof.
  revert as_dict. induction actions as [|action actions IH]; intros as_dict; simpl.
  { discriminate. }
  destruct (_handle_action as_dict (Some []) action) as [[mem action']|e'] eqn:Hfirst; simpl.
  2:{ intros [= ->]. by apply handle_action_raises in Hfirst. }
  destruct (for_actions mem actions) as [[mem' actions']|e'] eqn:Hrest; simpl; [discriminate|].
  intros [= ->]. by apply IH in Hrest.
Qed.

End plain_facts.

Lemma for_actions_raises_witness :
  AssertionError = AssertionError ∨ plain AssertionError = true.
Proof.
  apply (for_actions_raises (JDict ∅) [action_of "rename" ∅] AssertionError).
  vm_compute. reflexivity.
Defined.

(** ** Batches against the file *)

Section batch_facts.
Context (md5_hexdigest : string → string).
Context (json_loads : string → option json).
Context (json_dumps : json → string).

Local Abbreviation _hash := (ManagedConf._hash md5_hexdigest).
Local Abbreviation read := (ManagedConf.read md5_hexdigest json_loads).
Local Abbreviation update := (ManagedConf.update md5_hexdigest json_dumps).
Local Abbreviation while_attempt_write :=
  (ManagedConf.while_attempt_write md5_hexdigest json_loads json_dumps).
Local Abbreviation handle_actions :=
  (ManagedConf.handle_actions md5_hexdigest json_loads json_dumps).

Lemma update_raise_unchanged (as_dict : json) (previous_hash : option ManagedConf.hash_arg)
    (f f' : ManagedConf.file) (e : exn) :
  update as_dict previous_hash f = (Raise e, f') → f' = f.
Proof.
  unfold ManagedConf.update.
  destruct (match default ManagedConf.FORCE_WRITE previous_hash with
            | ManagedConf.FORCE_WRITE => _ | ManagedConf.Hash _ => _ end); [discriminate|].
  by intros [= _ <-].
Qed.

Lemma update_ok_written (as_dict : json) (previous_hash : option ManagedConf.hash_arg)
    (f f' : ManagedConf.file) :
  update as_dict previous_hash f = (Ok (), f') → f' = Some (json_dumps as_dict).
Proof.
  unfold ManagedConf.update.
  destruct (match default ManagedConf.FORCE_WRITE previous_hash with
            | ManagedConf.FORCE_WRITE => _ | ManagedConf.Hash _ => _ end); [|discriminate].
  by intros [= <-].
Qed.

Lemma for_actions_length (as_dict as_dict' : json) (actions actions' : list json) :
  ManagedConf.for_actions as_dict actions = Ok (as_dict', actions') →
  length actions' = length actions.
Proof.
  revert as_dict as_dict' actions'.
  induction actions as [|action actions IH]; intros as_dict as_dict' actions'; simpl.
  { by intros [= _ <-]. }
  intros H. apply bind_ok in H as ([mem1 action1] & _ & H).
  apply bind_ok in H as ([mem2 rest] & Hrest & [= _ <-]).
  simpl. f_equal. by eapply IH.
Qed.

Lemma for_actions_after_pass (as_dict as_dict' as_dict2 : json) (actions actions' : list json) :
  actions ≠ [] →
  ManagedConf.for_actions as_dict actions = Ok (as_dict', actions') →
  ManagedConf.for_actions as_dict2 actions' = Raise (KeyError (JStr "action")).
Proof.
  destruct actions as [|action actions]; [done|]. intros _ H. simpl in H.
  apply bind_ok in H as ([mem1 action1] & Hfirst & H).
  apply bind_ok in H as ([mem2 rest] & _ & [= _ <-]).
  apply handle_action_pops in Hfirst. simpl.
  unfold ManagedConf._handle_action. by rewrite Hfirst.
Qed.

(** A pass over actions that an earlier pass has been over ends in an
    exception, wherever the loop stands. *)
Lemma while_attempt_write_after_pass (schedule : list (option string))
    (as_dict as_dict' : json) (actions actions' : list json) (f f' : ManagedConf.file)
    (r : result unit) :
  actions ≠ [] →
  ManagedConf.for_actions as_dict actions = Ok (as_dict', actions') →
  while_attempt_write schedule actions' f = Some (r, f') →
  f' = f ∧ ∃ e, r = Raise e.
Proof.
  intros Hne Hpass.
  assert (∀ d, ManagedConf.for_actions d actions' = Raise (KeyError (JStr "action"))) as Hraise.
  { intros d. by eapply for_actions_after_pass. }
  destruct schedule; simpl; (destruct (read f) as [[h d]|e]; [rewrite Hraise|]);
    intros [= <- <-]; eauto.
Qed.

Lemma while_attempt_write_failure (schedule : list (option string)) (actions : list json)
    (f f' : ManagedConf.file) (e : exn) :
  while_attempt_write schedule actions f = Some (Raise e, f') →
  f' = f ∨ ∃ contents, Some contents ∈ schedule ∧ f' = Some contents.
Proof.
  revert actions f. induction schedule as [|w schedule IH]; intros actions f; simpl.
  - destruct (read f) as [[h as_dict]|e0]; [|intros [= _ <-]; by left].
    destruct (ManagedConf.for_actions as_dict actions) as [[as_dict' actions']|e0];
      [|intros [= _ <-]; by left].
    destruct (update _ _ _) as [[[]|e0] f1] eqn:Hupdate; [discriminate|].
    apply update_raise_unchanged in Hupdate as ->.
    destruct e0; try discriminate; intros [= _ <-]; by left.
  - destruct (read f) as [[h as_dict]|e0]; [|intros [= _ <-]; by left].
    destruct (ManagedConf.for_actions as_dict actions) as [[as_dict' actions']|e0];
      [|intros [= _ <-]; by left].
    destruct (update _ _ _) as [[[]|e0] f1] eqn:Hupdate; [discriminate|].
    apply update_raise_unchanged in Hupdate as ->.
    assert (ManagedConf.other_writers w f = f
            ∨ ∃ contents, Some contents ∈ w :: schedule
                          ∧ ManagedConf.other_writers w f = Some contents) as Hw.
    { destruct w as [contents|]; [right|by left]. exists contents. split; [left|done]. }
    destruct e0; try (intros [= _ <-]; exact Hw).
    intros H. apply IH in H as [->|(contents & Hin & ->)]; [exact Hw|].
    right. exists contents. split; [by right|done].
Qed.

Lemma while_attempt_write_success (schedule : list (option string)) (actions : list json)
    (f f' : ManagedConf.file) :
  actions ≠ [] →
  while_attempt_write schedule actions f = Some (Ok (), f') ↔
  ∃ contents as_dict as_dict' actions',
    f = Some contents
    ∧ json_loads contents = Some as_dict
    ∧ ManagedConf.for_actions as_dict actions = Ok (as_dict', actions')
    ∧ (∀ theirs, mjoin (head schedule) = Some theirs →
         md5_hexdigest theirs = md5_hexdigest contents)
    ∧ f' = Some (json_dumps as_dict').
Proof.
  intros Hne. split.
  - intros H.
    assert (∃ h as_dict, read f = Ok (h, as_dict)) as (h & as_dict & Hread).
    { destruct schedule; simpl in H; destruct (read f) as [[h d]|e]; eauto; discriminate. }
    assert (∃ as_dict' actions',
      ManagedConf.for_actions as_dict actions = Ok (as_dict', actions'))
      as (as_dict' & actions' & Hpass).
    { destruct schedule; simpl in H; rewrite Hread in H;
        destruct (ManagedConf.for_actions as_dict actions) as [[d' a']|e]; eauto; discriminate. }
    pose proof Hread as Hread'.
    apply read_ok in Hread' as (contents & -> & -> & Hloads).
    exists contents, as_dict, as_dict', actions'.
    split; [done|]. split; [done|]. split; [done|].
    destruct schedule as [|w schedule]; simpl in H; rewrite Hread, Hpass in H; simpl in H.
    + rewrite update_fresh_version in H. injection H as <-. split; [discriminate|done].
    + destruct w as [theirs|]; simpl in H.
      * unfold ManagedConf.update in H. simpl in H.
        unfold ManagedConf._hash in H at 1 2. rewrite py_eq_str in H.
        destruct (decide (md5_hexdigest contents = md5_hexdigest theirs)) as [Heq|Hneq].
        -- rewrite bool_decide_eq_true_2 in H by done. simpl in H. injection H as <-.
           split; [|done]. by intros ? [= <-].
        -- rewrite bool_decide_eq_false_2 in H by done. simpl in H.
           eapply while_attempt_write_after_pass in H as [_ [e He]]; [discriminate|done|done].
      * rewrite update_fresh_version in H. injection H as <-. split; [discriminate|done].
  - intros (contents & as_dict & as_dict' & actions' & -> & Hloads & Hpass & Hquiet & ->).
    assert (read (Some contents) = Ok (_hash contents, as_dict)) as Hread.
    { unfold ManagedConf.read. simpl. by rewrite Hloads. }
    destruct schedule as [|[theirs|] schedule]; simpl; rewrite Hread, Hpass; simpl.
    + by rewrite update_fresh_version.
    + unfold ManagedConf.update. simpl. unfold ManagedConf._hash. rewrite py_eq_str.
      rewrite bool_decide_eq_true_2; [done|]. symmetry. by apply Hquiet.
    + by rewrite update_fresh_version.
Qed.

(** A call of [handle_actions] that ends in an exception has written
    nothing of its own: the file is as [ensure_exists] left it, or as
    another writer left it. *)
Theorem handle_actions_failure_writes_nothing (schedule : list (option string))
    (actions : list json) (f f' : ManagedConf.file) (e : exn) :
  handle_actions schedule actions f = Some (Raise e, f') →
  f' = ManagedConf.ensure_exists f
  ∨ ∃ contents, Some contents ∈ schedule ∧ f' = Some contents.
Proof. apply while_attempt_write_failure. Qed.

(** A batch that is not empty is written by the first attempt or not at
    all: [handle_actions] returns normally exactly when the file holds a
    document, the actions go through on it, and the file has the same
    digest when [update] looks at it; the file then holds the document
    the actions made of it. *)
Theorem handle_actions_succeeds_iff (schedule : list (option string)) (actions : list json)
    (f f' : ManagedConf.file) :
  actions ≠ [] →
  handle_actions schedule actions f = Some (Ok (), f') ↔
  ∃ contents as_dict as_dict' actions',
    ManagedConf.ensure_exists f = Some contents
    ∧ json_loads contents = Some as_dict
    ∧ ManagedConf.for_actions as_dict actions = Ok (as_dict', actions')
    ∧ (∀ theirs, mjoin (head schedule) = Some theirs →
         md5_hexdigest theirs = md5_hexdigest contents)
    ∧ f' = Some (json_dumps as_dict').
Proof. intros Hne. by apply while_attempt_write_success. Qed.

End batch_facts.

Lemma handle_actions_failure_writes_nothing_witness :
  Some "{ }" = ManagedConf.ensure_exists None
  ∨ ∃ contents, Some contents ∈ [Some "{ }"] ∧ Some "{ }" = Some contents.
Proof.
  apply (handle_actions_failure_writes_nothing toy_md5 toy_loads toy_dumps [Some "{ }"]
           [create_section_action "a" "A"] None (Some "{ }") (KeyError (JStr "action"))).
  vm_compute. reflexivity.
Defined.

Lemma handle_actions_succeeds_iff_witness :
  ManagedConf.handle_actions toy_md5 toy_loads toy_dumps [None; Some "{ }"]
    [create_section_action "a" "A"] None = Some (Ok (), Some "{}").
Proof.
  apply (handle_actions_succeeds_iff toy_md5 toy_loads toy_dumps [None; Some "{ }"]
           [create_section_action "a" "A"] None (Some "{}")); [done|].
  exists "{}", (JDict ∅), (items_doc [section "a" "A" []]),
    [JDict {[ "id" := JStr "a"; "name" := JStr "A" ]}].
  repeat split; try (vm_compute; reflexivity). discriminate.
Defined.

(** ** How the actions compose *)

Section compose_facts.
Import ManagedConf.

Lemma ensure_has_list_root (d : gmap string json) (key : string) (l : list json) :
  list_or_empty key d = Some l →
  _ensure_has_list (JDict d) (Some []) key
    = Ok (Some [Key key], JDict (<[key := JList l]> d)).
Proof.
  unfold list_or_empty, _ensure_has_list. simpl.
  destruct (d !! key) as [v|] eqn:Hkey.
  - destruct v as [ | | | |l'| ]; try discriminate. intros [= ->].
    rewrite bool_decide_eq_true_2 by eauto. simpl.
    unfold getitem_ref. simpl. rewrite Hkey. simpl. by rewrite insert_id.
  - intros [= <-]. rewrite bool_decide_eq_false_2 by (intros [? ?]; congruence). simpl.
    unfold getitem_ref. simpl. by rewrite lookup_insert_eq.
Qed.

Lemma append_root (d : gmap string json) (key : string) (l : list json) (x : json) :
  d !! key = Some (JList l) →
  append (JDict d) (Some [Key key]) x = Ok (JDict (<[key := JList (l ++ [x])]> d)).
Proof. intros Hkey. unfold append. simpl. by rewrite Hkey. Qed.

(** Appending to the root list under [key], which is created when it
    is not there. *)
Lemma ensure_append_root (d : gmap string json) (key : string) (l : list json) (x : json) :
  list_or_empty key d = Some l →
  ('(items, mem) ← _ensure_has_list (JDict d) (Some []) key; append mem items x)
    = Ok (JDict (<[key := JList (l ++ [x])]> d)).
Proof.
  intros Hl. rewrite (ensure_has_list_root _ _ _ Hl). cbn [mbind result_bind].
  rewrite (append_root _ key l) by apply lookup_insert_eq.
  by rewrite insert_insert_eq.
Qed.

(** Appending to the items of the dict at position [length pre] of the
    root list under [key]. *)
Lemma ensure_append_at (d sd : gmap string json) (key : string) (pre post l : list json)
    (item : json) :
  d !! key = Some (JList (pre ++ JDict sd :: post)) →
  items_or_empty sd = Some l →
  ('(items, mem) ← _ensure_has_items (JDict d) (Some [Key key; Index (length pre)]);
   append mem items item)
    = Ok (JDict (<[key :=
            JList (pre ++ JDict (<["items" := JList (l ++ [item])]> sd) :: post)]> d)).
Proof.
  intros Hkey Hl.
  unfold _ensure_has_items, _ensure_has_list. simpl. rewrite Hkey. simpl.
  rewrite list_lookup_middle by done. simpl.
  unfold items_or_empty in Hl.
  destruct (sd !! "items") as [v|] eqn:Hsd.
  - destruct v as [ | | | |l'|]; try discriminate. injection Hl as ->.
    rewrite bool_decide_eq_true_2 by eauto. simpl.
    unfold getitem_ref. simpl. rewrite Hkey. simpl.
    rewrite list_lookup_middle by done. simpl. rewrite Hsd. simpl.
    unfold append. simpl. rewrite Hkey. simpl.
    rewrite list_lookup_middle by done. simpl. rewrite Hsd. simpl.
    by rewrite insert_middle.
  - injection Hl as <-.
    rewrite bool_decide_eq_false_2 by (intros [? ?]; congruence). simpl.
    unfold setitem. simpl. rewrite insert_middle.
    unfold getitem_ref. simpl. rewrite lookup_insert_eq. simpl.
    rewrite list_lookup_middle by done. simpl. rewrite lookup_insert_eq. simpl.
    unfold append. simpl. rewrite lookup_insert_eq. simpl.
    rewrite list_lookup_middle by done. simpl. rewrite !lookup_insert_eq. simpl.
    by rewrite insert_middle, !insert_insert_eq.
Qed.

Lemma find_with_id_root (d : gmap string json) (key : string) (pre post : list json)
    (x id : json) :
  d !! key = Some (JList (pre ++ x :: post)) →
  forallb (has_other_id id) pre = true →
  has_id id x = true →
  _find_with_id (JDict d) (Some [Key key]) id = Ok (Some [Key key; Index (length pre)]).
Proof.
  intros Hkey Hpre Hx. unfold _find_with_id. simpl. rewrite Hkey. simpl.
  by rewrite find_from_first.
Qed.

Lemma add_item_group (d gd t : gmap string json) (pre post l : list json) (gid item : json) :
  t !! "group" = Some gid →
  d !! "groups" = Some (JList (pre ++ JDict gd :: post)) →
  forallb (has_other_id gid) pre = true →
  has_id gid (JDict gd) = true →
  items_or_empty gd = Some l →
  _add_item (JDict d) (Some []) item (JDict t)
    = Ok (JDict (<["groups" :=
            JList (pre ++ JDict (<["items" := JList (l ++ [item])]> gd) :: post)]> d)).
Proof.
  intros Ht Hgroups Hpre Hgd Hl. unfold _add_item. simpl. rewrite Ht. simpl.
  unfold _target_to_group, getitem_ref. simpl. rewrite Hgroups, Ht. simpl.
  rewrite (find_with_id_root d "groups" pre post (JDict gd) gid) by done.
  cbn [mbind result_bind]. by apply ensure_append_at.
Qed.

Lemma disable_group (d gd t : gmap string json) (pre post : list json) (gid : json) :
  t !! "group" = Some gid →
  d !! "groups" = Some (JList (pre ++ JDict gd :: post)) →
  forallb (has_other_id gid) pre = true →
  has_id gid (JDict gd) = true →
  _disable (JDict d) (Some []) (JDict t)
    = Ok (JDict (<["groups" :=
            JList (pre ++ JDict (<["enabled" := JBool false]> gd) :: post)]> d)).
Proof.
  intros Ht Hgroups Hpre Hgd. unfold _disable. simpl. rewrite Ht. simpl.
  unfold _target_to_group, getitem_ref. simpl. rewrite Hgroups, Ht. simpl.
  rewrite (find_with_id_root d "groups" pre post (JDict gd) gid) by done.
  cbn [mbind result_bind]. unfold setitem. simpl. rewrite Hgroups. simpl.
  rewrite list_lookup_middle by done. simpl. by rewrite insert_middle.
Qed.

End compose_facts.

(** ** Batches of actions *)

Section dispatch_facts.
Import ManagedConf.

Lemma handle_create_section (mem id name : json) :
  _handle_action mem (Some []) (action_of "create_section" {[ "id" := id; "name" := name ]})
  = (mem' ← _create_section mem (Some []) id name;
     Ok (mem', JDict {[ "id" := id; "name" := name ]})).
Proof. reflexivity. Qed.

Lemma handle_create_group (mem id : json) :
  _handle_action mem (Some []) (action_of "create_group" {[ "id" := id ]})
  = (mem' ← _create_group mem (Some []) id; Ok (mem', JDict {[ "id" := id ]})).
Proof. reflexivity. Qed.

Lemma handle_add_item (mem item : json) :
  _handle_action mem (Some []) (action_of "add_item" {[ "item" := item ]})
  = (mem' ← _add_item mem (Some []) item JNull; Ok (mem', JDict {[ "item" := item ]})).
Proof. reflexivity. Qed.

Lemma handle_add_item_target (mem item target : json) :
  _handle_action mem (Some []) (action_of "add_item" {[ "item" := item; "target" := target ]})
  = (mem' ← _add_item mem (Some []) item target;
     Ok (mem', JDict {[ "item" := item; "target" := target ]})).
Proof. reflexivity. Qed.

Lemma handle_disable (mem target : json) :
  _handle_action mem (Some []) (action_of "disable" {[ "target" := target ]})
  = (mem' ← _disable mem (Some []) target; Ok (mem', JDict {[ "target" := target ]})).
Proof. reflexivity. Qed.

Lemma has_id_new_section (id name : json) (items : list json) :
  has_id id (new_section id name items) = true.
Proof. apply py_eq_refl. Qed.

Lemma has_id_new_group (id : json) (items : list json) :
  has_id id (new_group id items) = true.
Proof. apply py_eq_refl. Qed.

(** [create_section] and then [add_item] with the new section as its
    target, on a document whose root items are dicts with other ids (or
    that has no items yet): the root items are followed by the section,
    which holds the item. *)
Theorem create_section_then_add_item (d : gmap string json) (l : list json)
    (id name item : json) :
  items_or_empty d = Some l →
  forallb (has_other_id id) l = true →
  for_actions (JDict d)
    [action_of "create_section" {[ "id" := id; "name" := name ]};
     action_of "add_item" {[ "item" := item; "target" := section_target id ]}]
  = Ok (JDict (<["items" := JList (l ++ [new_section id name [item]])]> d),
        [JDict {[ "id" := id; "name" := name ]};
         JDict {[ "item" := item; "target" := section_target id ]}]).
Proof.
  intros Hl Hother. unfold for_actions.
  rewrite handle_create_section. unfold _create_section, _ensure_has_items.
  rewrite (ensure_append_root d "items" l) by exact Hl.
  cbn [mbind result_bind]. rewrite handle_add_item_target. unfold section_target.
  rewrite (add_item_resolved_section _
             {[ "type" := JStr "section"; "name" := name; "id" := id; "items" := JList [] ]}
             {[ "section" := id ]} l [] [] id item).
  - cbn [mbind result_bind]. by rewrite insert_insert_eq.
  - apply lookup_insert_eq.
  - exact Hother.
  - apply (has_id_new_section id name []).
  - reflexivity.
  - reflexivity.
  - reflexivity.
Qed.

(** The same for a group: [create_group] and then [add_item] with the
    new group as its target. *)
Theorem create_group_then_add_item (d : gmap string json) (l : list json) (id item : json) :
  list_or_empty "groups" d = Some l →
  forallb (has_other_id id) l = true →
  for_actions (JDict d)
    [action_of "create_group" {[ "id" := id ]};
     action_of "add_item" {[ "item" := item; "target" := group_target id ]}]
  = Ok (JDict (<["groups" := JList (l ++ [new_group id [item]])]> d),
        [JDict {[ "id" := id ]}; JDict {[ "item" := item; "target" := group_target id ]}]).
Proof.
  intros Hl Hother. unfold for_actions.
  rewrite handle_create_group. unfold _create_group.
  rewrite (ensure_append_root d "groups" l) by exact Hl.
  cbn [mbind result_bind]. rewrite handle_add_item_target. unfold group_target.
  rewrite (add_item_group _ {[ "id" := id; "items" := JList [] ]} {[ "group" := id ]}
             l [] [] id item).
  - cbn [mbind result_bind]. by rewrite insert_insert_eq.
  - reflexivity.
  - apply lookup_insert_eq.
  - exact Hother.
  - apply (has_id_new_group id []).
  - reflexivity.
Qed.

Lemma add_items_root (d : gmap string json) (l : list json) (x : json) (xs : list json) :
  items_or_empty d = Some l →
  for_actions (JDict d) ((λ item, action_of "add_item" {[ "item" := item ]}) <$> x :: xs)
  = Ok (JDict (<["items" := JList (l ++ x :: xs)]> d),
        (λ item, JDict {[ "item" := item ]}) <$> x :: xs).
Proof.
  revert d l x. induction xs as [|y xs IH]; intros d l x Hl.
  - rewrite !fmap_cons, !fmap_nil. unfold for_actions. rewrite handle_add_item.
    unfold _add_item. simpl bool_decide. cbn iota. unfold _ensure_has_items.
    by rewrite (ensure_append_root d "items" l) by exact Hl.
  - rewrite fmap_cons. change (for_actions (JDict d) (?a :: ?rest))
      with ('(as_dict, action) ← _handle_action (JDict d) (Some []) a;
            '(as_dict, actions') ← for_actions as_dict rest;
            Ok (as_dict, action :: actions')).
    rewrite handle_add_item.
    unfold _add_item. simpl bool_decide. cbn iota. unfold _ensure_has_items.
    rewrite (ensure_append_root d "items" l) by exact Hl.
    cbn [mbind result_bind].
    rewrite (IH _ (l ++ [x])).
    + cbn [mbind result_bind]. by rewrite insert_insert_eq, <-app_assoc.
    + unfold items_or_empty. by rewrite lookup_insert_eq.
Qed.

(** A batch of [add_item] actions without a target appends the items
    to the root list in the order of the batch. *)
Theorem add_items_in_order (d : gmap string json) (l items : list json) :
  items_or_empty d = Some l →
  items ≠ [] →
  for_actions (JDict d) ((λ item, action_of "add_item" {[ "item" := item ]}) <$> items)
  = Ok (JDict (<["items" := JList (l ++ items)]> d),
        (λ item, JDict {[ "item" := item ]}) <$> items).
Proof.
  intros Hl Hne. destruct items as [|x xs]; [done|]. by apply add_items_root.
Qed.

End dispatch_facts.

Lemma create_section_then_add_item_witness :
  ManagedConf.for_actions (items_doc [tool "t0"])
    [action_of "create_section" {[ "id" := JStr "s1"; "name" := JStr "Section One" ]};
     action_of "add_item" {[ "item" := tool "t1"; "target" := section_target (JStr "s1") ]}]
  = Ok (items_doc [tool "t0"; section "s1" "Section One" [tool "t1"]],
        [JDict {[ "id" := JStr "s1"; "name" := JStr "Section One" ]};
         JDict {[ "item" := tool "t1"; "target" := section_target (JStr "s1") ]}]).
Proof.
  refine (eq_trans (create_section_then_add_item {[ "items" := JList [tool "t0"] ]}
    [tool "t0"] (JStr "s1") (JStr "Section One") (tool "t1") _ _) _);
    vm_compute; reflexivity.
Defined.

Lemma create_group_then_add_item_witness :
  ManagedConf.for_actions (items_doc [group_ref "g"])
    [action_of "create_group" {[ "id" := JStr "g" ]};
     action_of "add_item" {[ "item" := tool "t1"; "target" := group_target (JStr "g") ]}]
  = Ok (raw_doc [new_group (JStr "g") [tool "t1"]] [group_ref "g"],
        [JDict {[ "id" := JStr "g" ]};
         JDict {[ "item" := tool "t1"; "target" := group_target (JStr "g") ]}]).
Proof.
  refine (eq_trans (create_group_then_add_item {[ "items" := JList [group_ref "g"] ]}
    [] (JStr "g") (tool "t1") _ _) _); vm_compute; reflexivity.
Defined.

Lemma add_items_in_order_witness :
  ManagedConf.for_actions (JDict ∅)
    [action_of "add_item" {[ "item" := tool "a" ]}; action_of "add_item" {[ "item" := tool "b" ]}]
  = Ok (items_doc [tool "a"; tool "b"],
        [JDict {[ "item" := tool "a" ]}; JDict {[ "item" := tool "b" ]}]).
Proof.
  refine (eq_trans (add_items_in_order ∅ [] [tool "a"; tool "b"] _ _) _);
    [reflexivity|done|vm_compute; reflexivity].
Defined.

(** ** Disabling a group, then loading the configuration *)

Section disable_facts.
Import Parser.

Lemma build_group_map_app (l1 l2 : list json) (acc : pydict) :
  build_group_map (l1 ++ l2) acc = (acc' ← build_group_map l1 acc; build_group_map l2 acc').
Proof.
  revert acc. induction l1 as [|g l1 IH]; intros acc; [done|].
  simpl. destruct (py_getitem g "id") as [group_id|]; [|done]. simpl.
  destruct (py_getitem g "items") as [group_items|]; [|done]. simpl.
  destruct (py_get g "enabled" (JBool true)) as [enabled|]; [|done]. simpl.
  destruct (pydict_setitem _ _ _) as [acc'|]; [|done]. simpl. apply IH.
Qed.

(** Whether the table loads does not depend on the bindings made so far. *)
Lemma build_group_map_loads (l : list json) (acc acc' group_map : pydict) :
  build_group_map l acc = Ok group_map → ∃ group_map', build_group_map l acc' = Ok group_map'.
Proof.
  revert acc acc'. induction l as [|g l IH]; intros acc acc'; simpl; [eauto|].
  destruct (py_getitem g "id") as [group_id|]; [|discriminate]. simpl.
  destruct (py_getitem g "items") as [group_items|]; [|discriminate]. simpl.
  destruct (py_get g "enabled" (JBool true)) as [enabled|]; [|discriminate]. simpl.
  unfold pydict_setitem. destruct (hashable group_id); [|discriminate]. simpl. apply IH.
Qed.

(** Nor on the ["enabled"] flag of a group. *)
Lemma build_group_map_flag (pre post : list json) (gd : gmap string json) (v : json)
    (group_map : pydict) :
  build_group_map (pre ++ JDict gd :: post) [] = Ok group_map →
  ∃ group_map', build_group_map (pre ++ JDict (<["enabled" := v]> gd) :: post) [] = Ok group_map'.
Proof.
  rewrite !build_group_map_app. intros H.
  apply bind_ok in H as (acc & -> & H). cbn [mbind result_bind].
  simpl in H |- *.
  rewrite (lookup_insert_ne gd "enabled" "id"), (lookup_insert_ne gd "enabled" "items") by done.
  destruct (gd !! "id") as [group_id|]; [|discriminate]. simpl in H |- *.
  destruct (gd !! "items") as [group_items|]; [|discriminate]. simpl in H |- *.
  unfold pydict_setitem in H |- *. destruct (hashable group_id); [|discriminate].
  simpl in H |- *. by eapply build_group_map_loads.
Qed.

Lemma has_other_id_declares (gid : json) (l : list json) :
  forallb (has_other_id gid) l = true → existsb (declares gid) l = false.
Proof.
  induction l as [|x l IH]; [done|]. simpl. intros [Hx Hl]%andb_prop.
  rewrite (IH Hl), orb_false_r.
  destruct x as [ | | | | |dx]; try done. unfold declares. simpl in *.
  destruct (dx !! "id"); [|done]. by apply negb_true_iff in Hx.
Qed.

Lemma not_declared_disabled_part (gid : json) (l : list json) :
  existsb (declares gid) l = false →
  forallb (λ group_def, negb (declares gid group_def) || negb (is_enabled group_def)) l = true.
Proof.
  induction l as [|x l IH]; [done|]. simpl. intros [-> Hl]%orb_false_elim. simpl. by apply IH.
Qed.

(** Once the one definition of a group carries [enabled: False], the
    table declares the group disabled. *)
Lemma declared_disabled_after_disable (pre post : list json) (gd : gmap string json)
    (gid : json) :
  forallb (has_other_id gid) (pre ++ post) = true →
  has_id gid (JDict gd) = true →
  declared_disabled gid (pre ++ JDict (<["enabled" := JBool false]> gd) :: post) = true.
Proof.
  rewrite forallb_app. intros [Hpre Hpost]%andb_prop Hgd.
  apply has_other_id_declares in Hpre, Hpost.
  assert (declares gid (JDict (<["enabled" := JBool false]> gd)) = true) as Hdecl.
  { unfold declares. simpl in *. rewrite lookup_insert_ne by done.
    by destruct (gd !! "id"). }
  unfold declared_disabled. apply andb_true_intro. split.
  - rewrite existsb_app. simpl. by rewrite Hdecl, orb_true_r.
  - rewrite forallb_app. simpl.
    rewrite !not_declared_disabled_part by done.
    simpl. by rewrite lookup_insert_eq, orb_true_r.
Qed.

(** [disable] on a group that the table defines once, and then
    [_preprocess]: every reference to the group is gone from the items,
    at any depth, and nothing else has changed. *)
Theorem disable_then_preprocess (d gd : gmap string json) (pre post : list json) (gid : json)
    (group_map : pydict) :
  d !! "groups" = Some (JList (pre ++ JDict gd :: post)) →
  forallb (has_other_id gid) (pre ++ post) = true →
  has_id gid (JDict gd) = true →
  build_group_map (pre ++ JDict gd :: post) [] = Ok group_map →
  tree_ok (refers_to gid) (JDict (delete "groups" d)) = true →
  ∃ d', ManagedConf.for_actions (JDict d)
          [action_of "disable" {[ "target" := group_target gid ]}]
        = Ok (JDict d', [JDict {[ "target" := group_target gid ]}])
      ∧ _preprocess (JDict d') = Ok (without_refs (JDict (delete "groups" d))).
Proof.
  intros Hgroups Hother Hgd Hbuild Hok.
  pose proof Hother as Hpre. rewrite forallb_app in Hpre. apply andb_prop in Hpre as [Hpre _].
  eexists. split.
  - unfold ManagedConf.for_actions. rewrite handle_disable. unfold group_target.
    rewrite (disable_group d gd {[ "group" := gid ]} pre post gid); done.
  - destruct (build_group_map_flag pre post gd (JBool false) _ Hbuild) as [group_map' Hbuild'].
    unfold _preprocess, pop_groups. rewrite lookup_insert_eq, delete_insert_eq.
    change ((build_group_map (pre ++ JDict (<["enabled" := JBool false]> gd) :: post) []
               ≫= λ group_map, replace_groups_in_items group_map (JDict (delete "groups" d)))
            = Ok (without_refs (JDict (delete "groups" d)))).
    rewrite Hbuild'. apply replace_groups_empty_groups.
    revert Hok. apply tree_ok_weaken. intros x _ [_ Hx]%andb_prop.
    apply bool_decide_eq_true_2.
    apply (disabled_group_lookup gid _ _ Hbuild'); [|done].
    by apply declared_disabled_after_disable.
Qed.

End disable_facts.

Lemma disable_then_preprocess_witness :
  ∃ d', ManagedConf.for_actions
          (raw_doc [new_group (JStr "g") [tool "z"]]
                   [group_ref "g"; section "s" "S" [tool "q"; group_ref "g"]])
          [action_of "disable" {[ "target" := group_target (JStr "g") ]}]
        = Ok (JDict d', [JDict {[ "target" := group_target (JStr "g") ]}])
      ∧ Parser._preprocess (JDict d') = Ok (items_doc [section "s" "S" [tool "q"]]).
Proof.
  destruct (disable_then_preprocess
    {[ "groups" := JList [new_group (JStr "g") [tool "z"]];
       "items" := JList [group_ref "g"; section "s" "S" [tool "q"; group_ref "g"]] ]}
    {[ "id" := JStr "g"; "items" := JList [tool "z"] ]} [] [] (JStr "g")
    [(JStr "g", JList [tool "z"])]) as (d' & Hfirst & Hsecond);
    [vm_compute; reflexivity..|].
  exists d'. split; [exact Hfirst|]. rewrite Hsecond. vm_compute. reflexivity.
Defined.

(** ** The view of the managed configuration *)

Section conf_view_facts.
Context (md5_hexdigest : string → string).
Context (json_loads : string → option json).
Context (json_dumps : json → string).

Local Abbreviation _hash := (ManagedConf._hash md5_hexdigest).
Local Abbreviation get := (ManagedConfView.get md5_hexdigest json_loads).
Local Abbreviation update := (ManagedConfView.update md5_hexdigest json_loads json_dumps).

Lemma view_get_ok (f : ManagedConf.file) (p : gmap string json) :
  get f = Ok (JDict p) →
  ∃ bytes as_dict, f = Some bytes ∧ json_loads bytes = Some as_dict
    ∧ p = {[ "hash" := _hash bytes; "contents" := as_dict ]}.
Proof.
  unfold ManagedConfView.get. intros H.
  apply bind_ok in H as ([h as_dict] & Hread & [= <-]).
  apply read_ok in Hread as (bytes & -> & -> & Hloads). by exists bytes, as_dict.
Qed.

Lemma view_update_versioned (schedule : list (option string)) (p : gmap string json)
    (h contents : json) (f : ManagedConf.file) :
  p !! "hash" = Some h → p !! "contents" = Some contents →
  update schedule (JDict p) f
    = Some (ManagedConf.update md5_hexdigest json_dumps contents
              (Some (ManagedConf.Hash h)) f).
Proof.
  intros Hh Hc. unfold ManagedConfView.update. simpl. by rewrite Hh, Hc.
Qed.

(** What [get] hands out can be handed back: an [update] that carries
    the hash of a [get], with nothing written to the file in between,
    goes through whatever else the payload holds, and the next [get]
    shows the new contents under a new hash. *)
Theorem view_get_update_get (schedule : list (option string)) (f : ManagedConf.file)
    (got p : gmap string json) (h contents contents' : json) :
  get f = Ok (JDict got) →
  got !! "hash" = Some h →
  p !! "hash" = Some h → p !! "contents" = Some contents →
  json_loads (json_dumps contents) = Some contents' →
  update schedule (JDict p) f = Some (Ok (), Some (json_dumps contents))
  ∧ get (Some (json_dumps contents))
    = Ok (JDict {[ "hash" := _hash (json_dumps contents); "contents" := contents' ]}).
Proof.
  intros Hget Hgot Hh Hc Hround.
  apply view_get_ok in Hget as (bytes & as_dict & -> & Hloads & ->).
  rewrite lookup_insert_eq in Hgot. injection Hgot as <-. split.
  - rewrite (view_update_versioned schedule p _ contents) by done.
    by rewrite update_fresh_version.
  - unfold ManagedConfView.get, ManagedConf.read. simpl. by rewrite Hround.
Qed.

(** Of two updates made from the same [get], the second is refused:
    once the first has put bytes with another digest in the file, the
    second raises [ConcurrentWriteException] and the file keeps what the
    first wrote. *)
Theorem view_second_update_conflicts (schedule : list (option string)) (bytes : string)
    (got p1 p2 : gmap string json) (h c1 c2 : json) :
  get (Some bytes) = Ok (JDict got) →
  got !! "hash" = Some h →
  p1 !! "hash" = Some h → p1 !! "contents" = Some c1 →
  p2 !! "hash" = Some h → p2 !! "contents" = Some c2 →
  md5_hexdigest (json_dumps c1) ≠ md5_hexdigest bytes →
  update schedule (JDict p1) (Some bytes) = Some (Ok (), Some (json_dumps c1))
  ∧ update schedule (JDict p2) (Some (json_dumps c1))
    = Some (Raise ConcurrentWriteException, Some (json_dumps c1)).
Proof.
  intros Hget Hgot Hh1 Hc1 Hh2 Hc2 Hdiffer.
  apply view_get_ok in Hget as (bytes' & as_dict & [= <-] & Hloads & ->).
  rewrite lookup_insert_eq in Hgot. injection Hgot as <-. split.
  - rewrite (view_update_versioned schedule p1 _ c1) by done.
    by rewrite update_fresh_version.
  - rewrite (view_update_versioned schedule p2 _ c2) by done.
    unfold ManagedConf.update, ManagedConf._hash. simpl.
    rewrite py_eq_str, bool_decide_eq_false_2; [done|]. congruence.
Qed.

End conf_view_facts.

Lemma view_get_update_get_witness :
  ManagedConfView.update toy_md5 toy_loads toy_dumps []
    (JDict {[ "hash" := JStr "{ }"; "contents" := JDict ∅; "actions" := JList [] ]}) (Some "{ }")
  = Some (Ok (), Some "{}").
Proof.
  refine (proj1 (view_get_update_get toy_md5 toy_loads toy_dumps [] (Some "{ }")
    {[ "hash" := JStr "{ }"; "contents" := JDict ∅ ]}
    {[ "hash" := JStr "{ }"; "contents" := JDict ∅; "actions" := JList [] ]}
    (JStr "{ }") (JDict ∅) (JDict ∅) _ _ _ _ _)); vm_compute; reflexivity.
Defined.

Lemma view_second_update_conflicts_witness :
  ManagedConfView.update toy_md5 toy_loads toy_dumps []
    (JDict {[ "hash" := JStr "{ }"; "contents" := items_doc [tool "b"] ]}) (Some "{}")
  = Some (Raise ConcurrentWriteException, Some "{}").
Proof.
  refine (proj2 (view_second_update_conflicts toy_md5 toy_loads toy_dumps [] "{ }"
    {[ "hash" := JStr "{ }"; "contents" := JDict ∅ ]}
    {[ "hash" := JStr "{ }"; "contents" := items_doc [tool "a"] ]}
    {[ "hash" := JStr "{ }"; "contents" := items_doc [tool "b"] ]}
    (JStr "{ }") (items_doc [tool "a"]) (items_doc [tool "b"]) _ _ _ _ _ _ _));
    vm_compute; try reflexivity. discriminate.
Defined.

(** ** The items of a toolbox *)

Section item_facts.
Import ToolConf.

Lemma mapM_cons {A B} (f : A → result B) (x : A) (l : list A) :
  mapM f (x :: l) = (y ← f x; k ← mapM f l; Ok (y :: k)).
Proof. done. Qed.

Lemma mapM_ok {A B} (f : A → result B) (l : list A) (k : list B) :
  mapM f l = Ok k ↔ Forall2 (λ x y, f x = Ok y) l k.
Proof.
  revert k. induction l as [|x l IH]; intros k.
  - split; [intros [= <-]; constructor|by inversion 1].
  - rewrite mapM_cons. split.
    + intros H. apply bind_ok in H as (y & Hy & H).
      apply bind_ok in H as (k' & Hk' & [= <-]). constructor; [done|]. by apply IH.
    + inversion 1 as [|? y ? k' Hy Hk']; subst. rewrite Hy. simpl.
      apply IH in Hk'. by rewrite Hk'.
Qed.

Lemma py_eq_str_inv (x : json) (s : string) : py_eq x (JStr s) = true → x = JStr s.
Proof.
  unfold py_eq. intros H%bool_decide_eq_true_1. destruct x; simpl in H; congruence.
Qed.

Lemma from_dict_unfold (d : gmap string json) :
  from_dict (JDict d) =
    match d !! "type" with
    | Some type =>
        if py_eq type (JStr "section") then
          match d !! "items" with
          | Some items =>
              items' ← map_from_dict from_dict items;
              Ok (ToolConfSection (delete "items" (delete "type" d)) items' None)
          | None => Raise (KeyError (JStr "items"))
          end
        else Ok (ToolConfItem type (delete "type" d) None)
    | None => Raise (KeyError (JStr "type"))
    end.
Proof.
  change (from_dict (JDict d)) with
    (match d !! "type" with
     | Some type =>
         if py_eq type (JStr "section") then
           match on_items (map_from_dict from_dict) d with
           | Some r => items ← r; Ok (ToolConfSection (delete "items" (delete "type" d)) items None)
           | None => Raise (KeyError (JStr "items"))
           end
         else Ok (ToolConfItem type (delete "type" d) None)
     | None => Raise (KeyError (JStr "type"))
     end).
  rewrite on_items_lookup. by destruct (d !! "items").
Qed.

(** [map_from_dict] is [map] over what [py_iter] gives. *)
Lemma map_from_dict_iter (items : json) :
  map_from_dict from_dict items = (l ← py_iter items; mapM from_dict l).
Proof.
  destruct items as [ | | |s|l|d]; try done; simpl.
  - destruct s as [|c s]; done.
  - destruct (decide (d = ∅)) as [->|Hne].
    + by rewrite bool_decide_eq_true_2, map_to_list_empty.
    + rewrite bool_decide_eq_false_2 by done.
      destruct (map_to_list d) as [|[k v] kvs] eqn:Hkvs; [|done].
      by apply map_to_list_empty_iff in Hkvs.
Qed.

Lemma lists_only_unfold (d : gmap string json) :
  lists_only (JDict d) =
    if py_eq (default JNull (d !! "type")) (JStr "section") then
      match d !! "items" with
      | Some (JList l) => forallb lists_only l
      | Some _ => false
      | None => true
      end
    else true.
Proof.
  change (lists_only (JDict d)) with
    (if py_eq (default JNull (d !! "type")) (JStr "section") then
       default true (on_items (λ items,
         match items with
         | JList l => forallb lists_only l
         | _ => false
         end) d)
     else true).
  rewrite on_items_lookup. by destruct (d !! "items") as [[]|].
Qed.

(** [from_dict] loses nothing: the dict it was given can be read off
    the item it returns. *)
Theorem from_dict_lossless (x : json) (i : item) :
  lists_only x = true → from_dict x = Ok i → to_dict i = x.
Proof.
  revert i. induction x as [x Hx|d IH] using tree_ind; intros i.
  { by destruct x. }
  rewrite lists_only_unfold, from_dict_unfold.
  destruct (d !! "type") as [type|] eqn:Htype; [|discriminate]. simpl.
  destruct (py_eq type (JStr "section")) eqn:Hsection.
  - apply py_eq_str_inv in Hsection as ->.
    destruct (d !! "items") as [items|] eqn:Hitems; [|discriminate].
    destruct items as [ | | | |l| ]; try discriminate. simpl.
    intros Hlists H. apply bind_ok in H as (items' & Hmap & [= <-]).
    apply mapM_ok in Hmap.
    assert (to_dict <$> items' = l) as Hitems'.
    { rewrite forallb_forall in Hlists.
      assert (∀ y, y ∈ l → ∀ i, lists_only y = true → from_dict y = Ok i → to_dict i = y) as IH'.
      { intros y Hy. by apply (IH l). }
      clear IH Hitems. induction Hmap as [|y j l items' Hy Hmap IHmap]; [done|].
      rewrite fmap_cons. f_equal.
      - apply IH'; [left| |done]. apply Hlists. by left.
      - apply IHmap.
        + intros z Hz. apply Hlists. by right.
        + intros z Hz. apply IH'. by right. }
    simpl. rewrite Hitems'. f_equal.
    rewrite insert_delete_id by (by rewrite lookup_delete_ne).
    by rewrite insert_delete_id.
  - intros _ [= <-]. simpl. by rewrite insert_delete_id.
Qed.

Lemma element_forall_ind (P : element → Prop) :
  (∀ tag attrib children, Forall P children → P (Element tag attrib children)) →
  ∀ e, P e.
Proof.
  intros Hnode. fix IH 1. intros [tag attrib children]. apply Hnode.
  induction children as [|c children IHchildren]; constructor; [apply IH|apply IHchildren].
Qed.

Lemma mapM_fmap_ok {A B C} (f : B → result C) (g : A → B) (h : A → C) (l : list A) :
  Forall (λ x, f (g x) = Ok (h x)) l → mapM f (g <$> l) = Ok (h <$> l).
Proof.
  induction 1 as [|x l Hx _ IH]; [done|].
  rewrite !fmap_cons, mapM_cons, Hx. simpl. by rewrite IH.
Qed.

(** An element of the XML tree and the same element written as a dict
    give the same item, the link to the element apart. *)
Lemma from_dict_of_element (e : element) :
  plain_names e = true →
  from_dict (element_to_dict e) = Ok (forget_elem (of_element e)).
Proof.
  induction e as [tag attrib children IH] using element_forall_ind.
  intros Hplain. simpl in Hplain.
  apply andb_prop in Hplain as [Hplain Hchildren].
  apply andb_prop in Hplain as [Htype%bool_decide_eq_true_1 Hitems%bool_decide_eq_true_1].
  assert ((JStr <$> attrib) !! "type" = None) as Htype' by (by rewrite lookup_fmap, Htype).
  assert ((JStr <$> attrib) !! "items" = None) as Hitems' by (by rewrite lookup_fmap, Hitems).
  change (element_to_dict (Element tag attrib children)) with
    (JDict (<["type" := JStr tag]>
       (if String.eqb tag "section"
        then <["items" := JList (element_to_dict <$> children)]> (JStr <$> attrib)
        else JStr <$> attrib))).
  change (of_element (Element tag attrib children)) with
    (if negb (String.eqb tag "section")
     then ToolConfItem (JStr tag) (JStr <$> attrib) (Some (Element tag attrib children))
     else ToolConfSection (JStr <$> attrib) (of_element <$> children)
            (Some (Element tag attrib children))).
  rewrite from_dict_unfold, lookup_insert_eq, py_eq_str.
  destruct (String.eqb_spec tag "section") as [->|Hne].
  - rewrite bool_decide_eq_true_2 by done.
    rewrite lookup_insert_ne, lookup_insert_eq by done.
    change (map_from_dict from_dict (JList (element_to_dict <$> children)))
      with (mapM from_dict (element_to_dict <$> children)).
    rewrite (mapM_fmap_ok _ _ (λ c, forget_elem (of_element c))).
    + simpl. rewrite delete_insert_id by (by rewrite lookup_insert_ne).
      rewrite delete_insert_id by done. by rewrite <-list_fmap_compose.
    + rewrite forallb_forall in Hchildren. rewrite Forall_forall in IH |- *.
      intros c Hc. apply IH; [done|]. apply Hchildren. by apply list_elem_of_In.
  - rewrite bool_decide_eq_false_2 by done. simpl. by rewrite delete_insert_id.
Qed.

End item_facts.

Lemma from_dict_lossless_witness :
  to_dict (ToolConf.ToolConfSection {[ "id" := JStr "s"; "name" := JStr "S" ]}
             [ToolConf.ToolConfItem (JStr "tool") {[ "id" := JStr "t" ]} None] None)
  = section "s" "S" [tool "t"].
Proof.
  apply from_dict_lossless; vm_compute; reflexivity.
Defined.

(** ** Labels *)

Section label_facts.
Import ToolConf.

Lemma split_nonempty (sep : ascii) (s : list ascii) : split sep s ≠ [].
Proof.
  destruct s as [|c s]; simpl; [done|].
  destruct (Ascii.eqb c sep); [done|]. by destruct (split sep s).
Qed.

Lemma split_length (sep : ascii) (s : list ascii) :
  length (split sep s) = S (length (filter (λ c, c = sep) s)).
Proof.
  induction s as [|c s IH]; [done|]. simpl.
  destruct (Ascii.eqb_spec c sep) as [->|Hne].
  - rewrite filter_cons_True by done. simpl. by rewrite IH.
  - rewrite filter_cons_False by done.
    destruct (split sep s) as [|part parts]; [discriminate|done].
Qed.

Lemma split_without (sep : ascii) (s : list ascii) :
  Forall (λ part, sep ∉ part) (split sep s).
Proof.
  induction s as [|c s IH]; simpl.
  - repeat constructor. by intros ?%elem_of_nil.
  - destruct (Ascii.eqb_spec c sep) as [->|Hne].
    + constructor; [by intros ?%elem_of_nil|done].
    + destruct (split sep s) as [|part parts].
      * repeat constructor. by intros [?|?%elem_of_nil]%elem_of_cons.
      * inversion IH as [|? ? Hpart Hparts]; subst. constructor; [|done].
        by intros [?|?]%elem_of_cons.
Qed.

Lemma split_part (sep : ascii) (part : list ascii) :
  sep ∉ part → split sep part = [part].
Proof.
  induction part as [|c part IH]; [done|]. intros Hnotin. simpl.
  destruct (Ascii.eqb_spec c sep) as [->|Hne]; [by destruct Hnotin; left|].
  rewrite IH; [done|]. intros ?. apply Hnotin. by right.
Qed.

Lemma split_app (sep : ascii) (part rest : list ascii) :
  sep ∉ part → split sep (part ++ sep :: rest) = part :: split sep rest.
Proof.
  induction part as [|c part IH]; intros Hnotin; simpl.
  - by rewrite Ascii.eqb_refl.
  - destruct (Ascii.eqb_spec c sep) as [->|Hne]; [by destruct Hnotin; left|].
    rewrite IH; [done|]. intros ?. apply Hnotin. by right.
Qed.

(** [split] undoes [join]. *)
Lemma split_join (sep : ascii) (parts : list (list ascii)) :
  parts ≠ [] → Forall (λ part, sep ∉ part) parts → split sep (join sep parts) = parts.
Proof.
  intros Hne Hparts. induction Hparts as [|part parts Hpart Hparts IH]; [done|].
  destruct parts as [|part' parts].
  - by apply split_part.
  - change (join sep (part :: part' :: parts)) with (part ++ sep :: join sep (part' :: parts)).
    rewrite split_app by done. by rewrite IH.
Qed.

Lemma lstrip_suffix (l : list ascii) : ∃ spaces, l = spaces ++ Views.lstrip l.
Proof.
  induction l as [|c l [spaces IH]]; [by exists []|]. simpl.
  destruct (Views.is_space c); [|by exists []].
  exists (c :: spaces). simpl. by f_equal.
Qed.

Lemma lstrip_head (l : list ascii) (c : ascii) :
  head (Views.lstrip l) = Some c → Views.is_space c = false.
Proof.
  induction l as [|c' l IH]; [done|]. simpl.
  destruct (Views.is_space c') eqn:Hc'; [done|]. by intros [= <-].
Qed.

Lemma strip_trimmed (l : list ascii) : trimmed (Views.strip l) = true.
Proof.
  unfold trimmed, Views.strip. rewrite head_reverse, last_reverse.
  set (a := Views.lstrip l). set (b := Views.lstrip (reverse a)).
  apply andb_true_intro. split.
  - destruct (last b) as [c|] eqn:Hlast; [|done].
    destruct (lstrip_suffix (reverse a)) as [spaces Hsuffix]. fold b in Hsuffix.
    assert (head a = Some c) as Hhead.
    { rewrite <-(reverse_involutive a), head_reverse, Hsuffix, last_app. by rewrite Hlast. }
    apply lstrip_head in Hhead. by rewrite Hhead.
  - destruct (head b) as [c|] eqn:Hhead; [|done].
    apply lstrip_head in Hhead. by rewrite Hhead.
Qed.

Lemma strip_elem_of (l : list ascii) (c : ascii) : c ∈ Views.strip l → c ∈ l.
Proof.
  assert (∀ l, c ∈ Views.lstrip l → c ∈ l) as Hl.
  { intros l'. destruct (lstrip_suffix l') as [spaces Heq]. rewrite Heq at 2.
    intros ?. apply elem_of_app. by right. }
  unfold Views.strip. rewrite elem_of_reverse. intros H%Hl.
  rewrite elem_of_reverse in H. by apply Hl.
Qed.

(** The labels of an item are the fields that the commas of its
    ["labels"] attribute separate, in their order and without the white
    space around them; the attribute is text on which [str] and
    [unicode] agree about white space. *)
Theorem labels_of_fields (i : item) (fields : list (list ascii)) :
  fields ≠ [] →
  Forall (λ field, ","%char ∉ field) fields →
  ascii_text (join "," fields) = true →
  attributes i !! "labels" = Some (JStr (String.string_of_list_ascii (join "," fields))) →
  labels i = Ok (Some ((λ field, String.string_of_list_ascii (Views.strip field)) <$> fields)).
Proof.
  intros Hne Hfields _ Hattr. unfold labels. rewrite Hattr.
  by rewrite String.list_ascii_of_string_of_list_ascii, split_join.
Qed.

(** An item with a string for its ["labels"] attribute has one label
    more than the string has commas; no label holds a comma, and none
    begins or ends with white space. *)
Theorem labels_well_formed (i : item) (s : string) :
  attributes i !! "labels" = Some (JStr s) →
  ∃ ls, labels i = Ok (Some ls)
    ∧ length ls = S (length (filter (λ c, c = ","%char) (String.list_ascii_of_string s)))
    ∧ Forall (λ label, trimmed (String.list_ascii_of_string label) = true
                       ∧ ","%char ∉ String.list_ascii_of_string label) ls.
Proof.
  intros Hattr. unfold labels. rewrite Hattr. eexists. split; [done|]. split.
  - by rewrite length_fmap, split_length.
  - apply Forall_fmap. eapply Forall_impl; [apply split_without|].
    intros part Hpart. simpl. rewrite String.list_ascii_of_string_of_list_ascii.
    split; [apply strip_trimmed|]. intros ?%strip_elem_of. done.
Qed.

End label_facts.

Lemma labels_of_fields_witness :
  ToolConf.labels (ToolConf.ToolConfItem (JStr "tool") {[ "labels" := JStr "new, beta ,hidden" ]} None)
  = Ok (Some ["new"; "beta"; "hidden"]).
Proof.
  apply (labels_of_fields _
    [String.list_ascii_of_string "new"; String.list_ascii_of_string " beta ";
     String.list_ascii_of_string "hidden"]).
  - done.
  - repeat (apply Forall_cons_2; [apply (bool_decide_unpack _); vm_compute; exact I|]).
    apply Forall_nil_2.
  - vm_compute. reflexivity.
  - reflexivity.
Defined.

Lemma labels_well_formed_witness :
  ∃ ls, ToolConf.labels (ToolConf.ToolConfItem (JStr "tool") {[ "labels" := JStr " a ,," ]} None)
          = Ok (Some ls)
    ∧ length ls = 3.
Proof.
  destruct (labels_well_formed
    (ToolConf.ToolConfItem (JStr "tool") {[ "labels" := JStr " a ,," ]} None) " a ,,")
    as (ls & Hls & Hlen & _); [reflexivity|].
  exists ls. split; [exact Hls|exact Hlen].
Defined.

(** ** Inlining where no list holds two group references *)

Section single_ref_facts.
Import Parser.
Context (group_map : pydict).

Lemma single_ref_unfold (d : gmap string json) :
  single_ref (JDict d) =
    match d !! "items" with
    | Some (JList l) =>
        bool_decide (length (filter (λ x, is_type "group" x = true) l) ≤ 1)%nat
        && forallb (λ x, negb (is_type "section" x) || single_ref x) l
    | _ => true
    end.
Proof.
  change (single_ref (JDict d)) with
    (default true (on_items (λ items,
        match items with
        | JList l =>
            bool_decide (length (filter (λ x, is_type "group" x = true) l) ≤ 1)%nat
            && forallb (λ x, negb (is_type "section" x) || single_ref x) l
        | _ => true
        end) d)).
  rewrite on_items_lookup. by destruct (d !! "items") as [[]|].
Qed.

Lemma splice_spec_unfold (d : gmap string json) :
  splice_spec group_map (JDict d) =
    match d !! "items" with
    | Some (JList l) =>
        items' ← splice_items group_map (splice_spec group_map) l;
        Ok (JDict (<["items" := JList items']> d))
    | Some _ => Raise TypeError
    | None => Ok (JDict d)
    end.
Proof.
  change (splice_spec group_map (JDict d)) with
    (match on_items (λ items,
              match items with
              | JList l => splice_items group_map (splice_spec group_map) l
              | _ => Raise TypeError
              end) d with
      | Some r => items' ← r; Ok (JDict (<["items" := JList items']> d))
      | None => Ok (JDict d)
      end).
  rewrite on_items_lookup. by destruct (d !! "items") as [[]|].
Qed.

(** A list with one group reference at most: none, or one between two
    lists without. *)
Lemma at_most_one (l : list json) :
  (length (filter (λ x, is_type "group" x = true) l) ≤ 1)%nat →
  Forall (λ x, is_type "group" x = false) l
  ∨ ∃ pre x post, l = pre ++ x :: post ∧ is_type "group" x = true
      ∧ Forall (λ x, is_type "group" x = false) pre
      ∧ Forall (λ x, is_type "group" x = false) post.
Proof.
  induction l as [|y l IH]; [by left|].
  destruct (is_type "group" y) eqn:Hy.
  - rewrite filter_cons_True by done. simpl. intros Hlen.
    right. exists [], y, l. split; [done|]. split; [done|]. split; [constructor|].
    assert (filter (λ x, is_type "group" x = true) l = []) as Hnil.
    { destruct (filter _ l); [done|simpl in Hlen; lia]. }
    apply Forall_forall. intros x Hx. destruct (is_type "group" x) eqn:Hgx; [|done].
    assert (x ∈ filter (λ x, is_type "group" x = true) l) as Hin
      by (by apply list_elem_of_filter).
    rewrite Hnil in Hin. by apply elem_of_nil in Hin.
  - rewrite filter_cons_False by congruence. intros Hlen.
    destruct (IH Hlen) as [Hall|(pre & x & post & -> & Hx & Hpre & Hpost)].
    + left. by constructor.
    + right. exists (y :: pre), x, post. repeat split; try done. by constructor.
Qed.

Lemma pending_values (index : nat) (l : list json) : (pending index l).*2 = l.
Proof.
  unfold pending. rewrite fmap_imap. rewrite (imap_ext _ (const id)) by done.
  by rewrite imap_const, list_fmap_id.
Qed.

Lemma pending_app (index : nat) (l1 l2 : list json) :
  pending index (l1 ++ l2) = pending index l1 ++ pending (index + length l1) l2.
Proof.
  unfold pending. rewrite imap_app. f_equal. apply imap_ext. intros k x _. simpl.
  do 2 f_equal. lia.
Qed.

Lemma pending_tags (index : nat) (l : list json) (e : entry) (k : nat) :
  e ∈ pending index l → e.1 = Some k → (index ≤ k)%nat.
Proof.
  intros (i & y & -> & _)%elem_of_lookup_imap_1. simpl. intros [= <-]. lia.
Qed.

(** The loop over items that are no group references leaves each at
    its place and moves on; where it stands in [items] plays no part. *)
Lemma for_enumerate_kept (recurse : json → result json) (pre pre' rest : list json)
    (index : nat) (before : list entry) (current_offset : nat) :
  Forall2 (kept_as recurse) pre pre' →
  (∀ e k, e ∈ before → e.1 = Some k → (k < index)%nat) →
  for_enumerate group_map recurse (pre ++ rest) index
    (before ++ pending index (pre ++ rest)) current_offset
  = for_enumerate group_map recurse rest (index + length pre)
      (before ++ pending index pre' ++ pending (index + length pre) rest)
      (current_offset + length pre).
Proof.
  intros Hkept. revert index before current_offset.
  induction Hkept as [|x x' pre pre' Hx Hkept IH]; intros index before current_offset Hbefore.
  { simpl. by rewrite !Nat.add_0_r. }
  destruct Hx as (Hdict & Hgroup & Hgroup' & Hsection).
  destruct x as [ | | | | |d]; try discriminate.
  rewrite <-app_comm_cons, !pending_cons. simpl for_enumerate. simpl in Hgroup, Hsection.
  rewrite Hgroup.
  assert (∀ v : json, ∀ e k, e ∈ before ++ [(Some index, v)] → e.1 = Some k → (k < S index)%nat)
    as Hbefore'.
  { intros v e k [He| ->%list_elem_of_singleton]%elem_of_app Htag.
    - specialize (Hbefore e k He Htag). lia.
    - injection Htag as <-. lia. }
  assert (length (x' :: pre') = length (JDict d :: pre)) as Hlen.
  { symmetry. apply (Forall2_length (kept_as recurse)). by constructor. }
  simpl in Hlen.
  destruct (py_eq (default JNull (d !! "type")) (JStr "section")) eqn:Hsec.
  - rewrite Hsection. cbn [mbind result_bind].
    rewrite (set_object_middle _ (JDict d)).
    2:{ intros e [He|He]%elem_of_app Htag.
        - specialize (Hbefore e index He Htag). lia.
        - apply (pending_tags _ _ _ index) in He; [lia|done]. }
    specialize (IH (S index) (before ++ [(Some index, x')]) (current_offset + 1)
                  (Hbefore' x')).
    rewrite <-!app_assoc, <-!cons_middle in IH. simpl length.
    replace (index + S (length pre)) with (S index + length pre) by lia.
    replace (current_offset + S (length pre)) with (current_offset + 1 + length pre) by lia.
    exact IH.
  - subst x'.
    specialize (IH (S index) (before ++ [(Some index, JDict d)]) (current_offset + 1)
                  (Hbefore' (JDict d))).
    rewrite <-!app_assoc, <-!cons_middle in IH. simpl length.
    replace (index + S (length pre)) with (S index + length pre) by lia.
    replace (current_offset + S (length pre)) with (current_offset + 1 + length pre) by lia.
    exact IH.
Qed.

Lemma splice_items_kept (recurse : json → result json) (pre pre' rest : list json) :
  Forall2 (kept_as recurse) pre pre' →
  splice_items group_map recurse (pre ++ rest)
  = (rest' ← splice_items group_map recurse rest; Ok (pre' ++ rest')).
Proof.
  induction 1 as [|x x' pre pre' (Hdict & Hgroup & _ & Hsection) _ IH].
  { simpl. by destruct (splice_items _ _ rest). }
  rewrite <-app_comm_cons. simpl splice_items. rewrite Hgroup, IH.
  destruct (is_type "section" x).
  - rewrite Hsection. simpl. by destruct (splice_items _ _ rest).
  - subst x'. simpl. by destruct (splice_items _ _ rest).
Qed.

Lemma list_insert_at_length {A} (l1 l2 : list A) (x : A) :
  list_insert_at (length l1) x (l1 ++ l2) = l1 ++ x :: l2.
Proof. unfold list_insert_at. by rewrite take_app_length, drop_app_length. Qed.

(** The items of a group go in one after the other where the loop
    stands. *)
Lemma insert_group_items_at (group_items : list json) (before inserted after : list entry)
    (current_offset iteration_offset : nat) :
  length before = current_offset →
  length inserted + 1 = iteration_offset →
  insert_group_items group_items current_offset iteration_offset
    (before ++ inserted ++ after)
  = (before ++ inserted ++ ((λ x, (None, x)) <$> group_items) ++ after,
     iteration_offset + length group_items).
Proof.
  revert inserted iteration_offset.
  induction group_items as [|g group_items IH]; intros inserted iteration_offset Hb Hi.
  { simpl. by rewrite Nat.add_0_r. }
  simpl insert_group_items.
  replace (current_offset + iteration_offset - 1) with (length (before ++ inserted))
    by (rewrite length_app; lia).
  rewrite app_assoc, list_insert_at_length.
  pose proof (IH (inserted ++ [(None, g)]) (iteration_offset + 1) Hb) as IH'.
  rewrite length_app in IH'. specialize (IH' ltac:(simpl; lia)).
  rewrite <-!app_assoc in IH'. rewrite <-app_assoc.
  etrans; [exact IH'|]. rewrite fmap_cons. simpl. f_equal. lia.
Qed.

Lemma kept_as_not_group (recurse : json → result json) (l l' : list json) :
  Forall2 (kept_as recurse) l l' → Forall (λ x', is_type "group" x' = false) l'.
Proof. induction 1 as [|x x' l l' (_ & _ & Hx' & _) _ IH]; by constructor. Qed.

Lemma pending_elem_of (index : nat) (l : list json) (e : entry) :
  e ∈ pending index l → e.2 ∈ l ∧ ∃ k, e.1 = Some (index + k) ∧ (k < length l)%nat.
Proof.
  intros (k & y & -> & Hk)%elem_of_lookup_imap_1. simpl. split.
  - by eapply list_elem_of_lookup_2.
  - exists k. split; [done|]. by eapply lookup_lt_Some.
Qed.

Lemma tagged_values (l : list json) : ((λ x, (None, x) : entry) <$> l).*2 = l.
Proof. rewrite <-list_fmap_compose. apply list_fmap_id. Qed.

(** One list of items: the loop and the specification's splice
    return the same values.  [recurse] is what the loop does to a
    section, [recurse'] what the specification does. *)
Lemma for_enumerate_single_ref (recurse recurse' : json → result json) (l : list json) :
  (length (filter (λ x, is_type "group" x = true) l) ≤ 1)%nat →
  (∀ x, x ∈ l → is_type "group" x = true → is_dict x = true ∧ resolves group_map x = true) →
  (∀ x, x ∈ l → is_type "group" x = false →
     ∃ x', kept_as recurse x x' ∧ kept_as recurse' x x') →
  ∃ items,
    for_enumerate group_map recurse l 0 (pending 0 l) 0 = Ok items
    ∧ splice_items group_map recurse' l = Ok items.*2.
Proof.
  intros Hone Hrefs Hothers.
  assert (∀ part, (∀ x, x ∈ part → x ∈ l) → Forall (λ x, is_type "group" x = false) part →
    ∃ part', Forall2 (kept_as recurse) part part' ∧ Forall2 (kept_as recurse') part part')
    as Hparts.
  { intros part Hsub Hpart. induction Hpart as [|x part Hx _ IH]; [by exists []|].
    destruct (Hothers x) as (x' & Hx' & Hx''); [apply Hsub; left|done|].
    destruct IH as (part' & Hpart' & Hpart''); [intros y Hy; apply Hsub; by right|].
    exists (x' :: part'). split; by constructor. }
  destruct (at_most_one l Hone) as [Hall|(pre & x & post & -> & Hx & Hpre & Hpost)].
  - destruct (Hparts l) as (l' & Hl' & Hl''); [done|done|].
    exists (pending 0 l'). split.
    + pose proof (for_enumerate_kept recurse l l' [] 0 [] 0 Hl') as Hloop.
      rewrite app_nil_r in Hloop. etrans; [apply Hloop|].
      * intros e k ?%elem_of_nil. done.
      * cbn [for_enumerate app]. change (pending (0 + length l) []) with (@nil entry).
        by rewrite app_nil_r.
    + rewrite pending_values.
      pose proof (splice_items_kept recurse' l l' [] Hl'') as Hsplice.
      rewrite app_nil_r in Hsplice. rewrite Hsplice. simpl. by rewrite app_nil_r.
  - destruct (Hparts pre) as (pre' & Hpre' & Hpre''); [intros y Hy; apply elem_of_app; by left|done|].
    destruct (Hparts post) as (post' & Hpost' & Hpost'');
      [intros y Hy; apply elem_of_app; right; by right|done|].
    destruct (Hrefs x) as [Hdict Hresolves]; [apply elem_of_app; right; left|done|].
    destruct x as [ | | | | |d]; try discriminate.
    unfold resolves in Hresolves. simpl in Hresolves.
    destruct (pydict_getitem group_map (default JNull (d !! "id")))
      as [[ | | | |group_items| ]|] eqn:Hlookup; try discriminate.
    assert (length pre' = length pre) as Hlen
      by (symmetry; by apply (Forall2_length (kept_as recurse))).
    exists (pending 0 pre' ++ ((λ x, (None, x)) <$> group_items)
            ++ pending (S (length pre)) post'). split.
    + pose proof (for_enumerate_kept recurse pre pre' (JDict d :: post) 0 [] 0 Hpre') as Hloop.
      etrans; [apply Hloop; intros e k ?%elem_of_nil; done|]. clear Hloop.
      rewrite pending_cons. cbn [app Nat.add]. simpl for_enumerate. simpl in Hx.
      rewrite Hx, Hlookup. cbn [mbind result_bind].
      rewrite list_remove_middle; [|intros e He|apply py_eq_refl].
      2:{ destruct (py_eq e.2 (JDict d)) eqn:Heq; [|done].
          apply (py_eq_is_type "group") in Heq. simpl in Heq. rewrite Hx in Heq.
          apply pending_elem_of in He as [He _].
          apply kept_as_not_group in Hpre'. rewrite Forall_forall in Hpre'.
          rewrite (Hpre' _ He) in Heq. done. }
      cbn [mbind result_bind py_iter].
      pose proof (insert_group_items_at group_items (pending 0 pre') []
                    (pending (S (length pre)) post) (length pre) 1) as Hinsert.
      cbn [app] in Hinsert. rewrite Hinsert; [|unfold pending; by rewrite length_imap|done]. clear Hinsert.
      pose proof (for_enumerate_kept recurse post post' [] (S (length pre))
                    (pending 0 pre' ++ ((λ x, (None, x)) <$> group_items))
                    (length pre + (1 + length group_items)) Hpost') as Hloop.
      rewrite !app_nil_r, <-!app_assoc in Hloop.
      etrans; [apply Hloop|].
      * intros e k [He|He]%elem_of_app Htag.
        -- apply pending_elem_of in He as (_ & i & Hi & Hlt). rewrite Htag in Hi.
           injection Hi as ->. lia.
        -- apply list_elem_of_fmap in He as (y & -> & _). done.
      * reflexivity.
    + rewrite !fmap_app, !pending_values, tagged_values.
      rewrite (splice_items_kept recurse' pre pre' _ Hpre'').
      simpl splice_items. simpl in Hx. rewrite Hx. unfold id_of. rewrite Hlookup.
      cbn [mbind result_bind py_iter].
      pose proof (splice_items_kept recurse' post post' [] Hpost'') as Hsplice.
      rewrite app_nil_r in Hsplice. rewrite Hsplice. simpl. by rewrite app_nil_r.
Qed.

Lemma replace_groups_single_ref (t : json) :
  tree_ok (resolves group_map) t = true →
  single_ref t = true →
  ∃ out, replace_groups_in_items group_map t = Ok out
    ∧ splice_spec group_map t = Ok out
    ∧ is_type "group" out = is_type "group" t.
Proof.
  induction t as [x Hx|d IH] using tree_ind.
  { by destruct x. }
  rewrite tree_ok_unfold, single_ref_unfold, replace_groups_in_items_unfold,
    splice_spec_unfold.
  destruct (d !! "items") as [items|] eqn:Hitems; [|by exists (JDict d)].
  destruct items as [ | | | |l| ]; try discriminate.
  intros Hok [Hone%bool_decide_eq_true_1 Hsingle]%andb_prop.
  rewrite forallb_forall in Hok. rewrite forallb_forall in Hsingle.
  destruct (for_enumerate_single_ref (replace_groups_in_items group_map)
              (splice_spec group_map) l Hone) as (items & Hloop & Hsplice).
  - intros x Hx Hgroup. apply list_elem_of_In in Hx.
    specialize (Hok x Hx). apply andb_prop in Hok as [Hdict Hok].
    by rewrite Hgroup in Hok.
  - intros x Hx Hgroup. pose proof Hx as Hin. apply list_elem_of_In in Hin.
    specialize (Hok x Hin). apply andb_prop in Hok as [Hdict Hok].
    specialize (Hsingle x Hin). rewrite Hgroup in Hok.
    destruct (is_type "section" x) eqn:Hsection.
    + destruct (IH l x eq_refl Hx Hok Hsingle) as (x' & Hcode & Hspec & Htype).
      exists x'. rewrite Hgroup in Htype. unfold kept_as. by rewrite Hsection.
    + exists x. unfold kept_as. by rewrite Hsection.
  - exists (JDict (<["items" := JList items.*2]> d)).
    change (replace_in group_map (replace_groups_in_items group_map) (JList l))
      with (items' ← for_enumerate group_map (replace_groups_in_items group_map) l 0
                       (pending 0 l) 0;
            Ok (JList (items'.*2))).
    rewrite Hloop, Hsplice. split; [done|]. split; [done|]. apply is_type_insert_items.
Qed.

End single_ref_facts.

(** Where no list of items holds two group references, [_preprocess]
    inlines the groups as the specification says: each reference gives
    way, at its place, to the items of its group. *)
Theorem inline_single_reference (d : gmap string json) (groups : list json)
    (group_map : pydict) :
  default (JList []) (d !! "groups") = JList groups →
  Parser.build_group_map groups [] = Ok group_map →
  tree_ok (resolves group_map) (JDict (delete "groups" d)) = true →
  single_ref (JDict (delete "groups" d)) = true →
  ∃ out, Parser._preprocess (JDict d) = Ok out ∧ inline_spec (JDict d) = Ok out.
Proof.
  intros Hgroups Hbuild Hok Hsingle.
  destruct (replace_groups_single_ref group_map _ Hok Hsingle) as (out & Hcode & Hspec & _).
  exists out. unfold Parser._preprocess, inline_spec, Parser.pop_groups. rewrite Hgroups.
  split.
  - change ((Parser.build_group_map groups [] ≫= λ group_map,
               Parser.replace_groups_in_items group_map (JDict (delete "groups" d))) = Ok out).
    by rewrite Hbuild.
  - change ((Parser.build_group_map groups [] ≫= λ group_map,
               splice_spec group_map (JDict (delete "groups" d))) = Ok out).
    by rewrite Hbuild.
Qed.

Lemma inline_single_reference_witness :
  Parser._preprocess
    (raw_doc [group_def "g1" true [tool "x"; tool "z"]; group_def "g2" true [tool "w"]]
       [tool "a"; group_ref "g1"; section "s" "S" [group_ref "g2"; tool "q"]; tool "y"])
  = Ok (items_doc [tool "a"; tool "x"; tool "z"; section "s" "S" [tool "w"; tool "q"]; tool "y"]).
Proof.
  destruct (inline_single_reference
    {[ "groups" := JList [group_def "g1" true [tool "x"; tool "z"];
                          group_def "g2" true [tool "w"]];
       "items" := JList [tool "a"; group_ref "g1";
                         section "s" "S" [group_ref "g2"; tool "q"]; tool "y"] ]}
    [group_def "g1" true [tool "x"; tool "z"]; group_def "g2" true [tool "w"]]
    [(JStr "g2", JList [tool "w"]); (JStr "g1", JList [tool "x"; tool "z"])])
    as (out & Hcode & Hspec); [vm_compute; reflexivity..|].
  etrans; [exact Hcode|]. etrans; [symmetry; exact Hspec|]. vm_compute. reflexivity.
Defined.

(** ** Requests with a name *)

Section named_request_facts.
Context (dependency_resolvers : list Views.resolver).
Context (find_dep_result : json → json → json → gmap string json → result json).
Context (install_result :
  Views.resolver → json → json → json → gmap string json → result json).

Local Abbreviation manager_dependency := (Views.manager_dependency find_dep_result).
Local Abbreviation resolver_dependency := (Views.resolver_dependency find_dep_result).
Local Abbreviation install_dependency :=
  (Views.install_dependency dependency_resolvers install_result).
Local Abbreviation _dependency_resolver := (Views._dependency_resolver dependency_resolvers).

Lemma parse_with_name (kwds : gmap string json) (name : json) :
  kwds !! "name" = Some name → name ≠ JNull →
  Views._parse_dependency_info kwds
    = Ok (name, default JNull (kwds !! "version"), default (JStr "package") (kwds !! "type"),
          rest_of kwds).
Proof.
  intros Hname Hne. unfold Views._parse_dependency_info. rewrite Hname. simpl.
  rewrite bool_decide_eq_false_2 by done.
  by rewrite !lookup_delete_ne.
Qed.

Lemma dependency_with_name (index : json) (kwds : gmap string json) (name : json) :
  kwds !! "name" = Some name → name ≠ JNull →
  kwds !! "index" = None →
  index_converts index = true →
  Views._dependency find_dep_result index kwds =
    if bool_decide (is_Some (kwds !! "job_directory")) then (Raise TypeError, [])
    else
      let version := default JNull (kwds !! "version") in
      let type := default (JStr "package") (kwds !! "type") in
      let resolve_kwds :=
        <["job_directory" := JStr "/path/to/example/job_directory"]>
          (<["index" := converted_index index]> (rest_of kwds)) in
      (find_dep_result name version type resolve_kwds,
       [Views.find_dep name version type resolve_kwds]).
Proof.
  intros Hname Hne Hindex Hconv. unfold Views._dependency.
  rewrite (parse_with_name _ _ Hname Hne).
  assert ((if bool_decide (index = JNull) then Ok JNull
           else Views.py_int index ≫= λ i, Ok (JInt i)) = Ok (converted_index index)) as ->.
  { unfold converted_index, index_converts in *.
    destruct (bool_decide (index = JNull)); [done|]. simpl in Hconv.
    by destruct (Views.py_int index). }
  cbn [mbind result_bind]. unfold Views.resolve_kwds_of.
  assert (rest_of kwds !! "job_directory" = kwds !! "job_directory") as Hjob
    by (unfold rest_of; by rewrite !lookup_delete_ne).
  assert (rest_of kwds !! "index" = None) as Hrest
    by (unfold rest_of; by rewrite !lookup_delete_ne).
  rewrite Hjob, Hrest.
  destruct (kwds !! "job_directory") as [v|] eqn:Hv.
  - rewrite !bool_decide_eq_true_2 by eauto. done.
  - rewrite !bool_decide_eq_false_2; [done|by intros [? ?]|].
    intros [[? ?]|[? ?]]; done.
Qed.

(** A request with a name, with an index that [int] takes (or none)
    and without the keyword [job_directory], which the view sets itself:
    [manager_dependency] calls [find_dep] once, with the version of the
    request or [None], its type or ["package"], the converted index and
    every other keyword as it came.  With the keyword [job_directory]
    the request ends in [TypeError] before any call. *)
Theorem manager_dependency_finds (kwds : gmap string json) (name : json) :
  kwds !! "name" = Some name → name ≠ JNull →
  index_converts (default JNull (kwds !! "index")) = true →
  manager_dependency kwds =
    if bool_decide (is_Some (kwds !! "job_directory")) then (Raise TypeError, [])
    else
      let version := default JNull (kwds !! "version") in
      let type := default (JStr "package") (kwds !! "type") in
      let resolve_kwds :=
        <["job_directory" := JStr "/path/to/example/job_directory"]>
          (<["index" := converted_index (default JNull (kwds !! "index"))]>
             (rest_of (delete "index" kwds))) in
      (find_dep_result name version type resolve_kwds,
       [Views.find_dep name version type resolve_kwds]).
Proof.
  intros Hname Hne Hconv. unfold Views.manager_dependency, Views.call_dependency.
  rewrite (dependency_with_name _ _ name); try done.
  - by rewrite !lookup_delete_ne.
  - by rewrite lookup_delete_ne.
  - apply lookup_delete_eq.
Qed.

(** [resolver_dependency] does not use its index: whatever it is, even
    one that names no resolver, the request is answered as
    [manager_dependency] answers it, and the call to [find_dep], when
    there is one, has [None] for its index. *)
Theorem resolver_dependency_ignores_index (index : json) (kwds : gmap string json) :
  kwds !! "index" = None →
  resolver_dependency index kwds = manager_dependency kwds
  ∧ ∀ name version type resolve_kwds,
      Views.find_dep name version type resolve_kwds ∈ (resolver_dependency index kwds).2 →
      resolve_kwds !! "index" = Some JNull.
Proof.
  intros Hindex. split; [done|].
  unfold Views.resolver_dependency, Views.call_dependency, Views._dependency.
  rewrite Hindex. simpl.
  destruct (Views._parse_dependency_info _) as [[[[n v] t] extra]|e]; simpl.
  2:{ by intros ? ? ? ? ?%elem_of_nil. }
  unfold Views.resolve_kwds_of. destruct (bool_decide _); simpl.
  { by intros ? ? ? ? ?%elem_of_nil. }
  intros name version type resolve_kwds H%list_elem_of_singleton.
  injection H as _ _ _ ->.
  rewrite lookup_insert_ne by done. apply lookup_insert_eq.
Qed.

(** [install_dependency] on a resolver that can install, with a
    payload that has a name: the resolver is called once, with the
    version of the payload or [None], its type or ["package"], and
    every other key of the payload as a keyword. *)
Theorem install_dependency_installs (index : json) (payload : gmap string json)
    (r : Views.resolver) (name : json) :
  _dependency_resolver index = Ok r →
  Views.has_install_dependency r = true →
  payload !! "name" = Some name → name ≠ JNull →
  let version := default JNull (payload !! "version") in
  let type := default (JStr "package") (payload !! "type") in
  install_dependency index payload
    = (install_result r name version type (rest_of payload),
       [Views.resolver_install_dependency r name version type (rest_of payload)])
  ∧ ∀ key, key ∈ ["name"; "version"; "type"] → rest_of payload !! key = None.
Proof.
  intros Hr Hinstall Hname Hne. split.
  - unfold Views.install_dependency. rewrite Hr. simpl. rewrite Hinstall. simpl.
    by rewrite (parse_with_name _ _ Hname Hne).
  - intros key Hkey. unfold rest_of.
    repeat (apply elem_of_cons in Hkey as [->|Hkey]).
    + rewrite lookup_delete_ne by done. rewrite lookup_delete_ne by done.
      apply lookup_delete_eq.
    + rewrite lookup_delete_ne by done. apply lookup_delete_eq.
    + apply lookup_delete_eq.
    + by apply elem_of_nil in Hkey.
Qed.

End named_request_facts.

Lemma manager_dependency_finds_witness :
  Views.manager_dependency (λ _ _ _ _, Ok JNull)
    {[ "name" := JStr "samtools"; "index" := JStr " 1 "; "exact" := JBool true ]}
  = (Ok JNull,
     [Views.find_dep (JStr "samtools") JNull (JStr "package")
        {[ "job_directory" := JStr "/path/to/example/job_directory"; "index" := JInt 1;
           "exact" := JBool true ]}]).
Proof.
  refine (eq_trans (manager_dependency_finds (λ _ _ _ _, Ok JNull)
    {[ "name" := JStr "samtools"; "index" := JStr " 1 "; "exact" := JBool true ]}
    (JStr "samtools") _ _ _) _); [reflexivity|discriminate|vm_compute; reflexivity|].
  vm_compute. reflexivity.
Defined.

Lemma resolver_dependency_ignores_index_witness :
  Views.resolver_dependency (λ _ _ _ _, Ok JNull) (JStr "no number")
    {[ "name" := JStr "samtools" ]}
  = Views.manager_dependency (λ _ _ _ _, Ok JNull) {[ "name" := JStr "samtools" ]}.
Proof.
  apply (resolver_dependency_ignores_index (λ _ _ _ _, Ok JNull) (JStr "no number")
           {[ "name" := JStr "samtools" ]}).
  reflexivity.
Defined.

Lemma install_dependency_installs_witness :
  Views.install_dependency [{| Views.has_install_dependency := true |}] no_resolver_result
    (JInt (-1)) {[ "name" := JStr "samtools"; "version" := JStr "1.2"; "channel" := JStr "c" ]}
  = (Ok JNull,
     [Views.resolver_install_dependency {| Views.has_install_dependency := true |}
        (JStr "samtools") (JStr "1.2") (JStr "package") {[ "channel" := JStr "c" ]}]).
Proof.
  refine (eq_trans (proj1 (install_dependency_installs
    [{| Views.has_install_dependency := true |}] no_resolver_result (JInt (-1))
    {[ "name" := JStr "samtools"; "version" := JStr "1.2"; "channel" := JStr "c" ]}
    {| Views.has_install_dependency := true |} (JStr "samtools") _ _ _ _)) _);
    [vm_compute; reflexivity|reflexivity|reflexivity|discriminate|].
  vm_compute. reflexivity.
Defined.

(** ** What the view lists *)

Section listing_facts.
Context {R : Type}.
Context (dependency_resolvers : list R).
Context (to_dict : R → json).
Context (list_dependencies : R → option (list json)).

Local Abbreviation index := (DependencyResolversView.index dependency_resolvers to_dict).
Local Abbreviation show := (DependencyResolversView.show dependency_resolvers to_dict).
Local Abbreviation for_resolvers := (DependencyResolversView.for_resolvers list_dependencies).
Local Abbreviation manager_requirements :=
  (DependencyResolversView.manager_requirements dependency_resolvers list_dependencies).
Local Abbreviation resolver_requirements :=
  (DependencyResolversView.resolver_requirements dependency_resolvers list_dependencies).

Lemma list_getitem_fmap {A B} (f : A → B) (l : list A) (i : Z) :
  Views.list_getitem (f <$> l) i = (x ← Views.list_getitem l i; Ok (f x)).
Proof.
  unfold Views.list_getitem. rewrite length_fmap.
  destruct (_ <? 0)%Z; [done|]. rewrite list_lookup_fmap. by destruct (l !! _).
Qed.

(** [show(index)] is an entry of the list that [index()] returns: the
    one at [int(index)], counted from the end when negative;
    [IndexError] when [int(index)] is not in range. *)
Theorem show_is_index_entry (i : json) (n : Z) :
  Views.py_int i = Ok n →
  let len := Z.of_nat (length index) in
  ((- len ≤ n < len)%Z → ∃ x, index !! Z.to_nat (n mod len) = Some x ∧ show i = Ok x)
  ∧ (¬ (- len ≤ n < len)%Z → show i = Raise IndexError).
Proof.
  intros Hint len.
  assert (show i = Views.list_getitem index n) as ->.
  { unfold DependencyResolversView.show, DependencyResolversView._dependency_resolver,
      DependencyResolversView.index.
    rewrite Hint, list_getitem_fmap. simpl. by destruct (Views.list_getitem _ _). }
  apply list_getitem_range.
Qed.

Lemma requirements_at_app (n : nat) (l1 l2 : list json) :
  requirements_at n (l1 ++ l2) = requirements_at n l1 ++ requirements_at n l2.
Proof. apply omap_app. Qed.

Lemma requirements_at_entries (n k : nat) (listed : list json) :
  requirements_at n
    ((λ requirement,
        JDict {[ "index" := JInt (Z.of_nat k); "requirement" := requirement ]}) <$> listed)
  = if decide (k = n) then listed else [].
Proof.
  induction listed as [|x listed IH]; [by destruct (decide _)|].
  rewrite fmap_cons. unfold requirements_at in *. rewrite omap_cons, IH.
  change (({[ "index" := JInt (Z.of_nat k); "requirement" := x ]} : gmap string json)
            !! "index") with (Some (JInt (Z.of_nat k))).
  change (({[ "index" := JInt (Z.of_nat k); "requirement" := x ]} : gmap string json)
            !! "requirement") with (Some x).
  destruct (decide (k = n)) as [->|Hne].
  - by rewrite bool_decide_eq_true_2.
  - rewrite bool_decide_eq_false_2; [done|]. intros [= ?]. lia.
Qed.

Lemma for_resolvers_at (resolvers : list R) (first n : nat) (requirements : list json) :
  requirements_at n (for_resolvers resolvers first requirements)
  = requirements_at n requirements
    ++ (if decide (first ≤ n)%nat
        then default [] (resolvers !! (n - first)%nat ≫= list_dependencies)
        else []).
Proof.
  revert first requirements.
  induction resolvers as [|r resolvers IH]; intros first requirements.
  { simpl. destruct (decide _); by rewrite app_nil_r. }
  simpl DependencyResolversView.for_resolvers.
  destruct (list_dependencies r) as [listed|] eqn:Hlisted.
  - rewrite IH, requirements_at_app, requirements_at_entries, <-app_assoc. f_equal.
    destruct (decide (first = n)) as [->|Hne].
    + rewrite decide_False by lia. rewrite decide_True by lia.
      rewrite Nat.sub_diag. simpl. by rewrite Hlisted, app_nil_r.
    + destruct (decide (first ≤ n)%nat).
      * rewrite decide_True by lia.
        replace (n - first)%nat with (S (n - S first)) by lia. done.
      * by rewrite decide_False by lia.
  - rewrite IH. f_equal.
    destruct (decide (first = n)) as [->|Hne].
    + rewrite decide_False by lia. rewrite decide_True by lia.
      rewrite Nat.sub_diag. simpl. by rewrite Hlisted.
    + destruct (decide (first ≤ n)%nat).
      * rewrite decide_True by lia.
        replace (n - first)%nat with (S (n - S first)) by lia. done.
      * by rewrite decide_False by lia.
Qed.

(** What [manager_requirements] lists under the index of a resolver
    is what [resolver_requirements] returns for that resolver, in the
    same order; for a resolver without [list_dependencies] the one lists
    nothing and the other raises [NotImplemented]. *)
Theorem manager_requirements_of_resolver (n : nat) (r : R) :
  dependency_resolvers !! n = Some r →
  requirements_at n manager_requirements = default [] (list_dependencies r)
  ∧ resolver_requirements (JInt (Z.of_nat n))
    = from_option Ok (Raise NotImplemented) (list_dependencies r).
Proof.
  intros Hr. split.
  - unfold DependencyResolversView.manager_requirements. rewrite for_resolvers_at.
    rewrite decide_True by lia. by rewrite Nat.sub_0_r, Hr.
  - unfold DependencyResolversView.resolver_requirements,
      DependencyResolversView._dependency_resolver, Views.list_getitem. simpl.
    rewrite (proj2 (Z.ltb_ge (Z.of_nat n) 0)) by lia.
    rewrite Nat2Z.id, Hr. simpl.
    rewrite (proj2 (Z.ltb_ge (Z.of_nat n) 0)) by lia. simpl.
    by destruct (list_dependencies r).
Qed.

End listing_facts.

Lemma show_is_index_entry_witness :
  DependencyResolversView.show [JStr "conda"; JStr "galaxy_packages"] id (JStr "-1")
  = Ok (JStr "galaxy_packages").
Proof.
  destruct (proj1 (show_is_index_entry [JStr "conda"; JStr "galaxy_packages"] id
                     (JStr "-1") (-1) eq_refl)) as (x & Hx & Hshow); [simpl; lia|].
  rewrite Hshow. f_equal. vm_compute in Hx. by injection Hx.
Defined.

Lemma manager_requirements_of_resolver_witness :
  requirements_at 1
    (DependencyResolversView.manager_requirements
       [None; Some [JStr "samtools"; JStr "bwa"]; Some [JStr "R"]] id)
  = [JStr "samtools"; JStr "bwa"].
Proof.
  apply (manager_requirements_of_resolver
           [None; Some [JStr "samtools"; JStr "bwa"]; Some [JStr "R"]] id 1
           (Some [JStr "samtools"; JStr "bwa"])).
  reflexivity.
Defined.

(** ** The set of requirement tuples *)

Section flat_tuple_set_facts.
Context {T : Type} `{EqDecision T}.
Context (hash_frozenset : T → Z).

Local Abbreviation add := (FlatTupleSet.add hash_frozenset).
Local Abbreviation __iter__ := (@FlatTupleSet.__iter__ T).

Local Abbreviation buckets_ok := (buckets_ok hash_frozenset).

Lemma elem_of_iter (_set : gmap Z (list T)) (tup : T) :
  tup ∈ __iter__ _set ↔ ∃ tup_hash tups, _set !! tup_hash = Some tups ∧ tup ∈ tups.
Proof.
  unfold FlatTupleSet.__iter__. rewrite list_elem_of_join. split.
  - intros (tups & Htup & Htups). apply list_elem_of_fmap in Htups as ([h tups'] & -> & Hin).
    rewrite elem_of_map_to_list in Hin. by exists h, tups'.
  - intros (h & tups & Hlookup & Htup). exists tups. split; [done|].
    apply list_elem_of_fmap. exists (h, tups). split; [done|]. by rewrite elem_of_map_to_list.
Qed.

Lemma iter_insert (_set : gmap Z (list T)) (tup_hash : Z) (tups : list T) :
  _set !! tup_hash = None →
  __iter__ (<[tup_hash := tups]> _set) ≡ₚ tups ++ __iter__ _set.
Proof.
  intros Hnone. unfold FlatTupleSet.__iter__.
  by rewrite map_to_list_insert by done.
Qed.

Lemma iter_nodup (_set : gmap Z (list T)) : buckets_ok _set → NoDup (__iter__ _set).
Proof.
  induction _set as [|h tups _set Hnone IH] using map_ind.
  { intros _. unfold FlatTupleSet.__iter__. rewrite map_to_list_empty. constructor. }
  intros Hok. rewrite iter_insert by done. apply NoDup_app. split; [|split].
  - apply (Hok h). apply lookup_insert_eq.
  - intros tup Htup (h' & tups' & Hlookup & Htup')%elem_of_iter.
    assert (hash_frozenset tup = h) as Hh.
    { apply (Hok h tups); [apply lookup_insert_eq|done]. }
    assert (hash_frozenset tup = h') as Hh'.
    { apply (Hok h' tups'); [|done]. rewrite lookup_insert_ne; [done|]. congruence. }
    congruence.
  - apply IH. intros h' tups' Hlookup. apply Hok.
    rewrite lookup_insert_ne; [done|]. congruence.
Qed.

Lemma add_buckets_ok (tup : T) (_set : gmap Z (list T)) :
  buckets_ok _set → buckets_ok (add tup _set).
Proof.
  intros Hok. unfold FlatTupleSet.add.
  destruct (_set !! hash_frozenset tup) as [tups|] eqn:Hlookup.
  - destruct (bool_decide (tup ∈ tups)) eqn:Hin; [done|].
    apply bool_decide_eq_false_1 in Hin.
    intros h tups' [[<- <-]|[Hne Hother]]%lookup_insert_Some; [|by apply Hok].
    destruct (Hok _ _ Hlookup) as [Hnodup Hhash]. split.
    + apply NoDup_app. split; [done|]. split; [|apply NoDup_singleton].
      intros tup' Htup' ->%list_elem_of_singleton. done.
    + intros tup' [Htup'| ->%list_elem_of_singleton]%elem_of_app; [by apply Hhash|done].
  - intros h tups' [[<- <-]|[Hne Hother]]%lookup_insert_Some; [|by apply Hok].
    split; [apply NoDup_singleton|]. by intros tup' ->%list_elem_of_singleton.
Qed.

Lemma elem_of_iter_add (tup tup' : T) (_set : gmap Z (list T)) :
  tup' ∈ __iter__ (add tup _set) ↔ tup' = tup ∨ tup' ∈ __iter__ _set.
Proof.
  rewrite !elem_of_iter. unfold FlatTupleSet.add.
  destruct (_set !! hash_frozenset tup) as [tups|] eqn:Hlookup.
  - destruct (bool_decide (tup ∈ tups)) eqn:Hin.
    + apply bool_decide_eq_true_1 in Hin. split; [by right|].
      intros [->|?]; [|done]. by exists (hash_frozenset tup), tups.
    + split.
      * intros (h & tups' & [[<- <-]|[Hne Hother]]%lookup_insert_Some & Htup').
        -- apply elem_of_app in Htup' as [?| ->%list_elem_of_singleton]; [|by left].
           right. by exists (hash_frozenset tup), tups.
        -- right. by exists h, tups'.
      * intros [->|(h & tups' & Hother & Htup')].
        -- exists (hash_frozenset tup), (tups ++ [tup]). rewrite lookup_insert_eq.
           split; [done|]. apply elem_of_app. right. by apply list_elem_of_singleton.
        -- destruct (decide (h = hash_frozenset tup)) as [->|Hne].
           ++ exists (hash_frozenset tup), (tups ++ [tup]). rewrite lookup_insert_eq.
              split; [done|]. apply elem_of_app. left. congruence.
           ++ exists h, tups'. by rewrite lookup_insert_ne.
  - split.
    + intros (h & tups' & [[<- <-]|[Hne Hother]]%lookup_insert_Some & Htup').
      * left. by apply list_elem_of_singleton.
      * right. by exists h, tups'.
    + intros [->|(h & tups' & Hother & Htup')].
      * exists (hash_frozenset tup), [tup]. rewrite lookup_insert_eq.
        split; [done|]. by apply list_elem_of_singleton.
      * exists h, tups'. rewrite lookup_insert_ne; [done|]. congruence.
Qed.

Lemma add_all (tups : list T) (_set : gmap Z (list T)) :
  buckets_ok _set →
  buckets_ok (foldl (λ _set tup, add tup _set) _set tups)
  ∧ ∀ tup, tup ∈ __iter__ (foldl (λ _set tup, add tup _set) _set tups)
           ↔ tup ∈ tups ∨ tup ∈ __iter__ _set.
Proof.
  revert _set. induction tups as [|x tups IH]; intros _set Hok; simpl.
  { split; [done|]. intros tup. split; [by right|]. by intros [?%elem_of_nil|?]. }
  destruct (IH (add x _set)) as [Hok' Hiff]; [by apply add_buckets_ok|].
  split; [done|]. intros tup. rewrite Hiff, elem_of_iter_add, elem_of_cons. tauto.
Qed.

(** A [FlatTupleSet] is a set: walking it after a sequence of [add]s
    gives each of the tuples added once, whatever their hashes. *)
Theorem flat_tuple_set_is_a_set (tups : list T) :
  let _set := foldl (λ _set tup, add tup _set) FlatTupleSet.__init__ tups in
  NoDup (__iter__ _set) ∧ ∀ tup, tup ∈ __iter__ _set ↔ tup ∈ tups.
Proof.
  destruct (add_all tups FlatTupleSet.__init__) as [Hok Hiff].
  { intros h l. unfold FlatTupleSet.__init__. by rewrite lookup_empty. }
  split; [by apply iter_nodup|].
  intros tup. rewrite Hiff. split; [|by left].
  intros [?|Hin]; [done|]. apply elem_of_iter in Hin as (h & l & Hl & _).
  unfold FlatTupleSet.__init__ in Hl. by rewrite lookup_empty in Hl.
Qed.

End flat_tuple_set_facts.

(** ** The summary of the toolbox *)

Section toolbox_summary_facts.
Context {T : Type} `{EqDecision T}.
Context (hash_frozenset : T → Z).
Context (string_as_bool : json → bool).
Context (requirement_to_dict : T → gmap string json).
Context (find_dep_result : json → json → json → gmap string json → result json).

Local Abbreviation tool := (@DependencyResolversView.tool T).
Local Abbreviation for_tools := (DependencyResolversView.for_tools hash_frozenset).
Local Abbreviation for_requirement_set :=
  (DependencyResolversView.for_requirement_set requirement_to_dict find_dep_result).
Local Abbreviation toolbox_summary :=
  (DependencyResolversView.toolbox_summary hash_frozenset string_as_bool
     requirement_to_dict find_dep_result).

Lemma for_tools_from (tools : list tool) (requirement_set : gmap Z (list T)) :
  buckets_ok hash_frozenset requirement_set →
  let after :=
    foldl (λ requirement_set tool,
             if DependencyResolversView.tool_shed tool then requirement_set
             else DependencyResolversView.add_requirements hash_frozenset requirement_set
                    (DependencyResolversView.requirements tool))
      requirement_set tools in
  buckets_ok hash_frozenset after
  ∧ ∀ tup, tup ∈ FlatTupleSet.__iter__ after ↔
      (∃ tool, tool ∈ tools ∧ DependencyResolversView.tool_shed tool = false
               ∧ tup ∈ DependencyResolversView.requirements tool)
      ∨ tup ∈ FlatTupleSet.__iter__ requirement_set.
Proof.
  revert requirement_set. induction tools as [|tool tools IH]; intros requirement_set Hok.
  { simpl. split; [done|]. intros tup. split; [by right|].
    intros [(tool & ?%elem_of_nil & _)|?]; done. }
  simpl foldl. destruct (DependencyResolversView.tool_shed tool) eqn:Hshed.
  - destruct (IH requirement_set Hok) as [Hok' Hiff]. split; [done|].
    intros tup. rewrite Hiff. split.
    + intros [(tool' & Hin & Hrest)|?]; [left|by right].
      exists tool'. split; [by right|done].
    + intros [(tool' & [->|Hin]%elem_of_cons & Hshed' & Hrest)|?]; [congruence| |by right].
      left. by exists tool'.
  - destruct (add_all hash_frozenset (DependencyResolversView.requirements tool)
                requirement_set Hok) as [Hok1 Hiff1].
    destruct (IH _ Hok1) as [Hok' Hiff]. split; [done|].
    intros tup. rewrite Hiff. unfold DependencyResolversView.add_requirements.
    rewrite Hiff1. split.
    + intros [(tool' & Hin & Hrest)|[?|?]].
      * left. exists tool'. split; [by right|done].
      * left. exists tool. split; [left|done].
      * by right.
    + intros [(tool' & [->|Hin]%elem_of_cons & Hshed' & Hrest)|?].
      * right. by left.
      * left. by exists tool'.
      * right. by right.
Qed.

Lemma for_requirement_set_plain (tups : list T) (rval : list json) (calls : list Views.call) :
  for_requirement_set false tups rval calls
  = (Ok (rval ++ ((λ tup, requirement_item (requirement_to_dict tup)) <$> tups)), calls).
Proof.
  revert rval. induction tups as [|tup tups IH]; intros rval; simpl.
  { by rewrite app_nil_r. }
  rewrite IH. by rewrite <-app_assoc.
Qed.

(** Without [include_dependency_info] the summary has one item for
    each requirement of the tools that are not from a tool shed, however
    many tools have the requirement, and the dependency manager is not
    called. *)
Theorem toolbox_summary_lists_requirements_once (tools : list tool)
    (kwds : gmap string json) :
  string_as_bool (default (JBool false) (kwds !! "include_dependency_info")) = false →
  ∃ tups,
    toolbox_summary tools kwds
      = (Ok ((λ tup, requirement_item (requirement_to_dict tup)) <$> tups), [])
    ∧ NoDup tups
    ∧ ∀ tup, tup ∈ tups ↔
        ∃ tool, tool ∈ tools ∧ DependencyResolversView.tool_shed tool = false
                ∧ tup ∈ DependencyResolversView.requirements tool.
Proof.
  intros Hplain. exists (FlatTupleSet.__iter__ (for_tools tools)).
  destruct (for_tools_from tools FlatTupleSet.__init__) as [Hok Hiff].
  { intros h l. unfold FlatTupleSet.__init__. by rewrite lookup_empty. }
  split; [|split].
  - unfold DependencyResolversView.toolbox_summary. rewrite Hplain.
    by rewrite for_requirement_set_plain.
  - by apply iter_nodup in Hok.
  - intros tup. unfold DependencyResolversView.for_tools. rewrite Hiff. split; [|by left].
    intros [?|Hin]; [done|]. apply elem_of_iter in Hin as (h & l & Hl & _).
    unfold FlatTupleSet.__init__ in Hl. by rewrite lookup_empty in Hl.
Qed.

End toolbox_summary_facts.

Lemma toolbox_summary_lists_requirements_once_witness :
  ∃ tups,
    DependencyResolversView.toolbox_summary (λ tup : string, 0%Z) (λ _, false)
      (λ tup, {[ "name" := JStr tup ]}) (λ _ _ _ _, Ok JNull)
      [{| DependencyResolversView.tool_shed := false;
          DependencyResolversView.requirements := ["samtools"; "bwa"] |};
       {| DependencyResolversView.tool_shed := true;
          DependencyResolversView.requirements := ["R"] |};
       {| DependencyResolversView.tool_shed := false;
          DependencyResolversView.requirements := ["bwa"] |}] ∅
      = (Ok ((λ tup, requirement_item {[ "name" := JStr tup ]}) <$> tups), [])
    ∧ NoDup tups.
Proof.
  destruct (toolbox_summary_lists_requirements_once (λ tup : string, 0%Z) (λ _, false)
    (λ tup, {[ "name" := JStr tup ]}) (λ _ _ _ _, Ok JNull)
    [{| DependencyResolversView.tool_shed := false;
        DependencyResolversView.requirements := ["samtools"; "bwa"] |};
     {| DependencyResolversView.tool_shed := true;
        DependencyResolversView.requirements := ["R"] |};
     {| DependencyResolversView.tool_shed := false;
        DependencyResolversView.requirements := ["bwa"] |}] ∅)
    as (tups & Hsummary & Hnodup & _); [reflexivity|].
  exists tups. split; [exact Hsummary|exact Hnodup].
Defined.

(** ** The two sources of a toolbox *)

Section source_facts.
Import ToolConf.

Lemma element_to_dict_unfold (tag : string) (attrib : gmap string string)
    (children : list element) :
  element_to_dict (Element tag attrib children) =
    JDict (<["type" := JStr tag]>
      (if String.eqb tag "section"
       then <["items" := JList (element_to_dict <$> children)]> (JStr <$> attrib)
       else JStr <$> attrib)).
Proof. done. Qed.

Lemma is_type_element (t : string) (e : element) :
  is_type t (element_to_dict e) = bool_decide (tag e = t).
Proof.
  destruct e as [tag attrib children]. rewrite element_to_dict_unfold.
  simpl is_type. rewrite lookup_insert_eq. simpl. apply py_eq_str.
Qed.

Lemma element_item_ok (c : element) :
  no_group_tags c = true →
  is_dict (element_to_dict c) &&
    (if is_type "group" (element_to_dict c) then false
     else if is_type "section" (element_to_dict c)
          then tree_ok (λ _, false) (element_to_dict c)
          else true) = true.
Proof.
  induction c as [tag attrib children IH] using element_forall_ind.
  rewrite !is_type_element. simpl ToolConf.tag. intros Hc. simpl in Hc.
  apply andb_prop in Hc as [Htag Hchildren].
  destruct (String.eqb_spec tag "group") as [->|Hne]; [done|].
  rewrite (bool_decide_eq_false_2 (tag = "group")) by done.
  rewrite element_to_dict_unfold.
  destruct (String.eqb_spec tag "section") as [->|Hnsec].
  2:{ by rewrite bool_decide_eq_false_2. }
  rewrite bool_decide_eq_true_2 by done. simpl is_dict. cbn [andb].
  rewrite tree_ok_unfold, lookup_insert_ne, lookup_insert_eq by done.
  clear Htag Hne. induction IH as [|g children Hg IH IHrest]; [done|].
  simpl in Hchildren. apply andb_prop in Hchildren as [Hg' Hchildren].
  rewrite fmap_cons. cbn [forallb]. rewrite IHrest by done. rewrite andb_true_r.
  by apply Hg.
Qed.

Lemma elements_tree_ok (children : list element) :
  forallb no_group_tags children = true →
  forallb (λ x, is_dict x &&
                (if is_type "group" x then false
                 else if is_type "section" x then tree_ok (λ _, false) x
                 else true)) (element_to_dict <$> children) = true.
Proof.
  induction children as [|c children IH]; [done|].
  rewrite fmap_cons. cbn [forallb]. intros [Hc Hchildren]%andb_prop.
  rewrite IH by done. rewrite andb_true_r. by apply element_item_ok.
Qed.

Lemma preprocess_no_groups (d : gmap string json) :
  d !! "groups" = None →
  tree_ok (λ _, false) (JDict d) = true →
  Parser._preprocess (JDict d) = Ok (JDict d).
Proof.
  intros Hgroups Hok. unfold Parser._preprocess, Parser.pop_groups.
  rewrite Hgroups, delete_id by done.
  exact (replace_groups_no_groups [] _ Hok).
Qed.

(** The two sources agree.  A toolbox written as XML and the same
    toolbox written for the YAML source, with the tags as types and the
    children of sections as their items, give the same items, the link
    to the XML element apart; no element is to have the tag [group],
    which only the YAML source treats apart, or an attribute called
    [type] or [items]. *)
Theorem xml_and_yaml_sources_agree (root : element) :
  forallb plain_names (getchildren root) = true →
  forallb no_group_tags (getchildren root) = true →
  (as_dict ← YamlToolConfSource (items_doc (element_to_dict <$> getchildren root));
   yaml_parse_items as_dict)
    = Ok (forget_elem <$> (of_element <$> getchildren root))
  ∧ xml_parse_items root = Some <$> (of_element <$> getchildren root).
Proof.
  intros Hplain Hgroups. split.
  - unfold YamlToolConfSource, items_doc.
    rewrite preprocess_no_groups.
    + cbn [mbind result_bind]. unfold yaml_parse_items. simpl.
      rewrite <-list_fmap_compose.
      apply (mapM_fmap_ok from_dict element_to_dict (forget_elem ∘ of_element)).
      rewrite forallb_forall in Hplain. apply Forall_forall. intros c Hc. simpl.
      apply from_dict_of_element. apply Hplain. by apply list_elem_of_In.
    + reflexivity.
    + rewrite tree_ok_unfold, lookup_singleton_eq. by apply elements_tree_ok.
  - unfold xml_parse_items. by rewrite <-list_fmap_compose.
Qed.

(** A configuration without items loads, and [parse_items] then
    raises [TypeError]: [_preprocess] reads the items with [[]] for a
    default, [parse_items] with [None]. *)
Theorem yaml_source_without_items (d : gmap string json) (groups : list json)
    (group_map : pydict) :
  d !! "items" = None →
  default (JList []) (d !! "groups") = JList groups →
  Parser.build_group_map groups [] = Ok group_map →
  YamlToolConfSource (JDict d) = Ok (JDict (delete "groups" d))
  ∧ yaml_parse_items (JDict (delete "groups" d)) = Raise TypeError.
Proof.
  intros Hitems Hgroups Hbuild. split.
  - unfold YamlToolConfSource, Parser._preprocess, Parser.pop_groups. rewrite Hgroups.
    change ((Parser.build_group_map groups [] ≫= λ group_map,
               Parser.replace_groups_in_items group_map (JDict (delete "groups" d)))
            = Ok (JDict (delete "groups" d))).
    rewrite Hbuild. cbn [mbind result_bind].
    rewrite replace_groups_in_items_unfold. by rewrite lookup_delete_ne, Hitems.
  - unfold yaml_parse_items. simpl. by rewrite lookup_delete_ne, Hitems.
Qed.

End source_facts.

Lemma xml_and_yaml_sources_agree_witness :
  (as_dict ← ToolConf.YamlToolConfSource (items_doc [section "s" "S" [tool "t"]; tool "u"]);
   ToolConf.yaml_parse_items as_dict)
  = Ok [ToolConf.ToolConfSection {[ "id" := JStr "s"; "name" := JStr "S" ]}
          [ToolConf.ToolConfItem (JStr "tool") {[ "id" := JStr "t" ]} None] None;
        ToolConf.ToolConfItem (JStr "tool") {[ "id" := JStr "u" ]} None].
Proof.
  refine (eq_trans _ (eq_trans (proj1 (xml_and_yaml_sources_agree
    (ToolConf.Element "toolbox" ∅
       [ToolConf.Element "section" {[ "id" := "s"; "name" := "S" ]}
          [ToolConf.Element "tool" {[ "id" := "t" ]} []];
        ToolConf.Element "tool" {[ "id" := "u" ]} []]) _ _)) _));
    vm_compute; reflexivity.
Defined.

Lemma yaml_source_without_items_witness :
  ToolConf.yaml_parse_items (JDict (delete "groups"
    {[ "groups" := JList [group_def "g" true [tool "t"]] ]})) = Raise TypeError.
Proof.
  apply (yaml_source_without_items {[ "groups" := JList [group_def "g" true [tool "t"]] ]}
           [group_def "g" true [tool "t"]] [(JStr "g", JList [tool "t"])]);
    vm_compute; reflexivity.
Defined.
